(** * VFIO address-space pipeline (hw/vfio/as.c, hw/vfio/iommufd.c)

    A shallow embedding of the memory-listener / container / IOMMU-backend
    pipeline.  Machine integers are [Z] with the wrap-around written out,
    the intrusive QLISTs are Rocq lists (head insertion is [cons]), and the
    calls that leave the two source files (backend operations, the memory
    API) are recorded in a chronological event trace; what such a call
    returns is given by an oracle that may depend on the whole history.
    [trace_*], [error_report] and [warn_report] lines only log and are left
    out, except where computing an argument can stop the process: the skip
    traces of region_add and region_del convert [size - 1] with
    [int128_get64], which asserts.  The device side of the fd-based backend (the KVM VFIO device, the
    hardware page tables of a container, device reset) and the registry of
    address spaces keep their own state and their own record of calls. *)

From Stdlib Require Import ZArith List Bool Lia String.
Import ListNotations.
Local Open Scope Z_scope.

(** ** Machine arithmetic *)

(** [hwaddr], [ram_addr_t], [uint64_t] and host pointers are 64-bit unsigned. *)
Definition wrap64 (z : Z) : Z := z mod 2 ^ 64.

Definition hwaddr_ok (z : Z) : Prop := 0 <= z < 2 ^ 64.

(** Modelled from the spec: [ROUND_UP] is a macro of qemu/osdep.h, which is
    not among the sources; §4.3.6 reads [ROUND_UP(start + 1, granularity)]
    as round_up(start+1, granularity).  The macro is
    [((n) + (d) - 1) & -(0 ? (n) : (d))], here on 64-bit unsigned
    operands. *)
Definition ROUND_UP (n d : Z) : Z := Z.land (wrap64 (n + d - 1)) (wrap64 (- d)).

(** Modelled from the spec: [MIN] is a macro of qemu/osdep.h, which is not
    among the sources; the min of §4.3.6. *)
Definition MIN (a b : Z) : Z := if a <? b then a else b.

(** Modelled from the spec: [ctz64] is an inline function of
    qemu/host-utils.h, which is not among the sources.  [1 << ctz64(m)] is
    the smallest page size of a page-size mask [m] (§4.3.3); [ctz64] counts
    the trailing zero bits and gives 64 on 0. *)
Definition ctz64 (x : Z) : Z :=
  if x =? 0 then 64 else Z.log2 (Z.land x (- x)).

(** Modelled from the spec: [is_power_of_2] is an inline function of
    qemu/host-utils.h, which is not among the sources; it tells whether the
    granularity is a power of two (§3): [value && !(value & (value - 1))]. *)
Definition is_power_of_2 (v : Z) : bool :=
  negb (v =? 0) && (Z.land v (wrap64 (v - 1)) =? 0).

(** Modelled from the spec: [Int128] and its operations come from
    qemu/int128.h, which is not among the sources.  §3 makes the size of a
    section a 128-bit integer so that it can be [2^64] exactly; the values
    are signed and the arithmetic wraps at 128 bits. *)
Definition Int128 := Z.

(** Modelled from the spec: int128.h is not among the sources; the value a
    128-bit signed result wraps to. *)
Definition int128_wrap (z : Z) : Int128 := (z + 2 ^ 127) mod 2 ^ 128 - 2 ^ 127.

(** Modelled from the spec: int128.h is not among the sources; a 64-bit
    unsigned value as an [Int128]. *)
Definition int128_make64 (a : Z) : Int128 := a.

(** Modelled from the spec: int128.h is not among the sources; a 64-bit
    signed value, sign-extended. *)
Definition int128_exts64 (a : Z) : Int128 := a.

(** Modelled from the spec: int128.h is not among the sources; the
    constant 1. *)
Definition int128_one : Int128 := 1.

(** Modelled from the spec: int128.h is not among the sources; the constant
    [2^64], the full span of §4.3.7. *)
Definition int128_2_64 : Int128 := 2 ^ 64.

(** Modelled from the spec: int128.h is not among the sources; addition. *)
Definition int128_add (a b : Int128) : Int128 := int128_wrap (a + b).

(** Modelled from the spec: int128.h is not among the sources;
    subtraction. *)
Definition int128_sub (a b : Int128) : Int128 := int128_wrap (a - b).

(** Modelled from the spec: int128.h is not among the sources; bitwise
    and. *)
Definition int128_and (a b : Int128) : Int128 := Z.land a b.

(** Modelled from the spec: int128.h is not among the sources; arithmetic
    shift to the right. *)
Definition int128_rshift (a : Int128) (k : Z) : Int128 := Z.shiftr a k.

(** Modelled from the spec: int128.h is not among the sources; signed
    comparison [a >= b]. *)
Definition int128_ge (a b : Int128) : bool := b <=? a.

(** Modelled from the spec: int128.h is not among the sources; equality. *)
Definition int128_eq (a b : Int128) : bool := a =? b.

(** Modelled from the spec: int128.h is not among the sources.
    [int128_get64] gives the value as a 64-bit unsigned integer and asserts
    that it fits; [None] is the failed assertion. *)
Definition int128_get64 (a : Int128) : option Z :=
  if (0 <=? a) && (a <? 2 ^ 64) then Some a else None.

(** ** Data model

    The structures of exec/memory.h and hw/vfio/vfio-common.h are not among
    the sources; the records below carry the fields the two files read and
    write, under the names the code uses (§3 of the specification lists
    them).  An object that the code compares by address carries an
    identity. *)

Record MemoryRegion := {
  mr_id : Z;                      (* identity of the object *)
  mr_name : string;
  mr_is_ram : bool;
  mr_is_iommu : bool;
  mr_is_ram_device : bool;
  mr_is_protected : bool;
  mr_rdm : option Z;              (* RamDiscardManager, by its min granularity *)
  mr_ram_ptr : Z;
  mr_ram_addr : Z;
  mr_owner_is_tpm_crb : bool
}.

(** Modelled from the spec: the accessors of the memory API are not among
    the sources; each reads one flag of the region (§3, Section). *)
Definition memory_region_is_ram (mr : MemoryRegion) := mr_is_ram mr.

(** Modelled from the spec: as above, the is_iommu flag. *)
Definition memory_region_is_iommu (mr : MemoryRegion) := mr_is_iommu mr.

(** Modelled from the spec: as above, the is_ram_device flag. *)
Definition memory_region_is_ram_device (mr : MemoryRegion) := mr_is_ram_device mr.

(** Modelled from the spec: as above, the is_protected flag. *)
Definition memory_region_is_protected (mr : MemoryRegion) := mr_is_protected mr.

(** Modelled from the spec: as above, the has_ram_discard_manager flag. *)
Definition memory_region_has_ram_discard_manager (mr : MemoryRegion) : bool :=
  match mr_rdm mr with Some _ => true | None => false end.

Record MemoryRegionSection := {
  mr : MemoryRegion;
  offset_within_address_space : Z;
  offset_within_region : Z;
  size : Int128;
  readonly : bool
}.

Record IOMMUTLBEntry := {
  target_as : Z;
  iotlb_iova : Z;
  translated_addr : Z;
  addr_mask : Z;
  perm : Z
}.

(** Modelled from the spec: the [IOMMUNotifierFlag] values of exec/memory.h
    are not among the sources.  UNMAP and MAP are two distinct bits. *)
Definition IOMMU_NOTIFIER_UNMAP : Z := 1.

(** Modelled from the spec: as above, the MAP bit. *)
Definition IOMMU_NOTIFIER_MAP : Z := 2.

(** Modelled from the spec: as above.  The code comments its use of
    [IOMMU_NOTIFIER_IOTLB_EVENTS] with "MAP/UNMAP IOTLB notifier", and §3
    calls it the MAP/UNMAP pair. *)
Definition IOMMU_NOTIFIER_IOTLB_EVENTS : Z :=
  Z.lor IOMMU_NOTIFIER_MAP IOMMU_NOTIFIER_UNMAP.

(** The three callbacks this file installs in an [IOMMUNotifier]. *)
Inductive IOMMUNotify :=
| vfio_nested_unmap_notify_fn
| vfio_iommu_map_notify_fn
| vfio_iommu_map_dirty_notify_fn.

Record IOMMUNotifier := {
  notify : IOMMUNotify;
  notifier_flags : Z;
  n_start : Z;
  n_end : Z;
  iommu_idx : Z
}.

(** Modelled from the spec: [iommu_notifier_init] is an inline function of
    exec/memory.h, which is not among the sources; it fills the notifier
    with its arguments [(fn, flags, start, end, iommu_idx)] (§3, Guest-IOMMU
    notifier). *)
Definition iommu_notifier_init (fn : IOMMUNotify) (flags start end_ idx : Z)
  : IOMMUNotifier :=
  {| notify := fn; notifier_flags := flags;
     n_start := start; n_end := end_; iommu_idx := idx |}.

Record VFIOHostDMAWindow := {
  min_iova : Z;
  max_iova : Z;
  iova_pgsizes : Z
}.

Record VFIOGuestIOMMU := {
  giommu_container : Z;
  iommu_mr : MemoryRegion;
  iommu_offset : Z;
  n : IOMMUNotifier
}.

Record VFIORamDiscardListener := {
  vrdl_container : Z;
  vrdl_mr : MemoryRegion;
  vrdl_offset_within_address_space : Z;
  vrdl_size : Z;
  granularity : Z
}.

(** [Error] objects, by what they report rather than by their text. *)
Inductive Error :=
| err_no_window (cid iova end_ : Z)
| err_dma_map (cid iova sz vaddr ret : Z)
| err_callee (what : string) (ret : Z)
| err_prepend (prefix : string) (e : Error).

(** The two concrete backend operation tables. *)
Inductive VFIOIOMMUBackendOps := LEGACY_OPS | IOMMUFD_OPS.

Inductive VFIOContainerFeature := VFIO_FEAT_DMA_COPY | VFIO_FEAT_OTHER.

(** [VFIOContainer], with the two fields [VFIOIOMMUFDContainer] adds for the
    fd-based backend ([be->fd], [ioas_id]). *)
Record VFIOContainer := {
  cid : Z;                        (* identity of the object *)
  ops : VFIOIOMMUBackendOps;
  be_fd : Z;
  ioas_id : Z;
  nested : bool;
  initialized : bool;
  dirty_pages_supported : bool;
  error : option Error;
  pgsizes : Z;
  dma_max_mappings : Z;
  hostwin_list : list VFIOHostDMAWindow;
  giommu_list : list VFIOGuestIOMMU;
  vrdl_list : list VFIORamDiscardListener
}.

Definition set_hostwin_list (c : VFIOContainer) (l : list VFIOHostDMAWindow) :=
  {| cid := cid c; ops := ops c; be_fd := be_fd c; ioas_id := ioas_id c;
     nested := nested c; initialized := initialized c;
     dirty_pages_supported := dirty_pages_supported c; error := error c;
     pgsizes := pgsizes c; dma_max_mappings := dma_max_mappings c;
     hostwin_list := l; giommu_list := giommu_list c;
     vrdl_list := vrdl_list c |}.

Definition set_giommu_list (c : VFIOContainer) (l : list VFIOGuestIOMMU) :=
  {| cid := cid c; ops := ops c; be_fd := be_fd c; ioas_id := ioas_id c;
     nested := nested c; initialized := initialized c;
     dirty_pages_supported := dirty_pages_supported c; error := error c;
     pgsizes := pgsizes c; dma_max_mappings := dma_max_mappings c;
     hostwin_list := hostwin_list c; giommu_list := l;
     vrdl_list := vrdl_list c |}.

Definition set_vrdl_list (c : VFIOContainer) (l : list VFIORamDiscardListener) :=
  {| cid := cid c; ops := ops c; be_fd := be_fd c; ioas_id := ioas_id c;
     nested := nested c; initialized := initialized c;
     dirty_pages_supported := dirty_pages_supported c; error := error c;
     pgsizes := pgsizes c; dma_max_mappings := dma_max_mappings c;
     hostwin_list := hostwin_list c; giommu_list := giommu_list c;
     vrdl_list := l |}.

Definition set_error (c : VFIOContainer) (e : option Error) :=
  {| cid := cid c; ops := ops c; be_fd := be_fd c; ioas_id := ioas_id c;
     nested := nested c; initialized := initialized c;
     dirty_pages_supported := dirty_pages_supported c; error := e;
     pgsizes := pgsizes c; dma_max_mappings := dma_max_mappings c;
     hostwin_list := hostwin_list c; giommu_list := giommu_list c;
     vrdl_list := vrdl_list c |}.

Definition set_initialized (c : VFIOContainer) (b : bool) :=
  {| cid := cid c; ops := ops c; be_fd := be_fd c; ioas_id := ioas_id c;
     nested := nested c; initialized := b;
     dirty_pages_supported := dirty_pages_supported c; error := error c;
     pgsizes := pgsizes c; dma_max_mappings := dma_max_mappings c;
     hostwin_list := hostwin_list c; giommu_list := giommu_list c;
     vrdl_list := vrdl_list c |}.

(** The binding of an address space: its containers, head first. *)
Record VFIOAddressSpace := {
  as_id : Z;
  containers : list VFIOContainer;
  listener_initialized : bool
}.

Definition set_containers (space : VFIOAddressSpace)
    (l : list VFIOContainer) : VFIOAddressSpace :=
  {| as_id := as_id space; containers := l;
     listener_initialized := listener_initialized space |}.

(** The [void *opaque] that [ram_discard_manager_replay_populated] passes
    on to its callback: a pointer to a listener, which is what
    [vfio_ram_discard_get_dirty_bitmap] casts it to, or the address of a
    local variable of type [VFIORamDiscardListener *] that points to one. *)
Inductive ReplayOpaque :=
| opaque_listener (vrdl : VFIORamDiscardListener)
| opaque_listener_pointer (vrdl : VFIORamDiscardListener).

(** ** Calls that leave the two files *)

Inductive Event :=
(* backend operation table *)
| ev_dma_map (cid iova sz vaddr : Z) (ro : bool)
| ev_dma_copy (src dst iova sz : Z) (ro : bool)
| ev_dma_unmap (cid iova sz : Z) (iotlb : option IOMMUTLBEntry)
| ev_get_dirty_bitmap (cid iova sz ram_addr : Z)
| ev_add_section_window (cid : Z) (s : MemoryRegionSection)
| ev_del_section_window (cid : Z) (s : MemoryRegionSection)
| ev_devices_all_dirty_tracking (cid : Z)
(* memory API *)
| ev_memory_region_ref (mrid : Z)
| ev_memory_region_unref (mrid : Z)
| ev_iommu_set_page_size_mask (mrid mask : Z)
| ev_register_iommu_notifier (mrid : Z) (nf : IOMMUNotifier)
| ev_unregister_iommu_notifier (mrid : Z) (nf : IOMMUNotifier)
| ev_iommu_replay (mrid : Z) (nf : IOMMUNotifier)
| ev_invalidate_cache (mrid : Z) (iotlb : IOMMUTLBEntry)
| ev_rdm_register_listener (mrid : Z) (l : VFIORamDiscardListener)
    (s : MemoryRegionSection)
| ev_rdm_unregister_listener (mrid : Z) (l : VFIORamDiscardListener)
| ev_rdm_replay_populated (mrid : Z) (s : MemoryRegionSection)
    (opaque : ReplayOpaque).

Definition Trace := list Event.

(** How the process can stop: [hw_error] aborts, and so does a failed
    [assert]; a loop model that ran out of fuel is kept apart. *)
Inductive Fault := hw_error | assert_failed | out_of_fuel.

Inductive Res (A : Type) :=
| Ok (a : A)
| Stop (f : Fault).
Arguments Ok {A} a.
Arguments Stop {A} f.

(** Computations thread the trace; a stopped computation keeps the events
    issued before it stopped. *)
Definition M (A : Type) := Trace -> Res A * Trace.

Definition ret {A} (a : A) : M A := fun tr => (Ok a, tr).

Definition bind {A B} (m : M A) (k : A -> M B) : M B :=
  fun tr => match m tr with
            | (Ok a, tr') => k a tr'
            | (Stop f, tr') => (Stop f, tr')
            end.

Definition stop {A} (f : Fault) : M A := fun tr => (Stop f, tr).

(** C [assert] / [g_assert]. *)
Definition assert (b : bool) : M unit :=
  if b then ret tt else stop assert_failed.

(** [int128_get64] inside a computation. *)
Definition get64 (a : Int128) : M Z :=
  match int128_get64 a with
  | Some v => ret v
  | None => stop assert_failed
  end.

Declare Scope vfio_scope.
Delimit Scope vfio_scope with vfio.
Notation "x <- m ;; k" := (bind m (fun x => k))
  (at level 61, m at next level, right associativity) : vfio_scope.
Notation "m ;;; k" := (bind m (fun _ => k))
  (at level 61, right associativity) : vfio_scope.
Local Open Scope vfio_scope.
Notation "' pat <- m ;; k" := (bind m (fun pat => k))
  (at level 61, pat pattern, m at next level, right associativity) : vfio_scope.

(** errno values used by the code. *)
Definition EFAULT : Z := 14.
Definition EINVAL : Z := 22.

(** Modelled from the spec: the [IOMMUAccessFlags] of exec/memory.h are not
    among the sources; no access (§4.3.4). *)
Definition IOMMU_NONE : Z := 0.

(** Modelled from the spec: as above, read and write access. *)
Definition IOMMU_RW : Z := 3.

Definition nonzero (r : Z) : bool := negb (r =? 0).

(** ** What surrounds the two files

    The page sizes of the host and of the target, the answers of the
    backends and of the memory core to the calls recorded in the trace (they
    may depend on the whole history), and the memory-API queries that have
    no side effect: the IOMMU index of a region, [memory_get_xlat_addr]
    (giving vaddr, ram_addr, read_only and mr_has_discard_manager when it
    succeeds) and the identity of [address_space_memory]. *)
Record Env := {
  env_host_page_size : Z;
  env_target_page_size : Z;
  env_oracle : Trace -> Event -> Z;
  env_iommu_attrs_to_index : MemoryRegion -> Z;
  env_get_xlat_addr : IOMMUTLBEntry -> option (Z * Z * bool * bool);
  env_address_space_memory : Z
}.

(** ** The device side of the fd-based backend

    [VFIODevice], [VFIOIOASHwpt] and [VFIOIOMMUFDContainer] are declared in
    hw/vfio/vfio-common.h, which is not among the sources; the records
    below carry the fields iommufd.c reads and writes, under the names the
    code uses.  [realized] is [vbasedev->dev->realized]. *)
Record VFIODevice := {
  vdev_id : Z;                    (* identity of the object *)
  dev_fd : Z;
  devid : Z;
  realized : bool;
  needs_reset : bool
}.

Definition set_devid (vbasedev : VFIODevice) (v : Z) : VFIODevice :=
  {| vdev_id := vdev_id vbasedev; dev_fd := dev_fd vbasedev; devid := v;
     realized := realized vbasedev; needs_reset := needs_reset vbasedev |}.

Definition set_needs_reset (vbasedev : VFIODevice) (b : bool) : VFIODevice :=
  {| vdev_id := vdev_id vbasedev; dev_fd := dev_fd vbasedev;
     devid := devid vbasedev; realized := realized vbasedev;
     needs_reset := b |}.

(** A hardware page table of the container with the devices attached to
    it, head first. *)
Record VFIOIOASHwpt := {
  hwpt_id : Z;
  device_list : list VFIODevice
}.

(** [VFIOIOMMUFDContainer]: the base container (which carries [be->fd] and
    [ioas_id] here), the nested data handed to the hwpt allocation (type,
    length and pointer), and the hwpts, head first. *)
Record VFIOIOMMUFDContainer := {
  bcontainer : VFIOContainer;
  nested_data : Z * Z * Z;
  hwpt_list : list VFIOIOASHwpt
}.

Definition set_hwpt_list (container : VFIOIOMMUFDContainer)
    (l : list VFIOIOASHwpt) : VFIOIOMMUFDContainer :=
  {| bcontainer := bcontainer container;
     nested_data := nested_data container; hwpt_list := l |}.

(** The two attributes [vfio_kvm_device_add_fd] and
    [vfio_kvm_device_del_fd] set in the group [KVM_DEV_VFIO_GROUP]. *)
Inductive KVMVFIOAttr := KVM_DEV_VFIO_GROUP_ADD | KVM_DEV_VFIO_GROUP_DEL.

(** The ioctls and callbacks of the device side, as they are made:
    [kvm_vm_ioctl(kvm_state, KVM_CREATE_DEVICE, &cd)],
    [ioctl(vfio_kvm_device_fd, KVM_SET_DEVICE_ATTR, &attr)] with the
    attribute and the fd [attr.addr] points to,
    [ioctl(vbasedev->fd, VFIO_DEVICE_BIND_IOMMUFD, &bind)] with the iommufd
    and the cookie, [iommufd_backend_alloc_hwpt], the attach and detach
    ioctls of the device fd, and the two reset callbacks of a device. *)
Inductive DevCall :=
| kvm_create_device
| kvm_set_device_attr (kvm_fd : Z) (attr : KVMVFIOAttr) (fd : Z)
| vfio_device_bind_iommufd (fd iommufd cookie : Z)
| iommufd_backend_alloc_hwpt (iommufd dev ioas : Z) (data : Z * Z * Z)
| vfio_device_attach_iommufd_pt (fd pt_id : Z)
| vfio_device_detach_iommufd_pt (fd : Z)
| vfio_compute_needs_reset (dev : Z)
| vfio_hot_reset_multi (dev : Z).

(** What such a call gives back: the [int] it returns, what it writes
    through its argument ([cd.fd], [bind.out_devid], the hwpt id,
    [needs_reset]), and [errno] after it. *)
Record DevAnswer := {
  ans_ret : Z;
  ans_out : Z;
  ans_errno : Z
}.

(** The process state of the device side: the global
    [vfio_kvm_device_fd] and the calls made so far. *)
Record DevState := {
  vfio_kvm_device_fd : Z;
  dev_calls : list DevCall
}.

(** What surrounds the device side: [kvm_enabled()], and the answers of the
    kernel and of the device callbacks, which may depend on the history. *)
Record DevEnv := {
  env_kvm_enabled : bool;
  env_answer : list DevCall -> DevCall -> DevAnswer
}.

(** [Error] objects of the device side, by what they report. *)
Inductive DevError :=
| bind_error
| alloc_hwpt_error
| attach_error
| detach_error.

(** Further errno values used by the code. *)
Definition ENODEV : Z := 19.
Definition EBADF : Z := 9.

(** ** Example configurations *)

Definition mk_region (id : Z) (name : string)
    (is_ram is_iommu is_ram_device is_protected : bool) (rdm : option Z)
  : MemoryRegion :=
  {| mr_id := id; mr_name := name; mr_is_ram := is_ram;
     mr_is_iommu := is_iommu; mr_is_ram_device := is_ram_device;
     mr_is_protected := is_protected; mr_rdm := rdm;
     mr_ram_ptr := 2 ^ 40; mr_ram_addr := 0;
     mr_owner_is_tpm_crb := false |}.

Definition mk_section (region : MemoryRegion) (oas owr sz : Z)
  : MemoryRegionSection :=
  {| mr := region; offset_within_address_space := oas;
     offset_within_region := owr; size := sz; readonly := false |}.

(** A container of the fd-based backend with the window the backend gives
    it, [vfio_host_win_add(bcontainer, 0, (hwaddr)-1, page size)]. *)
Definition mk_container (id fd : Z) (is_nested is_initialized : bool)
  : VFIOContainer :=
  {| cid := id; ops := IOMMUFD_OPS; be_fd := fd; ioas_id := id;
     nested := is_nested; initialized := is_initialized;
     dirty_pages_supported := true; error := None;
     pgsizes := 4096; dma_max_mappings := 0;
     hostwin_list := [ {| min_iova := 0; max_iova := 2 ^ 64 - 1;
                          iova_pgsizes := 4096 |} ];
     giommu_list := []; vrdl_list := [] |}.

Definition ram_region : MemoryRegion :=
  mk_region 100 "pc.ram" true false false false None.
Definition protected_ram_region : MemoryRegion :=
  mk_region 101 "secure.ram" true false false true None.
Definition iommu_region : MemoryRegion :=
  mk_region 102 "smmuv3-iommu" false true false false None.
Definition ram_device_region : MemoryRegion :=
  mk_region 103 "bar0 mmaps[0]" true false true false None.
Definition mmio_region : MemoryRegion :=
  mk_region 104 "mmio" false false false false None.
Definition discard_ram_region : MemoryRegion :=
  mk_region 105 "virtio-mem" true false false false (Some (2 ^ 21)).

(** A backend and a memory core that accept every call. *)
Definition oracle_ok : Trace -> Event -> Z := fun _ _ => 0.

(** A backend that rejects every map with [-ENOMEM]. *)
Definition oracle_map_fails : Trace -> Event -> Z :=
  fun _ ev => match ev with
              | ev_dma_map _ _ _ _ _ => -12
              | _ => 0
              end.

(** A backend that accepts the first map it sees and rejects the others. *)
Definition oracle_second_map_fails : Trace -> Event -> Z :=
  fun tr ev =>
    match ev with
    | ev_dma_map _ _ _ _ _ =>
        if existsb (fun e => match e with
                             | ev_dma_map _ _ _ _ _ => true
                             | _ => false
                             end) tr
        then -12 else 0
    | _ => 0
    end.

(** 4 KiB pages on both sides. *)
Definition mk_env (o : Trace -> Event -> Z) : Env :=
  {| env_host_page_size := 4096; env_target_page_size := 4096;
     env_oracle := o; env_iommu_attrs_to_index := fun _ => 0;
     env_get_xlat_addr := fun _ => None;
     env_address_space_memory := 0 |}.

Definition two_container_space : VFIOAddressSpace :=
  {| as_id := 1;
     containers := [ mk_container 1 3 false true;
                     mk_container 2 3 false true ];
     listener_initialized := true |}.

(** A container of the legacy kind with one window [0, 0xffff]. *)
Definition one_window_container : VFIOContainer :=
  {| cid := 7; ops := LEGACY_OPS; be_fd := 0; ioas_id := 0;
     nested := false; initialized := false;
     dirty_pages_supported := false; error := None;
     pgsizes := 4096; dma_max_mappings := 65535;
     hostwin_list := [ {| min_iova := 0; max_iova := 65535;
                          iova_pgsizes := 4096 |} ];
     giommu_list := []; vrdl_list := [] |}.

Definition ram_1g : MemoryRegionSection := mk_section ram_region 0 0 (2 ^ 30).

Definition iommu_4g : MemoryRegionSection :=
  mk_section iommu_region 0 0 (2 ^ 32).

Definition nested_notifier : IOMMUNotifier :=
  {| notify := vfio_nested_unmap_notify_fn;
     notifier_flags := IOMMU_NOTIFIER_IOTLB_EVENTS;
     n_start := 0; n_end := 2 ^ 32 - 1; iommu_idx := 0 |}.

Definition nested_container : VFIOContainer := mk_container 1 3 true false.

Definition plain_container : VFIOContainer := mk_container 1 3 false true.

(** Half a page before a page boundary, two pages long. *)
Definition ram_straddling : MemoryRegionSection :=
  mk_section ram_region 2048 2048 8192.

(** The whole 64-bit address space as one RAM section. *)
Definition ram_full_span : MemoryRegionSection :=
  mk_section ram_region 0 0 (2 ^ 64).

(** A container whose only window has 64 KiB IOMMU pages, and one 4 KiB page
    of a RAM device (a BAR) at 4096. *)
Definition container_64k : VFIOContainer :=
  set_hostwin_list plain_container
    [ {| min_iova := 0; max_iova := 2 ^ 64 - 1; iova_pgsizes := 65536 |} ].

Definition small_bar : MemoryRegionSection :=
  mk_section ram_device_region 4096 4096 4096.

(** A discard-managed region with 8 KiB granules, three granules of it
    mapped at 4 GiB, and the listener [vfio_register_ram_discard_listener]
    creates for them. *)
Definition small_discard_region : MemoryRegion :=
  mk_region 106 "virtio-mem-small" true false false false (Some 8192).

Definition three_granules : MemoryRegionSection :=
  mk_section small_discard_region (2 ^ 32) 0 24576.

Definition three_granules_listener : VFIORamDiscardListener :=
  {| vrdl_container := 1; vrdl_mr := small_discard_region;
     vrdl_offset_within_address_space := 2 ^ 32; vrdl_size := 24576;
     granularity := 8192 |}.

(** A first device attaches: no container yet, and every map is refused. *)
Definition empty_space : VFIOAddressSpace :=
  {| as_id := 1; containers := []; listener_initialized := false |}.

Definition fresh_container : VFIOContainer := mk_container 1 3 false false.

Definition first_map_error : Error :=
  err_dma_map 1 0 (2 ^ 30) (2 ^ 40) (-12).

(** Half a page of RAM inside one page: no whole page to map. *)
Definition ram_sub_page : MemoryRegionSection :=
  mk_section ram_region 1024 1024 2048.

(** A backend that refuses every copy with [-EINVAL]. *)
Definition oracle_copy_fails : Trace -> Event -> Z :=
  fun _ ev => match ev with
              | ev_dma_copy _ _ _ _ _ => -22
              | _ => 0
              end.

(** A backend whose devices all track dirty pages. *)
Definition oracle_all_tracking : Trace -> Event -> Z :=
  fun _ ev => match ev with
              | ev_devices_all_dirty_tracking _ => 1
              | _ => 0
              end.

(** A second container on the same backend fd as [plain_container]. *)
Definition second_container : VFIOContainer := mk_container 2 3 false true.

(** The first 4 GiB of an IOMMU region placed at 4 GiB in the address
    space, the notifier region_add builds for it on [plain_container], and
    the invalidation of one page at 8 KiB of the region. *)
Definition iommu_high : MemoryRegionSection :=
  mk_section iommu_region (2 ^ 32) 0 (2 ^ 32).

Definition iommu_high_giommu : VFIOGuestIOMMU :=
  {| giommu_container := 1; iommu_mr := iommu_region;
     iommu_offset := 2 ^ 32;
     n := {| notify := vfio_iommu_map_notify_fn;
             notifier_flags := IOMMU_NOTIFIER_IOTLB_EVENTS;
             n_start := 0; n_end := 2 ^ 32 - 1; iommu_idx := 0 |} |}.

Definition invalidate_page : IOMMUTLBEntry :=
  {| target_as := 0; iotlb_iova := 8192; translated_addr := 0;
     addr_mask := 4095; perm := 0 |}.

(** A kernel and devices that accept every call: the KVM VFIO device gets
    fd 9, a bound device the id 5, an allocated hwpt the id 40, and every
    device asks for a reset. *)
Definition dev_answers_ok : list DevCall -> DevCall -> DevAnswer :=
  fun _ c =>
    match c with
    | kvm_create_device => {| ans_ret := 0; ans_out := 9; ans_errno := 0 |}
    | vfio_device_bind_iommufd _ _ _ =>
        {| ans_ret := 0; ans_out := 5; ans_errno := 0 |}
    | iommufd_backend_alloc_hwpt _ _ _ _ =>
        {| ans_ret := 0; ans_out := 40; ans_errno := 0 |}
    | vfio_compute_needs_reset _ =>
        {| ans_ret := 0; ans_out := 1; ans_errno := 0 |}
    | _ => {| ans_ret := 0; ans_out := 0; ans_errno := 0 |}
    end.

(** The same, but the attach ioctl fails with [EINVAL]. *)
Definition dev_answers_attach_fails : list DevCall -> DevCall -> DevAnswer :=
  fun calls c =>
    match c with
    | vfio_device_attach_iommufd_pt _ _ =>
        {| ans_ret := -1; ans_out := 0; ans_errno := 22 |}
    | _ => dev_answers_ok calls c
    end.

(** The same, but the hot reset of device 1 fails with [-5]. *)
Definition dev_answers_reset_fails : list DevCall -> DevCall -> DevAnswer :=
  fun calls c =>
    match c with
    | vfio_hot_reset_multi 1 =>
        {| ans_ret := -5; ans_out := 0; ans_errno := 5 |}
    | _ => dev_answers_ok calls c
    end.

Definition mk_denv (kvm : bool)
    (answers : list DevCall -> DevCall -> DevAnswer) : DevEnv :=
  {| env_kvm_enabled := kvm; env_answer := answers |}.

Definition mk_device (id fd : Z) (is_realized : bool) : VFIODevice :=
  {| vdev_id := id; dev_fd := fd; devid := 0; realized := is_realized;
     needs_reset := false |}.

(** A container of the fd-based backend without a device, and the process
    state once the KVM VFIO device has fd 9. *)
Definition fd_container : VFIOIOMMUFDContainer :=
  {| bcontainer := plain_container; nested_data := (0, 0, 0);
     hwpt_list := [] |}.

Definition kvm_ready : DevState :=
  {| vfio_kvm_device_fd := 9; dev_calls := [] |}.

(** Two hwpts with three devices, the second of them not realized. *)
Definition three_device_container : VFIOIOMMUFDContainer :=
  {| bcontainer := plain_container; nested_data := (0, 0, 0);
     hwpt_list :=
       [ {| hwpt_id := 40;
            device_list := [mk_device 1 20 true; mk_device 2 21 false] |};
         {| hwpt_id := 41; device_list := [mk_device 3 22 true] |} ] |}.

(** Device 1 once it is bound (its [devid] is 5) and attached to hwpt 40 of
    [fd_container]. *)
Definition attached_device : VFIODevice := set_devid (mk_device 1 20 true) 5.

Definition attached_container : VFIOIOMMUFDContainer :=
  set_hwpt_list fd_container
    [ {| hwpt_id := 40; device_list := [attached_device] |} ].

(** The environment of [mk_env], with guest memory that translates: RAM
    address [a] is backed at host address [2^40 + a], writable and not
    discard-managed. *)
Definition xlat_env : Env :=
  {| env_host_page_size := 4096; env_target_page_size := 4096;
     env_oracle := oracle_all_tracking;
     env_iommu_attrs_to_index := fun _ => 0;
     env_get_xlat_addr :=
       fun iotlb =>
         Some (2 ^ 40 + translated_addr iotlb, translated_addr iotlb,
               false, false);
     env_address_space_memory := 0 |}.

(** The mapping of one page at 8 KiB of the region to RAM address 12 KiB. *)
Definition map_page : IOMMUTLBEntry :=
  {| target_as := 0; iotlb_iova := 8192; translated_addr := 12288;
     addr_mask := 4095; perm := 3 |}.

(** An address space with [plain_container] alone. *)
Definition one_container_space : VFIOAddressSpace :=
  {| as_id := 1; containers := [plain_container];
     listener_initialized := true |}.

(** Two containers of one address space on different backends. *)
Definition two_fd_space : VFIOAddressSpace :=
  {| as_id := 1;
     containers := [ mk_container 1 3 false true;
                     mk_container 2 4 false true ];
     listener_initialized := true |}.

Section Pipeline.

Variable env : Env.

(** [qemu_real_host_page_size()] and [TARGET_PAGE_SIZE]. *)
Definition qemu_real_host_page_size : Z := env_host_page_size env.
Definition TARGET_PAGE_SIZE : Z := env_target_page_size env.

(** What a call returns, given the calls made so far. *)
Definition oracle : Trace -> Event -> Z := env_oracle env.

(** [memory_region_iommu_attrs_to_index(mr, MEMTXATTRS_UNSPECIFIED)],
    [memory_get_xlat_addr] and [&address_space_memory]. *)
Definition memory_region_iommu_attrs_to_index : MemoryRegion -> Z :=
  env_iommu_attrs_to_index env.
Definition memory_get_xlat_addr
  : IOMMUTLBEntry -> option (Z * Z * bool * bool) :=
  env_get_xlat_addr env.
Definition address_space_memory : Z := env_address_space_memory env.

Definition call (ev : Event) : M Z :=
  fun tr => (Ok (oracle tr ev), tr ++ [ev]).

Definition call_void (ev : Event) : M unit :=
  fun tr => (Ok tt, tr ++ [ev]).

(** Modelled from the spec: [qemu_real_host_page_mask] is an inline
    function of qemu/osdep.h, which is not among the sources; the mask that
    rounds down to the host page size (§4.3.2),
    [-(intptr_t)qemu_real_host_page_size()]. *)
Definition qemu_real_host_page_mask : Z := - qemu_real_host_page_size.

(** Modelled from the spec: [REAL_HOST_PAGE_ALIGN] is a macro of
    exec/cpu-common.h, which is not among the sources.
    [vfio_container_region_add] computes its [iova] with it, and §4.3.2
    describes that step as rounding [offset_within_address_space] up to the
    host page size.  (Where as.c rounds down it says so:
    [QEMU_ALIGN_DOWN] next to [ROUND_UP] in
    [vfio_register_ram_discard_listener].) *)
Definition REAL_HOST_PAGE_ALIGN (addr : Z) : Z :=
  ROUND_UP addr qemu_real_host_page_size.

(** Modelled from the spec: [TARGET_PAGE_ALIGN] is a macro of
    exec/cpu-all.h, which is not among the sources; the same rounding up as
    above, at the target page size. *)
Definition TARGET_PAGE_ALIGN (addr : Z) : Z := ROUND_UP addr TARGET_PAGE_SIZE.

(** Modelled from the spec: [TARGET_PAGE_MASK] is a macro of
    exec/cpu-all.h, which is not among the sources; the mask that rounds
    down to the target page size. *)
Definition TARGET_PAGE_MASK : Z := - TARGET_PAGE_SIZE.

(** Modelled from the spec: [QEMU_IS_ALIGNED] is a macro of qemu/osdep.h,
    which is not among the sources; the alignment of §3 (RAM-Discard
    listener), [(n) % (m) == 0]. *)
Definition QEMU_IS_ALIGNED (v m : Z) : bool := Z.rem v m =? 0.

(** *** Host window table *)

(** Modelled from the spec: [range_get_last] is an inline function of
    qemu/range.h, which is not among the sources; the last byte of a range
    given by first byte and length, [offset + len - 1] in 64-bit
    arithmetic. *)
Definition range_get_last (offset len : Z) : Z := wrap64 (offset + len - 1).

(** Modelled from the spec: [ranges_overlap] is an inline function of
    qemu/range.h, which is not among the sources.  It decides the overlap of
    §4.1: two ranges overlap unless the last byte of one lies before the
    first byte of the other. *)
Definition ranges_overlap (first1 len1 first2 len2 : Z) : bool :=
  let last1 := range_get_last first1 len1 in
  let last2 := range_get_last first2 len2 in
  negb ((last2 <? first1) || (last1 <? first2)).

Definition vfio_host_win_add (container : VFIOContainer)
    (min_iova' max_iova' iova_pgsizes' : Z) : M VFIOContainer :=
  if existsb
       (fun hostwin =>
          ranges_overlap (min_iova hostwin)
            (wrap64 (max_iova hostwin - min_iova hostwin + 1))
            min_iova'
            (wrap64 (max_iova' - min_iova' + 1)))
       (hostwin_list container)
  then stop hw_error
  else
    let hostwin := {| min_iova := min_iova'; max_iova := max_iova';
                      iova_pgsizes := iova_pgsizes' |} in
    ret (set_hostwin_list container (hostwin :: hostwin_list container)).

(** [QLIST_FOREACH] with [QLIST_REMOVE] and [return]/[break] on the first
    match. *)
Fixpoint remove_first {A} (p : A -> bool) (l : list A) : list A :=
  match l with
  | [] => []
  | x :: l' => if p x then l' else x :: remove_first p l'
  end.

Definition vfio_host_win_del (container : VFIOContainer)
    (min_iova' max_iova' : Z) : Z * VFIOContainer :=
  let same hostwin :=
    (min_iova hostwin =? min_iova') && (max_iova hostwin =? max_iova') in
  if existsb same (hostwin_list container)
  then (0, set_hostwin_list container
             (remove_first same (hostwin_list container)))
  else (-1, container).

Definition hostwin_from_range (container : VFIOContainer) (iova end_ : Z)
  : option VFIOHostDMAWindow :=
  find (fun hostwin =>
          (min_iova hostwin <=? iova) && (end_ <=? max_iova hostwin))
       (hostwin_list container).

(** *** Section filtering *)

Definition vfio_listener_skipped_section (section : MemoryRegionSection)
  : bool :=
  (negb (memory_region_is_ram (mr section)) &&
   negb (memory_region_is_iommu (mr section)))
  || memory_region_is_protected (mr section)
  || nonzero (Z.land (offset_within_address_space section)
                     (Z.shiftl 1 63)).

(** Only decides between a trace line and an error report. *)
Definition vfio_known_safe_misalignment (section : MemoryRegionSection)
  : bool :=
  mr_owner_is_tpm_crb (mr section).

(** The test [(oas & ~mask) != (offset_within_region & ~mask)], where
    [~qemu_real_host_page_mask()] is the page size minus one. *)
Definition section_misaligned (section : MemoryRegionSection) : bool :=
  negb (Z.land (offset_within_address_space section)
               (qemu_real_host_page_size - 1)
        =? Z.land (offset_within_region section)
                  (qemu_real_host_page_size - 1)).

(** *** Backend operations *)

(** iommufd.c *)
Definition iommufd_check_extension (bcontainer : VFIOContainer)
    (feat : VFIOContainerFeature) : bool :=
  match feat with
  | VFIO_FEAT_DMA_COPY => true
  | _ => false
  end.

(** [iommufd_backend_map_dma] on the container's [be] and [ioas_id]. *)
Definition iommufd_map (bcontainer : VFIOContainer)
    (iova sz vaddr : Z) (ro : bool) : M Z :=
  call (ev_dma_map (cid bcontainer) iova sz vaddr ro).

Definition iommufd_copy (src dst : VFIOContainer)
    (iova sz : Z) (ro : bool) : M Z :=
  assert (be_fd src =? be_fd dst) ;;;
  call (ev_dma_copy (cid src) (cid dst) iova sz ro).

Definition iommufd_unmap (bcontainer : VFIOContainer)
    (iova sz : Z) (iotlb : option IOMMUTLBEntry) : M Z :=
  call (ev_dma_unmap (cid bcontainer) iova sz None).

(** Modelled from the spec: [vfio_container_check_extension] lives in
    container.c, which is not among the sources.  It dispatches through the
    backend operation table of §6 ([check_feature]); the legacy backend does
    not advertise DMA_COPY (§4.2). *)
Definition vfio_container_check_extension (container : VFIOContainer)
    (feat : VFIOContainerFeature) : bool :=
  match ops container with
  | IOMMUFD_OPS => iommufd_check_extension container feat
  | LEGACY_OPS => false
  end.

(** Modelled from the spec: [vfio_container_dma_map] lives in container.c,
    which is not among the sources; the [map] of the operation table. *)
Definition vfio_container_dma_map (container : VFIOContainer)
    (iova sz vaddr : Z) (ro : bool) : M Z :=
  match ops container with
  | IOMMUFD_OPS => iommufd_map container iova sz vaddr ro
  | LEGACY_OPS => call (ev_dma_map (cid container) iova sz vaddr ro)
  end.

(** Modelled from the spec: [vfio_container_dma_copy] lives in container.c,
    which is not among the sources; the [copy] of the operation table.  The
    legacy backend has no copy (§4.2), so a copy that is not between two
    fd-based containers reports an error without reaching a backend. *)
Definition vfio_container_dma_copy (src dst : VFIOContainer)
    (iova sz : Z) (ro : bool) : M Z :=
  match ops src, ops dst with
  | IOMMUFD_OPS, IOMMUFD_OPS => iommufd_copy src dst iova sz ro
  | _, _ => ret (- EINVAL)
  end.

(** Modelled from the spec: [vfio_container_dma_unmap] lives in
    container.c, which is not among the sources; the [unmap] of the
    operation table. *)
Definition vfio_container_dma_unmap (container : VFIOContainer)
    (iova sz : Z) (iotlb : option IOMMUTLBEntry) : M Z :=
  match ops container with
  | IOMMUFD_OPS => iommufd_unmap container iova sz iotlb
  | LEGACY_OPS => call (ev_dma_unmap (cid container) iova sz iotlb)
  end.

(** Modelled from the spec: [vfio_container_get_dirty_bitmap] lives in
    container.c, which is not among the sources; the [get_dirty_bitmap] of
    the operation table. *)
Definition vfio_container_get_dirty_bitmap (container : VFIOContainer)
    (iova sz ram_addr : Z) : M Z :=
  call (ev_get_dirty_bitmap (cid container) iova sz ram_addr).

(** Modelled from the spec: [vfio_container_add_section_window] lives in
    container.c, which is not among the sources; the [add_section_window]
    of the operation table, reporting success or failure (§4.3.2, step 3).
    What a dynamic-window backend does to the window list in there is not
    modelled. *)
Definition vfio_container_add_section_window (container : VFIOContainer)
    (section : MemoryRegionSection) : M Z :=
  call (ev_add_section_window (cid container) section).

(** Modelled from the spec: [vfio_container_del_section_window] lives in
    container.c, which is not among the sources; the [del_section_window]
    of the operation table. *)
Definition vfio_container_del_section_window (container : VFIOContainer)
    (section : MemoryRegionSection) : M unit :=
  call_void (ev_del_section_window (cid container) section).

(** Modelled from the spec: [vfio_container_devices_all_dirty_tracking]
    lives in container.c, which is not among the sources; the
    [devices_all_dirty_tracking] of the operation table. *)
Definition vfio_container_devices_all_dirty_tracking
    (container : VFIOContainer) : M bool :=
  r <- call (ev_devices_all_dirty_tracking (cid container)) ;;
  ret (nonzero r).

(** *** RAM discard listener *)

Definition vfio_ram_discard_notify_discard (container : VFIOContainer)
    (vrdl : VFIORamDiscardListener) (section : MemoryRegionSection) : M unit :=
  sz <- get64 (size section) ;;
  let iova := offset_within_address_space section in
  (* Unmap with a single call. *)
  _ <- vfio_container_dma_unmap container iova sz None ;;
  ret tt.

(** The [for] loop of [vfio_ram_discard_notify_populate]; every iteration
    consumes one unit of fuel. *)
Fixpoint vfio_ram_discard_notify_populate_loop (fuel : nat)
    (container : VFIOContainer) (vrdl : VFIORamDiscardListener)
    (section : MemoryRegionSection) (end_ start : Z) : M Z :=
  match fuel with
  | O => stop out_of_fuel
  | S fuel' =>
      if start <? end_ then
        let next := ROUND_UP (wrap64 (start + 1)) (granularity vrdl) in
        let next := MIN next end_ in
        let iova := wrap64 (wrap64 (start - offset_within_region section)
                            + offset_within_address_space section) in
        let vaddr := wrap64 (mr_ram_ptr (mr section) + start) in
        r <- vfio_container_dma_map container iova (wrap64 (next - start))
               vaddr (readonly section) ;;
        if nonzero r then
          (* Rollback *)
          vfio_ram_discard_notify_discard container vrdl section ;;;
          ret r
        else
          vfio_ram_discard_notify_populate_loop fuel' container vrdl section
            end_ next
      else ret 0
  end.

Definition vfio_ram_discard_notify_populate (fuel : nat)
    (container : VFIOContainer) (vrdl : VFIORamDiscardListener)
    (section : MemoryRegionSection) : M Z :=
  sz <- get64 (size section) ;;
  let end_ := wrap64 (offset_within_region section + sz) in
  vfio_ram_discard_notify_populate_loop fuel container vrdl section end_
    (offset_within_region section).

(** The sanity check on [dma_max_mappings] that ends the function only
    warns. *)
Definition vfio_register_ram_discard_listener (container : VFIOContainer)
    (section : MemoryRegionSection) : M VFIOContainer :=
  assert (QEMU_IS_ALIGNED (offset_within_region section) TARGET_PAGE_SIZE) ;;;
  assert (QEMU_IS_ALIGNED (offset_within_address_space section)
            TARGET_PAGE_SIZE) ;;;
  sz <- get64 (size section) ;;
  assert (QEMU_IS_ALIGNED sz TARGET_PAGE_SIZE) ;;;
  match mr_rdm (mr section) with
  | None => stop assert_failed
  | Some min_granularity =>
      let vrdl := {| vrdl_container := cid container;
                     vrdl_mr := mr section;
                     vrdl_offset_within_address_space :=
                       offset_within_address_space section;
                     vrdl_size := sz;
                     granularity := min_granularity |} in
      assert (nonzero (granularity vrdl) && is_power_of_2 (granularity vrdl)) ;;;
      assert (nonzero (pgsizes container) &&
              (wrap64 (Z.shiftl 1 (ctz64 (pgsizes container)))
               <=? granularity vrdl)) ;;;
      call_void (ev_rdm_register_listener (mr_id (mr section)) vrdl section) ;;;
      ret (set_vrdl_list container (vrdl :: vrdl_list container))
  end.

Definition vrdl_matches (section : MemoryRegionSection)
    (vrdl : VFIORamDiscardListener) : bool :=
  (mr_id (vrdl_mr vrdl) =? mr_id (mr section)) &&
  (vrdl_offset_within_address_space vrdl
   =? offset_within_address_space section).

Definition vfio_unregister_ram_discard_listener (container : VFIOContainer)
    (section : MemoryRegionSection) : M VFIOContainer :=
  match find (vrdl_matches section) (vrdl_list container) with
  | None => stop hw_error
  | Some vrdl =>
      call_void (ev_rdm_unregister_listener (mr_id (mr section)) vrdl) ;;;
      ret (set_vrdl_list container
             (remove_first (vrdl_matches section) (vrdl_list container)))
  end.

(** *** Guest IOMMU notifiers *)

(** Propagate a guest IOTLB invalidation to the host (nested mode). *)
Definition vfio_nested_unmap_notify (giommu : VFIOGuestIOMMU)
    (iotlb : IOMMUTLBEntry) : M unit :=
  call_void (ev_invalidate_cache (mr_id (iommu_mr giommu)) iotlb).

Definition vfio_get_xlat_addr (iotlb : IOMMUTLBEntry)
  : option (Z * Z * bool) :=
  match memory_get_xlat_addr iotlb with
  | Some (vaddr, ram_addr, read_only, _) => Some (vaddr, ram_addr, read_only)
  | None => None
  end.

Definition vfio_iommu_map_notify (container : VFIOContainer)
    (giommu : VFIOGuestIOMMU) (iotlb : IOMMUTLBEntry) : M unit :=
  let iova := wrap64 (iotlb_iova iotlb + iommu_offset giommu) in
  if negb (target_as iotlb =? address_space_memory) then ret tt
  else if negb (Z.land (perm iotlb) IOMMU_RW =? IOMMU_NONE) then
    match vfio_get_xlat_addr iotlb with
    | None => ret tt
    | Some (vaddr, _, read_only) =>
        _ <- vfio_container_dma_map container iova
               (wrap64 (addr_mask iotlb + 1)) vaddr read_only ;;
        ret tt
    end
  else
    _ <- vfio_container_dma_unmap container iova
           (wrap64 (addr_mask iotlb + 1)) (Some iotlb) ;;
    ret tt.

Definition vfio_iommu_map_dirty_notify (container : VFIOContainer)
    (giommu : VFIOGuestIOMMU) (iotlb : IOMMUTLBEntry) : M unit :=
  let iova := wrap64 (iotlb_iova iotlb + iommu_offset giommu) in
  if negb (target_as iotlb =? address_space_memory) then ret tt
  else
    match vfio_get_xlat_addr iotlb with
    | Some (_, translated, _) =>
        _ <- vfio_container_get_dirty_bitmap container iova
               (wrap64 (addr_mask iotlb + 1)) translated ;;
        ret tt
    | None => ret tt
    end.

(** What the memory core does when it delivers an IOTLB event to a
    registered notifier: it calls [n->notify(n, iotlb)]. *)
Definition notifier_deliver (container : VFIOContainer)
    (giommu : VFIOGuestIOMMU) (iotlb : IOMMUTLBEntry) : M unit :=
  match notify (n giommu) with
  | vfio_nested_unmap_notify_fn => vfio_nested_unmap_notify giommu iotlb
  | vfio_iommu_map_notify_fn => vfio_iommu_map_notify container giommu iotlb
  | vfio_iommu_map_dirty_notify_fn =>
      vfio_iommu_map_dirty_notify container giommu iotlb
  end.

(** *** RAM sections *)

(** The argument [VFIOContainer **src_container]: [None] is a null pointer,
    [Some p] a pointer to a cell that holds [p].  Only identity fields of the
    source container are read through it. *)
Definition SrcRef := option (option VFIOContainer).

Definition pgmask_of (hostwin : VFIOHostDMAWindow) : Z :=
  wrap64 (wrap64 (Z.shiftl 1 (ctz64 (iova_pgsizes hostwin))) - 1).

(** The test [(iova & pgmask) || (int128_get64(llsize) & pgmask)]. *)
Definition sub_page_misaligned (iova : Z) (llsize : Int128) (pgmask : Z)
  : M bool :=
  if nonzero (Z.land iova pgmask) then ret true
  else sz <- get64 llsize ;; ret (nonzero (Z.land sz pgmask)).

(** Returns the [int] result, [*err], the cell behind [src_container] and
    the container. *)
Definition vfio_dma_map_ram_section (container : VFIOContainer)
    (src_container : SrcRef) (section : MemoryRegionSection)
  : M (Z * option Error * SrcRef * VFIOContainer) :=
  assert (memory_region_is_ram (mr section)) ;;;
  let iova := TARGET_PAGE_ALIGN (offset_within_address_space section) in
  let llend := int128_make64 (offset_within_address_space section) in
  let llend := int128_add llend (size section) in
  let llend := int128_and llend (int128_exts64 TARGET_PAGE_MASK) in
  end_ <- get64 (int128_sub llend int128_one) ;;
  if memory_region_has_ram_discard_manager (mr section) then
    container' <- vfio_register_ram_discard_listener container section ;;
    ret (0, None, src_container, container')
  else
    let vaddr := wrap64 (mr_ram_ptr (mr section)
                         + offset_within_region section
                         + wrap64 (iova - offset_within_address_space section))
    in
    match hostwin_from_range container iova end_ with
    | None =>
        ret (- EFAULT, Some (err_no_window (cid container) iova end_),
             src_container, container)
    | Some hostwin =>
        let llsize := int128_sub llend (int128_make64 iova) in
        skip <- (if memory_region_is_ram_device (mr section)
                 then sub_page_misaligned iova llsize (pgmask_of hostwin)
                 else ret false) ;;
        if (skip : bool) then ret (0, None, src_container, container)
        else
          let copy_dma_supported :=
            vfio_container_check_extension container VFIO_FEAT_DMA_COPY in
          let copy_dma_supported :=
            copy_dma_supported &&
            match src_container with
            | Some (Some _) => true
            | _ => false
            end in
          copied <- (match src_container with
                     | Some (Some src) =>
                         if copy_dma_supported then
                           sz <- get64 llsize ;;
                           r <- vfio_container_dma_copy src container iova sz
                                  (readonly section) ;;
                           ret (r =? 0)
                         else ret false
                     | _ => ret false
                     end) ;;
          if (copied : bool) then ret (0, None, src_container, container)
          else
            sz <- get64 llsize ;;
            r <- vfio_container_dma_map container iova sz vaddr
                   (readonly section) ;;
            if nonzero r then
              if memory_region_is_ram_device (mr section) then
                (* Allow unexpected mappings not to be fatal for RAM devices *)
                ret (0, None, src_container, container)
              else
                ret (r, Some (err_dma_map (cid container) iova sz vaddr r),
                     src_container, container)
            else
              ret (r, None,
                   (if copy_dma_supported then Some (Some container)
                    else src_container),
                   container)
    end.

Definition vfio_dma_unmap_ram_section (container : VFIOContainer)
    (section : MemoryRegionSection) : M VFIOContainer :=
  let iova := REAL_HOST_PAGE_ALIGN (offset_within_address_space section) in
  let llend := int128_make64 (offset_within_address_space section) in
  let llend := int128_add llend (size section) in
  let llend := int128_and llend (int128_exts64 qemu_real_host_page_mask) in
  if int128_ge (int128_make64 iova) llend then ret container
  else
    end_ <- get64 (int128_sub llend int128_one) ;;
    let llsize := int128_sub llend (int128_make64 iova) in
    '(try_unmap, container') <-
      (if memory_region_is_ram_device (mr section) then
         match hostwin_from_range container iova end_ with
         | None => stop assert_failed  (* or region_add() would have failed *)
         | Some hostwin =>
             misaligned <- sub_page_misaligned iova llsize (pgmask_of hostwin) ;;
             ret (negb misaligned, container)
         end
       else if memory_region_has_ram_discard_manager (mr section) then
         container' <- vfio_unregister_ram_discard_listener container section ;;
         (* Unregistering will trigger an unmap. *)
         ret (false, container')
       else ret (true, container)) ;;
    if (try_unmap : bool) then
      '(iova, llsize) <-
        (if int128_eq llsize int128_2_64 then
           (* The unmap ioctl doesn't accept a full 64-bit span. *)
           let llsize := int128_rshift llsize 1 in
           sz <- get64 llsize ;;
           _ <- vfio_container_dma_unmap container' iova sz None ;;
           sz <- get64 llsize ;;
           ret (wrap64 (iova + sz), llsize)
         else ret (iova, llsize)) ;;
      sz <- get64 llsize ;;
      _ <- vfio_container_dma_unmap container' iova sz None ;;
      ret container'
    else ret container'.

(** *** Nested pre-registration listener *)

Definition vfio_prereg_listener_region_add (container : VFIOContainer)
    (section : MemoryRegionSection) : M VFIOContainer :=
  if negb (memory_region_is_ram (mr section)) then ret container
  else
    '(_, _, _, container') <-
      vfio_dma_map_ram_section container None section ;;
    ret container'.

Definition vfio_prereg_listener_region_del (container : VFIOContainer)
    (section : MemoryRegionSection) : M VFIOContainer :=
  if negb (memory_region_is_ram (mr section)) then ret container
  else vfio_dma_unmap_ram_section container section.

(** *** Main listener, per container *)

(** Where the body of [vfio_container_region_add] leaves: by one of its
    [return]s, or by [goto fail] with the local [err]. *)
Inductive AddExit :=
| add_return (container : VFIOContainer) (src : SrcRef)
| add_goto_fail (container : VFIOContainer) (src : SrcRef)
    (err : option Error).

Definition vfio_container_region_add_body (container : VFIOContainer)
    (src_container : SrcRef) (section : MemoryRegionSection) : M AddExit :=
  if vfio_listener_skipped_section section then
    (* the end address handed to trace_vfio_listener_region_add_skip *)
    get64 (int128_sub (size section) int128_one) ;;;
    ret (add_return container src_container)
  else if section_misaligned section then
    ret (add_return container src_container)
  else
    let iova := REAL_HOST_PAGE_ALIGN (offset_within_address_space section) in
    let llend := int128_make64 (offset_within_address_space section) in
    let llend := int128_add llend (size section) in
    let llend := int128_and llend (int128_exts64 qemu_real_host_page_mask) in
    if int128_ge (int128_make64 iova) llend then
      ret (add_return container src_container)
    else
      end_ <- get64 (int128_sub llend int128_one) ;;
      r <- vfio_container_add_section_window container section ;;
      if nonzero r then
        ret (add_goto_fail container src_container
               (Some (err_callee "vfio_container_add_section_window" r)))
      else
        match hostwin_from_range container iova end_ with
        | None =>
            ret (add_goto_fail container src_container
                   (Some (err_no_window (cid container) iova end_)))
        | Some hostwin =>
            call_void (ev_memory_region_ref (mr_id (mr section))) ;;;
            if memory_region_is_iommu (mr section) then
              let iommu_mr' := mr section in
              let iommu_offset' :=
                wrap64 (offset_within_address_space section
                        - offset_within_region section) in
              let llend :=
                int128_add (int128_make64 (offset_within_region section))
                           (size section) in
              let llend := int128_sub llend int128_one in
              let iommu_idx' :=
                memory_region_iommu_attrs_to_index iommu_mr' in
              let '(flags, notify') :=
                if nested container then
                  (* IOTLB unmap notifier to propagate guest IOTLB
                     invalidations *)
                  (IOMMU_NOTIFIER_UNMAP, vfio_nested_unmap_notify_fn)
                else
                  (* MAP/UNMAP IOTLB notifier *)
                  (IOMMU_NOTIFIER_IOTLB_EVENTS, vfio_iommu_map_notify_fn) in
              nend <- get64 llend ;;
              let giommu :=
                {| giommu_container := cid container;
                   iommu_mr := iommu_mr';
                   iommu_offset := iommu_offset';
                   n := iommu_notifier_init notify'
                          IOMMU_NOTIFIER_IOTLB_EVENTS
                          (offset_within_region section) nend iommu_idx' |} in
              r <- call (ev_iommu_set_page_size_mask (mr_id iommu_mr')
                           (pgsizes container)) ;;
              if nonzero r then
                ret (add_goto_fail container src_container
                       (Some (err_callee
                                "memory_region_iommu_set_page_size_mask" r)))
              else
                r <- call (ev_register_iommu_notifier (mr_id (mr section))
                             (n giommu)) ;;
                if nonzero r then
                  ret (add_goto_fail container src_container
                         (Some (err_callee
                                  "memory_region_register_iommu_notifier" r)))
                else
                  let container' :=
                    set_giommu_list container
                      (giommu :: giommu_list container) in
                  (if nonzero (Z.land flags IOMMU_NOTIFIER_MAP) then
                     call_void (ev_iommu_replay (mr_id iommu_mr') (n giommu))
                   else ret tt) ;;;
                  ret (add_return container' src_container)
            else
              (* Here we assume that memory_region_is_ram(section->mr)==true *)
              '(r, err, src', container') <-
                vfio_dma_map_ram_section container src_container section ;;
              if nonzero r then ret (add_goto_fail container' src' err)
              else ret (add_return container' src')
        end.

(** [error_propagate_prepend(&container->error, err, "Region %s: ", name)];
    propagating a null [err] does nothing. *)
Definition region_prefix (section : MemoryRegionSection) : string :=
  ("Region " ++ mr_name (mr section) ++ ": ")%string.

(** The code at the label [fail]. *)
Definition vfio_container_region_add_fail (container : VFIOContainer)
    (section : MemoryRegionSection) (err : option Error) : M VFIOContainer :=
  if memory_region_is_ram_device (mr section) then ret container
  else if negb (initialized container) then
    match error container with
    | None =>
        ret (set_error container
               (option_map (err_prepend (region_prefix section)) err))
    | Some _ => ret container      (* error_free(err) *)
    end
  else stop hw_error.

Definition vfio_container_region_add (container : VFIOContainer)
    (src_container : SrcRef) (section : MemoryRegionSection)
  : M (VFIOContainer * SrcRef) :=
  exit <- vfio_container_region_add_body container src_container section ;;
  match exit with
  | add_return container' src' => ret (container', src')
  | add_goto_fail container' src' err =>
      container'' <- vfio_container_region_add_fail container' section err ;;
      ret (container'', src')
  end.

Definition giommu_matches (section : MemoryRegionSection)
    (giommu : VFIOGuestIOMMU) : bool :=
  (mr_id (iommu_mr giommu) =? mr_id (mr section)) &&
  (n_start (n giommu) =? offset_within_region section).

Definition vfio_container_region_del (container : VFIOContainer)
    (section : MemoryRegionSection) : M VFIOContainer :=
  if vfio_listener_skipped_section section then
    (* the end address handed to trace_vfio_listener_region_del_skip *)
    get64 (int128_sub (size section) int128_one) ;;;
    ret container
  else if section_misaligned section then ret container
  else
    container1 <-
      (if memory_region_is_iommu (mr section) then
         match find (giommu_matches section) (giommu_list container) with
         | Some giommu =>
             call_void (ev_unregister_iommu_notifier (mr_id (mr section))
                          (n giommu)) ;;;
             ret (set_giommu_list container
                    (remove_first (giommu_matches section)
                       (giommu_list container)))
         | None => ret container
         end
       else ret container) ;;
    container2 <- vfio_dma_unmap_ram_section container1 section ;;
    call_void (ev_memory_region_unref (mr_id (mr section))) ;;;
    vfio_container_del_section_window container2 section ;;;
    ret container2.

(** *** Dirty-page synchronisation *)

(** [ram_discard_manager_replay_populated] drives
    [vfio_ram_discard_get_dirty_bitmap] from inside the memory core; the
    call itself is what is recorded, with the [opaque] it is given: [&vrdl],
    the address of the local pointer that the loop left on the listener. *)
Definition vfio_sync_ram_discard_listener_dirty_bitmap
    (container : VFIOContainer) (section : MemoryRegionSection) : M Z :=
  match find (vrdl_matches section) (vrdl_list container) with
  | None => stop hw_error
  | Some vrdl =>
      call (ev_rdm_replay_populated (mr_id (mr section)) section
              (opaque_listener_pointer vrdl))
  end.

Definition vfio_sync_dirty_bitmap (container : VFIOContainer)
    (section : MemoryRegionSection) : M Z :=
  if memory_region_is_iommu (mr section) then
    match find (giommu_matches section) (giommu_list container) with
    | Some giommu =>
        let idx := memory_region_iommu_attrs_to_index (iommu_mr giommu) in
        let llend :=
          int128_add (int128_make64 (offset_within_region section))
                     (size section) in
        let llend := int128_sub llend int128_one in
        nend <- get64 llend ;;
        let gdn := iommu_notifier_init vfio_iommu_map_dirty_notify_fn
                     IOMMU_NOTIFIER_MAP (offset_within_region section)
                     nend idx in
        call_void (ev_iommu_replay (mr_id (iommu_mr giommu)) gdn) ;;;
        ret 0
    | None => ret 0
    end
  else if memory_region_has_ram_discard_manager (mr section) then
    vfio_sync_ram_discard_listener_dirty_bitmap container section
  else
    let ram_addr := wrap64 (mr_ram_addr (mr section)
                            + offset_within_region section) in
    sz <- get64 (size section) ;;
    vfio_container_get_dirty_bitmap container
      (REAL_HOST_PAGE_ALIGN (offset_within_address_space section))
      sz ram_addr.

Definition vfio_container_log_sync (container : VFIOContainer)
    (section : MemoryRegionSection) : M unit :=
  if vfio_listener_skipped_section section
     || negb (dirty_pages_supported container)
  then ret tt
  else
    all <- vfio_container_devices_all_dirty_tracking container ;;
    if (all : bool) then
      _ <- vfio_sync_dirty_bitmap container section ;;
      ret tt
    else ret tt.

(** *** Address-space binding and listener fan-out *)

(** [QLIST_FOREACH(container, &space->containers, next)] around
    [vfio_container_region_add], threading the local [src_container]. *)
Fixpoint region_add_foreach (cs : list VFIOContainer) (src : SrcRef)
    (section : MemoryRegionSection) : M (list VFIOContainer) :=
  match cs with
  | [] => ret []
  | container :: rest =>
      '(container', src') <-
        vfio_container_region_add container src section ;;
      rest' <- region_add_foreach rest src' section ;;
      ret (container' :: rest')
  end.

Definition vfio_listener_region_add (space : VFIOAddressSpace)
    (section : MemoryRegionSection) : M VFIOAddressSpace :=
  (* src_container = NULL; the callee receives &src_container *)
  cs <- region_add_foreach (containers space) (Some None) section ;;
  ret (set_containers space cs).

Fixpoint region_del_foreach (cs : list VFIOContainer)
    (section : MemoryRegionSection) : M (list VFIOContainer) :=
  match cs with
  | [] => ret []
  | container :: rest =>
      container' <- vfio_container_region_del container section ;;
      rest' <- region_del_foreach rest section ;;
      ret (container' :: rest')
  end.

Definition vfio_listener_region_del (space : VFIOAddressSpace)
    (section : MemoryRegionSection) : M VFIOAddressSpace :=
  cs <- region_del_foreach (containers space) section ;;
  ret (set_containers space cs).

Fixpoint log_sync_foreach (cs : list VFIOContainer)
    (section : MemoryRegionSection) : M unit :=
  match cs with
  | [] => ret tt
  | container :: rest =>
      vfio_container_log_sync container section ;;;
      log_sync_foreach rest section
  end.

Definition vfio_listener_log_sync (space : VFIOAddressSpace)
    (section : MemoryRegionSection) : M unit :=
  log_sync_foreach (containers space) section.

(** Modelled from the spec: [memory_listener_register] belongs to the memory
    core, which is not among the sources.  While a listener is being
    registered the core hands it sections through [region_add] (§6: state
    is rebuilt from memory-region replay); which sections these are is an
    argument here. *)
Fixpoint memory_listener_register (space : VFIOAddressSpace)
    (view : list MemoryRegionSection) : M VFIOAddressSpace :=
  match view with
  | [] => ret space
  | section :: view' =>
      space' <- vfio_listener_region_add space section ;;
      memory_listener_register space' view'
  end.

(** Modelled from the spec: [memory_listener_unregister] belongs to the
    memory core, which is not among the sources.  While a listener is being
    unregistered the core hands it sections through [region_del]; which
    sections these are is an argument here. *)
Fixpoint memory_listener_unregister (space : VFIOAddressSpace)
    (view : list MemoryRegionSection) : M VFIOAddressSpace :=
  match view with
  | [] => ret space
  | section :: view' =>
      space' <- vfio_listener_region_del space section ;;
      memory_listener_unregister space' view'
  end.

Definition vfio_as_add_container (space : VFIOAddressSpace)
    (container : VFIOContainer)
    (old_view view : list MemoryRegionSection) : M VFIOAddressSpace :=
  space1 <- (if listener_initialized space
             then memory_listener_unregister space old_view
             else ret space) ;;
  let space2 := set_containers space1 (container :: containers space1) in
  space3 <- memory_listener_register space2 view ;;
  ret {| as_id := as_id space3; containers := containers space3;
         listener_initialized := true |}.

(** iommufd.c, [iommufd_attach_device] from the call of
    [vfio_as_add_container] to [bcontainer->initialized = true]: the [int]
    result, [*errp] and the address space.  [bcontainer] is the container
    just put at the head of the list.  What follows the label [error] only
    tears down. *)
Definition iommufd_attach_device_add_container (space : VFIOAddressSpace)
    (bcontainer : VFIOContainer)
    (old_view view : list MemoryRegionSection)
  : M (Z * option Error * VFIOAddressSpace) :=
  space' <- vfio_as_add_container space bcontainer old_view view ;;
  match containers space' with
  | [] => stop assert_failed
  | bcontainer' :: rest =>
      match error bcontainer' with
      | Some e =>
          ret (-1,
               Some (err_prepend "memory listener initialization failed: " e),
               space')
      | None =>
          ret (0, None,
               set_containers space'
                 (set_initialized bcontainer' true :: rest))
      end
  end.

(** A field written through a pointer to a list element: the first element
    that satisfies [p] is the one pointed to. *)
Fixpoint update_first {A} (p : A -> bool) (f : A -> A) (l : list A) : list A :=
  match l with
  | [] => []
  | x :: l' => if p x then f x :: l' else x :: update_first p f l'
  end.

(** [vfio_as_del_container].  [QLIST_SAFE_REMOVE(container, next)] takes the
    container out of the list it is linked in, the one of its [space];
    [view] is what the memory core hands to region_del while the listener is
    being unregistered. *)
Definition same_container (container c : VFIOContainer) : bool :=
  cid c =? cid container.

Definition vfio_as_del_container (space : VFIOAddressSpace)
    (container : VFIOContainer) (view : list MemoryRegionSection)
  : M VFIOAddressSpace :=
  let space1 :=
    set_containers space
      (remove_first (same_container container) (containers space)) in
  match containers space1 with
  | [] => memory_listener_unregister space1 view
  | _ :: _ => ret space1
  end.

(** *** The registry of address spaces *)

(** The calls [qemu_register_reset(vfio_reset_handler, NULL)] and
    [qemu_unregister_reset(vfio_reset_handler, NULL)], as they are made. *)
Inductive ResetCall := qemu_register_reset | qemu_unregister_reset.

(** The global list [vfio_address_spaces], head first, with the reset calls
    made so far. *)
Record VFIOGlobals := {
  vfio_address_spaces : list VFIOAddressSpace;
  reset_calls : list ResetCall
}.

Definition same_as (as_ : Z) (space : VFIOAddressSpace) : bool :=
  as_id space =? as_.

(** Returns the binding of [as_] and the globals.  A new binding comes from
    [g_malloc0]: no container, [listener_initialized] clear. *)
Definition vfio_get_address_space (globals : VFIOGlobals) (as_ : Z)
  : VFIOAddressSpace * VFIOGlobals :=
  match find (same_as as_) (vfio_address_spaces globals) with
  | Some space => (space, globals)
  | None =>
      (* No suitable VFIOAddressSpace, create a new one *)
      let space := {| as_id := as_; containers := [];
                      listener_initialized := false |} in
      let calls :=
        match vfio_address_spaces globals with
        | [] => reset_calls globals ++ [qemu_register_reset]
        | _ :: _ => reset_calls globals
        end in
      (space, {| vfio_address_spaces := space :: vfio_address_spaces globals;
                 reset_calls := calls |})
  end.

(** [space] is a binding linked in [vfio_address_spaces], which holds one
    binding per address space; [QLIST_REMOVE(space, list)] unlinks it. *)
Definition vfio_put_address_space (globals : VFIOGlobals)
    (space : VFIOAddressSpace) : VFIOGlobals :=
  let spaces :=
    match containers space with
    | [] => remove_first (same_as (as_id space)) (vfio_address_spaces globals)
    | _ :: _ => vfio_address_spaces globals
    end in
  let calls :=
    match spaces with
    | [] => reset_calls globals ++ [qemu_unregister_reset]
    | _ :: _ => reset_calls globals
    end in
  {| vfio_address_spaces := spaces; reset_calls := calls |}.

(** *** The KVM VFIO device (as.c, built with CONFIG_KVM) *)

Variable denv : DevEnv.

Definition kvm_enabled : bool := env_kvm_enabled denv.

(** A call of the device side: its answer, and the state with the call
    recorded. *)
Definition dev_call (c : DevCall) (s : DevState) : DevAnswer * DevState :=
  (env_answer denv (dev_calls s) c,
   {| vfio_kvm_device_fd := vfio_kvm_device_fd s;
      dev_calls := dev_calls s ++ [c] |}).

Definition set_vfio_kvm_device_fd (s : DevState) (fd : Z) : DevState :=
  {| vfio_kvm_device_fd := fd; dev_calls := dev_calls s |}.

Definition vfio_kvm_device_add_fd (fd : Z) (s : DevState) : Z * DevState :=
  let set_attr s1 :=
    let '(a, s2) :=
      dev_call (kvm_set_device_attr (vfio_kvm_device_fd s1)
                  KVM_DEV_VFIO_GROUP_ADD fd) s1 in
    if nonzero (ans_ret a) then (- ans_errno a, s2) else (0, s2) in
  if negb kvm_enabled then (0, s)
  else if vfio_kvm_device_fd s <? 0 then
    let '(cd, s1) := dev_call kvm_create_device s in
    if nonzero (ans_ret cd) then (- ENODEV, s1)
    else set_attr (set_vfio_kvm_device_fd s1 (ans_out cd))
  else set_attr s.

Definition vfio_kvm_device_del_fd (fd : Z) (s : DevState) : Z * DevState :=
  if vfio_kvm_device_fd s <? 0 then (- EINVAL, s)
  else
    let '(a, s1) :=
      dev_call (kvm_set_device_attr (vfio_kvm_device_fd s)
                  KVM_DEV_VFIO_GROUP_DEL fd) s in
    if nonzero (ans_ret a) then (- EBADF, s1) else (0, s1).

(** *** Devices and hardware page tables (iommufd.c) *)

(** A pointer to a [VFIOIOASHwpt] is its place in [hwpt_list]; the list
    holds one hwpt per id, so the place is the first one with that id. *)
Definition has_hwpt_id (id : Z) (hwpt : VFIOIOASHwpt) : bool :=
  hwpt_id hwpt =? id.

Definition vfio_container_get_hwpt (container : VFIOIOMMUFDContainer)
    (id : Z) : VFIOIOASHwpt * VFIOIOMMUFDContainer :=
  match find (has_hwpt_id id) (hwpt_list container) with
  | Some hwpt => (hwpt, container)
  | None =>
      let hwpt := {| hwpt_id := id; device_list := [] |} in
      (hwpt, set_hwpt_list container (hwpt :: hwpt_list container))
  end.

Definition vfio_container_put_hwpt (container : VFIOIOMMUFDContainer)
    (hwpt : VFIOIOASHwpt) : Res VFIOIOMMUFDContainer :=
  match device_list hwpt with
  | _ :: _ => Stop assert_failed           (* g_assert_not_reached() *)
  | [] =>
      Ok (set_hwpt_list container
            (remove_first (has_hwpt_id (hwpt_id hwpt))
               (hwpt_list container)))
  end.

Definition same_device (vbasedev d : VFIODevice) : bool :=
  vdev_id d =? vdev_id vbasedev.

Definition vfio_find_hwpt_for_dev (container : VFIOIOMMUFDContainer)
    (vbasedev : VFIODevice) : option VFIOIOASHwpt :=
  find (fun hwpt => existsb (same_device vbasedev) (device_list hwpt))
       (hwpt_list container).

(** [hwpt->device_list] written through the pointer [hwpt]. *)
Definition set_device_list (container : VFIOIOMMUFDContainer) (id : Z)
    (devs : list VFIODevice) : VFIOIOMMUFDContainer :=
  set_hwpt_list container
    (update_first (has_hwpt_id id)
       (fun hwpt => {| hwpt_id := hwpt_id hwpt; device_list := devs |})
       (hwpt_list container)).

(** The results of the two functions below are only reported. *)
Definition vfio_kvm_device_add_device (vbasedev : VFIODevice) (s : DevState)
  : DevState :=
  snd (vfio_kvm_device_add_fd (dev_fd vbasedev) s).

Definition vfio_kvm_device_del_device (vbasedev : VFIODevice) (s : DevState)
  : DevState :=
  snd (vfio_kvm_device_del_fd (dev_fd vbasedev) s).

(** Returns the [int] result and [*errp]. *)
Definition __vfio_device_detach_hwpt (vbasedev : VFIODevice) (s : DevState)
  : Z * option DevError * DevState :=
  let '(a, s1) := dev_call (vfio_device_detach_iommufd_pt (dev_fd vbasedev)) s in
  if nonzero (ans_ret a) then (- ans_errno a, Some detach_error, s1)
  else (ans_ret a, None, s1).

Definition __vfio_device_detach_container (vbasedev : VFIODevice)
    (container : VFIOIOMMUFDContainer) (s : DevState)
  : option DevError * DevState :=
  let '(_, errp, s1) := __vfio_device_detach_hwpt vbasedev s in
  (errp, vfio_kvm_device_del_device vbasedev s1).

(** Returns [*errp] and the container. *)
Definition vfio_device_detach_container (vbasedev : VFIODevice)
    (container : VFIOIOMMUFDContainer) (s : DevState)
  : Res (option DevError * VFIOIOMMUFDContainer) * DevState :=
  let unlinked :=
    match vfio_find_hwpt_for_dev container vbasedev with
    | Some hwpt =>
        (* QLIST_REMOVE(vbasedev, hwpt_next) *)
        let devs := remove_first (same_device vbasedev) (device_list hwpt) in
        let container1 := set_device_list container (hwpt_id hwpt) devs in
        match devs with
        | [] =>
            vfio_container_put_hwpt container1
              {| hwpt_id := hwpt_id hwpt; device_list := devs |}
        | _ :: _ => Ok container1
        end
    | None => Ok container
    end in
  match unlinked with
  | Stop f => (Stop f, s)
  | Ok container' =>
      let '(errp, s1) :=
        __vfio_device_detach_container vbasedev container' s in
      (Ok (errp, container'), s1)
  end.

(** Returns the [int] result, [*errp], the device (whose [devid] the bind
    writes) and the container.  [vfio_container_get_hwpt] returns no null
    pointer, so the branch on [!hwpt] is never taken.  [hwpt_next] is an
    intrusive link: consing [vbasedev] is what [QLIST_INSERT_HEAD] does
    for a device that is in no device list yet
    ([vfio_find_hwpt_for_dev container vbasedev = None]), as the device
    that [iommufd_attach_device] is attaching; the shape of the lists after
    inserting a device that is already linked is outside this model. *)
Definition vfio_device_attach_container (vbasedev : VFIODevice)
    (container : VFIOIOMMUFDContainer) (s : DevState)
  : Z * option DevError * VFIODevice * VFIOIOMMUFDContainer * DevState :=
  let iommufd := be_fd (bcontainer container) in
  (* Add device to kvm-vfio to be prepared for the tracking in KVM. *)
  let s := vfio_kvm_device_add_device vbasedev s in
  (* Bind device to iommufd *)
  let '(bind, s) :=
    dev_call (vfio_device_bind_iommufd (dev_fd vbasedev) iommufd
                (vdev_id vbasedev)) s in
  if nonzero (ans_ret bind) then
    let s := vfio_kvm_device_del_device vbasedev s in
    (ans_ret bind, Some bind_error, vbasedev, container, s)
  else
    let vbasedev := set_devid vbasedev (ans_out bind) in
    (* Allocate and attach device to a default hwpt *)
    let '(alloc, s) :=
      dev_call (iommufd_backend_alloc_hwpt iommufd (devid vbasedev)
                  (ioas_id (bcontainer container)) (nested_data container))
        s in
    if nonzero (ans_ret alloc) then
      (ans_ret alloc, Some alloc_hwpt_error, vbasedev, container, s)
    else
      let pt_id := ans_out alloc in
      (* Attach device to an ioas within iommufd *)
      let '(attach, s) :=
        dev_call (vfio_device_attach_iommufd_pt (dev_fd vbasedev) pt_id) s in
      let '(errp, s) :=
        if nonzero (ans_ret attach)
        then (Some attach_error, vfio_kvm_device_del_device vbasedev s)
        else (None, s) in
      let '(hwpt, container) := vfio_container_get_hwpt container pt_id in
      (* QLIST_INSERT_HEAD(&hwpt->device_list, vbasedev, hwpt_next) *)
      let container :=
        set_device_list container (hwpt_id hwpt)
          (vbasedev :: device_list hwpt) in
      (0, errp, vbasedev, container, s).

(** Returns the [int] result and the device, whose [needs_reset] the
    callback [vfio_compute_needs_reset] may have written. *)
Definition vfio_device_reset (vbasedev : VFIODevice) (s : DevState)
  : Z * VFIODevice * DevState :=
  if realized vbasedev then
    let '(a, s1) := dev_call (vfio_compute_needs_reset (vdev_id vbasedev)) s in
    let vbasedev := set_needs_reset vbasedev (nonzero (ans_out a)) in
    if needs_reset vbasedev then
      let '(b, s2) := dev_call (vfio_hot_reset_multi (vdev_id vbasedev)) s1 in
      (ans_ret b, vbasedev, s2)
    else (0, vbasedev, s1)
  else (0, vbasedev, s).

(** The inner [QLIST_FOREACH] of [vfio_iommufd_container_reset], over the
    devices of one hwpt, threading [final_ret]. *)
Fixpoint reset_device_list (devs : list VFIODevice) (final_ret : Z)
    (s : DevState) : Z * list VFIODevice * DevState :=
  match devs with
  | [] => (final_ret, [], s)
  | vbasedev :: rest =>
      let '(ret, vbasedev', s1) := vfio_device_reset vbasedev s in
      let final_ret := if nonzero ret then ret else final_ret in
      let '(final_ret, rest', s2) := reset_device_list rest final_ret s1 in
      (final_ret, vbasedev' :: rest', s2)
  end.

(** The outer [QLIST_FOREACH], over the hwpts. *)
Fixpoint reset_hwpt_list (l : list VFIOIOASHwpt) (final_ret : Z)
    (s : DevState) : Z * list VFIOIOASHwpt * DevState :=
  match l with
  | [] => (final_ret, [], s)
  | hwpt :: rest =>
      let '(final_ret, devs, s1) :=
        reset_device_list (device_list hwpt) final_ret s in
      let '(final_ret, rest', s2) := reset_hwpt_list rest final_ret s1 in
      (final_ret, {| hwpt_id := hwpt_id hwpt; device_list := devs |} :: rest',
       s2)
  end.

Definition vfio_iommufd_container_reset (container : VFIOIOMMUFDContainer)
    (s : DevState) : Z * VFIOIOMMUFDContainer * DevState :=
  let '(final_ret, l, s1) := reset_hwpt_list (hwpt_list container) 0 s in
  (final_ret, set_hwpt_list container l, s1).

(** ** Reasoning about computations *)

(** [emits P Q m]: whatever the trace so far, [m] only appends events that
    satisfy [P], and a value it returns satisfies [Q]. *)
Definition emits {A} (P : Event -> Prop) (Q : A -> Prop) (m : M A) : Prop :=
  forall tr, exists evs,
    snd (m tr) = tr ++ evs /\ Forall P evs /\
    (forall a, fst (m tr) = Ok a -> Q a).

(** ** Vocabulary of the statements *)

(** Rounding to a multiple of [p], as numbers. *)
Definition round_down (a p : Z) : Z := a / p * p.
Definition round_up (a p : Z) : Z := (a + p - 1) / p * p.

(** Two windows overlap when some IOVA lies in both. *)
Definition win_overlap (a b : VFIOHostDMAWindow) : Prop :=
  exists iova,
    min_iova a <= iova <= max_iova a /\ min_iova b <= iova <= max_iova b.

Definition windows_disjoint (l : list VFIOHostDMAWindow) : Prop :=
  ForallOrdPairs (fun a b => ~ win_overlap a b) l.

(** The bounds of a window are [hwaddr]s. *)
Definition window_ok (w : VFIOHostDMAWindow) : Prop :=
  hwaddr_ok (min_iova w) /\ hwaddr_ok (max_iova w).

(** The two ways the window list of a container is written, and a
    sequence of them run on a container. *)
Inductive HostWinOp :=
| host_win_add_op (lo hi pg : Z)
| host_win_del_op (lo hi : Z).

Definition host_win_op_ok (op : HostWinOp) : Prop :=
  match op with
  | host_win_add_op lo hi _ => hwaddr_ok lo /\ hwaddr_ok hi
  | host_win_del_op lo hi => hwaddr_ok lo /\ hwaddr_ok hi
  end.

Fixpoint host_win_run (l : list HostWinOp) (container : VFIOContainer)
  : M VFIOContainer :=
  match l with
  | [] => ret container
  | host_win_add_op lo hi pg :: l' =>
      container' <- vfio_host_win_add container lo hi pg ;;
      host_win_run l' container'
  | host_win_del_op lo hi :: l' =>
      host_win_run l' (snd (vfio_host_win_del container lo hi))
  end.

Definition not_copy (ev : Event) : Prop :=
  match ev with
  | ev_dma_copy _ _ _ _ _ => False
  | _ => True
  end.

Definition registers_iotlb_events (ev : Event) : Prop :=
  match ev with
  | ev_register_iommu_notifier _ nf =>
      notifier_flags nf = IOMMU_NOTIFIER_IOTLB_EVENTS
  | _ => True
  end.

Definition not_replay (ev : Event) : Prop :=
  match ev with
  | ev_iommu_replay _ _ => False
  | _ => True
  end.

(** A section lies inside the 64-bit address space. *)
Definition section_ok (section : MemoryRegionSection) : Prop :=
  hwaddr_ok (offset_within_address_space section) /\
  0 <= size section /\
  offset_within_address_space section + size section <= 2 ^ 64.

(** An ordinary RAM region: not a RAM device, no RamDiscardManager. *)
Definition plain_ram (section : MemoryRegionSection) : Prop :=
  mr_is_ram_device (mr section) = false /\ mr_rdm (mr section) = None.

(** The page-aligned range of a section: start rounded up (in 64 bits), end
    rounded down. *)
Definition aligned_start (section : MemoryRegionSection) : Z :=
  wrap64 (round_up (offset_within_address_space section)
            qemu_real_host_page_size).
Definition aligned_end (section : MemoryRegionSection) : Z :=
  round_down (offset_within_address_space section + size section)
    qemu_real_host_page_size.

(** The unmap calls for a range of [llsize] bytes at [iova]. *)
Definition unmap_calls (id iova llsize : Z) : list Event :=
  if llsize =? 2 ^ 64 then
    [ ev_dma_unmap id iova (2 ^ 63) None;
      ev_dma_unmap id (wrap64 (iova + 2 ^ 63)) (2 ^ 63) None ]
  else [ ev_dma_unmap id iova llsize None ].

Definition not_unmap (ev : Event) : Prop :=
  match ev with
  | ev_dma_unmap _ _ _ _ => False
  | _ => True
  end.

(** Every unmap is one of the unmap calls for the page-aligned range of the
    section. *)
Definition unmap_within (container : VFIOContainer)
    (section : MemoryRegionSection) (ev : Event) : Prop :=
  match ev with
  | ev_dma_unmap _ _ _ _ =>
      In ev (unmap_calls (cid container) (aligned_start section)
               (aligned_end section - aligned_start section))
  | _ => True
  end.

(** The slices §4.3.6 describes, as numbers: starting at [start], each slice
    ends at the smaller of [round_up (start + 1) g] and [end_]. *)
Fixpoint slices_from (fuel : nat) (g end_ start : Z) : list (Z * Z) :=
  match fuel with
  | O => []
  | S fuel' =>
      if start <? end_ then
        let next := Z.min (round_up (start + 1) g) end_ in
        (start, next) :: slices_from fuel' g end_ next
      else []
  end.

Definition spec_slices (vrdl : VFIORamDiscardListener)
    (section : MemoryRegionSection) : list (Z * Z) :=
  slices_from (Z.to_nat (size section)) (granularity vrdl)
    (offset_within_region section + size section)
    (offset_within_region section).

(** The map call for the slice [start, next) of the region. *)
Definition slice_map (container : VFIOContainer)
    (section : MemoryRegionSection) (slice : Z * Z) : Event :=
  ev_dma_map (cid container)
    (fst slice - offset_within_region section
     + offset_within_address_space section)
    (snd slice - fst slice)
    (mr_ram_ptr (mr section) + fst slice)
    (readonly section).

(** The calls [evs], issued one after the other from the history [tr], were
    all answered with 0. *)
Fixpoint all_accepted (tr : Trace) (evs : list Event) : Prop :=
  match evs with
  | [] => True
  | ev :: evs' => oracle tr ev = 0 /\ all_accepted (tr ++ [ev]) evs'
  end.

(** The section and its image in host memory lie inside 64 bits, with room
    for one granule above the end of the section inside the region. *)
Definition populate_ok (vrdl : VFIORamDiscardListener)
    (section : MemoryRegionSection) : Prop :=
  hwaddr_ok (offset_within_region section) /\
  hwaddr_ok (offset_within_address_space section) /\
  hwaddr_ok (mr_ram_ptr (mr section)) /\
  0 <= size section /\
  offset_within_region section + size section + granularity vrdl <= 2 ^ 64 /\
  offset_within_address_space section + size section <= 2 ^ 64 /\
  mr_ram_ptr (mr section) + offset_within_region section + size section
  <= 2 ^ 64.

(** What region_add may change in a container leaves its identity, its
    [initialized] flag and its latch alone. *)
Definition same_latch (c c' : VFIOContainer) : Prop :=
  cid c' = cid c /\ initialized c' = initialized c /\ error c' = error c.

Definition exit_container (exit : AddExit) : VFIOContainer :=
  match exit with
  | add_return c _ => c
  | add_goto_fail c _ _ => c
  end.

Definition any_event (ev : Event) : Prop := True.


(** [w] contains the range [[iova, end_]]. *)
Definition window_contains (w : VFIOHostDMAWindow) (iova end_ : Z) : Prop :=
  min_iova w <= iova /\ end_ <= max_iova w.

(** The target-page-aligned range of a section, which the RAM map path
    computes for itself. *)
Definition target_aligned_start (section : MemoryRegionSection) : Z :=
  wrap64 (round_up (offset_within_address_space section) TARGET_PAGE_SIZE).
Definition target_aligned_end (section : MemoryRegionSection) : Z :=
  round_down (offset_within_address_space section + size section)
    TARGET_PAGE_SIZE.

(** The host address that backs the start of the mapped range. *)
Definition map_vaddr (section : MemoryRegionSection) : Z :=
  wrap64 (mr_ram_ptr (mr section) + offset_within_region section
          + wrap64 (target_aligned_start section
                    - offset_within_address_space section)).

(** Every map and every copy is into [container], for the whole
    target-page-aligned range of the section, with the section's [readonly]
    flag; a map takes the host address that backs the start of the range. *)
Definition map_within (container : VFIOContainer)
    (section : MemoryRegionSection) (ev : Event) : Prop :=
  match ev with
  | ev_dma_map id iova sz vaddr ro =>
      id = cid container /\
      iova = target_aligned_start section /\
      sz = target_aligned_end section - target_aligned_start section /\
      vaddr = map_vaddr section /\
      ro = readonly section
  | ev_dma_copy _ dst iova sz ro =>
      dst = cid container /\
      iova = target_aligned_start section /\
      sz = target_aligned_end section - target_aligned_start section /\
      ro = readonly section
  | _ => True
  end.

(** The calls region_add may issue: nothing that unmaps, drops a reference,
    unregisters, removes a section window or asks for dirty pages. *)
Definition add_side (ev : Event) : Prop :=
  match ev with
  | ev_dma_map _ _ _ _ _ | ev_dma_copy _ _ _ _ _
  | ev_add_section_window _ _ | ev_memory_region_ref _
  | ev_iommu_set_page_size_mask _ _ | ev_register_iommu_notifier _ _
  | ev_iommu_replay _ _ | ev_rdm_register_listener _ _ _ => True
  | _ => False
  end.

(** The calls region_del may issue: nothing that maps, copies, takes a
    reference, registers, replays or adds a section window. *)
Definition del_side (ev : Event) : Prop :=
  match ev with
  | ev_dma_unmap _ _ _ _ | ev_del_section_window _ _
  | ev_memory_region_unref _ | ev_unregister_iommu_notifier _ _
  | ev_rdm_unregister_listener _ _ => True
  | _ => False
  end.

(** The calls log_sync may issue: queries for dirty pages and the replays
    that drive them. *)
Definition sync_side (ev : Event) : Prop :=
  match ev with
  | ev_devices_all_dirty_tracking _ | ev_get_dirty_bitmap _ _ _ _
  | ev_iommu_replay _ _ | ev_rdm_replay_populated _ _ _ => True
  | _ => False
  end.

(** [avoids f Q m]: whatever the trace so far, [m] does not stop with the
    fault [f], and a value it returns satisfies [Q]. *)
Definition avoids {A} (f : Fault) (Q : A -> Prop) (m : M A) : Prop :=
  forall tr,
    match fst (m tr) with
    | Ok a => Q a
    | Stop f' => f' <> f
    end.

(** How many registrations of the reset handler are in force after [calls]:
    one more for each register, one less for each unregister. *)
Fixpoint reset_hooks (calls : list ResetCall) : Z :=
  match calls with
  | [] => 0
  | qemu_register_reset :: calls' => reset_hooks calls' + 1
  | qemu_unregister_reset :: calls' => reset_hooks calls' - 1
  end.

(** What the callers of the registry do with it: look a binding up, let go
    of the binding of an address space they hold, or change the containers
    of a binding in between (as [vfio_as_add_container] and
    [vfio_as_del_container] do). *)
Inductive RegistryOp :=
| registry_get (as_ : Z)
| registry_put (as_ : Z)
| registry_set_containers (as_ : Z) (cs : list VFIOContainer).

Definition registry_step (globals : VFIOGlobals) (op : RegistryOp)
  : VFIOGlobals :=
  match op with
  | registry_get as_ => snd (vfio_get_address_space globals as_)
  | registry_put as_ =>
      match find (same_as as_) (vfio_address_spaces globals) with
      | Some space => vfio_put_address_space globals space
      | None => globals
      end
  | registry_set_containers as_ cs =>
      {| vfio_address_spaces :=
           update_first (same_as as_) (fun space => set_containers space cs)
             (vfio_address_spaces globals);
         reset_calls := reset_calls globals |}
  end.

Definition registry_run (ops : list RegistryOp) (globals : VFIOGlobals)
  : VFIOGlobals :=
  fold_left registry_step ops globals.

Definition no_globals : VFIOGlobals :=
  {| vfio_address_spaces := []; reset_calls := [] |}.

(** Maps that tile the range from [from] to [to] without gap or overlap. *)
Fixpoint tiles (id : Z) (evs : list Event) (from to : Z) : Prop :=
  match evs with
  | [] => from = to
  | ev_dma_map id' iova sz _ _ :: evs' =>
      id' = id /\ iova = from /\ 0 < sz /\ tiles id evs' (from + sz) to
  | _ :: _ => False
  end.

(** What the registry keeps true. *)
Definition registry_inv_holds (globals : VFIOGlobals) : Prop :=
  NoDup (map as_id (vfio_address_spaces globals)) /\
  reset_hooks (reset_calls globals)
  = match vfio_address_spaces globals with
    | [] => 0
    | _ :: _ => 1
    end.

(** The devices of a container, hwpt by hwpt. *)
Definition all_devices (container : VFIOIOMMUFDContainer) : list VFIODevice :=
  List.concat (map device_list (hwpt_list container)).

(** One hwpt per id, and no hwpt without a device. *)
Definition hwpt_list_ok (container : VFIOIOMMUFDContainer) : Prop :=
  NoDup (map hwpt_id (hwpt_list container)) /\
  Forall (fun hwpt => device_list hwpt <> []) (hwpt_list container).

(** Calls of [vfio_kvm_device_add_fd] and [vfio_kvm_device_del_fd] in any
    order, from the state the process starts in. *)
Inductive KvmOp :=
| kvm_add_op (fd : Z)
| kvm_del_op (fd : Z).

Definition kvm_step (s : DevState) (op : KvmOp) : DevState :=
  match op with
  | kvm_add_op fd => snd (vfio_kvm_device_add_fd fd s)
  | kvm_del_op fd => snd (vfio_kvm_device_del_fd fd s)
  end.

Definition kvm_run (ops : list KvmOp) (s : DevState) : DevState :=
  fold_left kvm_step ops s.

Definition no_device_state : DevState :=
  {| vfio_kvm_device_fd := -1; dev_calls := [] |}.

(** The kernel hands out file descriptors that are not negative. *)
Definition creates_valid_fds : Prop :=
  forall calls,
    ans_ret (env_answer denv calls kvm_create_device) = 0 ->
    0 <= ans_out (env_answer denv calls kvm_create_device).

(** The fds of the KVM VFIO devices that the calls [calls], made after
    [pre], have created. *)
Fixpoint created_devices (pre calls : list DevCall) : list Z :=
  match calls with
  | [] => []
  | c :: calls' =>
      match c with
      | kvm_create_device =>
          if nonzero (ans_ret (env_answer denv pre c)) then []
          else [ans_out (env_answer denv pre c)]
      | _ => []
      end ++ created_devices (pre ++ [c]) calls'
  end.

Definition attr_set_on (kvm_fd : Z) (c : DevCall) : Prop :=
  match c with
  | kvm_set_device_attr k _ _ => k = kvm_fd
  | _ => True
  end.

Definition is_compute_needs_reset (c : DevCall) : bool :=
  match c with
  | vfio_compute_needs_reset _ => true
  | _ => false
  end.

(** The last answer other than 0 that a hot reset among the calls [calls],
    made after [pre], has given; [acc] if there is none. *)
Fixpoint last_reset_failure (pre calls : list DevCall) (acc : Z) : Z :=
  match calls with
  | [] => acc
  | c :: calls' =>
      last_reset_failure (pre ++ [c]) calls'
        match c with
        | vfio_hot_reset_multi _ =>
            if nonzero (ans_ret (env_answer denv pre c))
            then ans_ret (env_answer denv pre c)
            else acc
        | _ => acc
        end
  end.

(** What region_add and region_del leave alone in a container, whatever
    they do to its lists and its latch. *)
Definition same_identity (c c' : VFIOContainer) : Prop :=
  cid c' = cid c /\ ops c' = ops c /\ be_fd c' = be_fd c /\
  ioas_id c' = ioas_id c /\ nested c' = nested c /\
  initialized c' = initialized c /\ pgsizes c' = pgsizes c /\
  dirty_pages_supported c' = dirty_pages_supported c.






(** No device is linked twice: [hwpt_next] makes a device an element of at
    most one device list, once. *)
Definition linked_once (container : VFIOIOMMUFDContainer) : Prop :=
  NoDup (map vdev_id (all_devices container)).

Lemma emits_ret {A} P (Q : A -> Prop) a : Q a -> emits P Q (ret a).
Proof.
  intros HQ tr. exists []. cbn. rewrite app_nil_r.
  repeat split; auto. intros a' E. injection E as <-. exact HQ.
Qed.

Lemma emits_stop {A} P (Q : A -> Prop) f : emits P Q (stop f).
Proof.
  intros tr. exists []. cbn. rewrite app_nil_r.
  repeat split; auto. discriminate.
Qed.

Lemma emits_bind {A B} P (R : A -> Prop) (Q : B -> Prop) m k :
  emits P R m -> (forall a, R a -> emits P Q (k a)) -> emits P Q (bind m k).
Proof.
  intros Hm Hk tr. destruct (Hm tr) as (evs & Htr & Hev & Hres).
  unfold bind. destruct (m tr) as [[a | f] tr1]; cbn in *; subst tr1.
  - destruct (Hk a (Hres a eq_refl) (tr ++ evs)) as (evs' & Htr' & Hev' & Hres').
    exists (evs ++ evs'). rewrite Htr', app_assoc.
    repeat split; auto. now apply Forall_app.
  - exists evs. repeat split; auto. discriminate.
Qed.

Lemma emits_weaken {A} (P P' : Event -> Prop) (Q Q' : A -> Prop) m :
  emits P Q m -> (forall e, P e -> P' e) -> (forall a, Q a -> Q' a) ->
  emits P' Q' m.
Proof.
  intros Hm HP HQ tr. destruct (Hm tr) as (evs & Htr & Hev & Hres).
  exists evs. repeat split; auto.
  eapply Forall_impl; eauto.
Qed.

Lemma emits_call P (Q : Z -> Prop) ev :
  P ev -> (forall r, Q r) -> emits P Q (call ev).
Proof.
  intros HP HQ tr. exists [ev]. cbn. repeat split; auto.
Qed.

Lemma emits_call_void P (Q : unit -> Prop) ev :
  P ev -> Q tt -> emits P Q (call_void ev).
Proof.
  intros HP HQ tr. exists [ev]. cbn. repeat split; auto.
  intros []. auto.
Qed.

Lemma emits_assert P (Q : unit -> Prop) b : Q tt -> emits P Q (assert b).
Proof.
  intros HQ. unfold assert. destruct b.
  - now apply emits_ret.
  - apply emits_stop.
Qed.

Lemma emits_get64 P (Q : Z -> Prop) a :
  (forall v, Q v) -> emits P Q (get64 a).
Proof.
  intros HQ. unfold get64. destruct (int128_get64 a).
  - now apply emits_ret.
  - apply emits_stop.
Qed.

(** One step through a computation whose intermediate values need no
    invariant. *)
Ltac emits_step :=
  lazymatch goal with
  | |- emits _ _ (ret _) => apply emits_ret
  | |- emits _ _ (stop _) => apply emits_stop
  | |- emits _ _ (call _) => apply emits_call; [ | intros ]
  | |- emits _ _ (call_void _) => apply emits_call_void
  | |- emits _ _ (assert _) => apply emits_assert
  | |- emits _ _ (get64 _) => apply emits_get64; intros
  | |- emits _ _ (bind _ _) =>
      eapply emits_bind with (R := fun _ => True); [ | intros ? _ ]
  | |- emits _ _ (if ?b then _ else _) => destruct b eqn:?
  | |- emits _ _ (match ?x with _ => _ end) => destruct x eqn:?
  | |- emits _ _ (let '(_, _) := ?x in _) => destruct x eqn:?
  end.

(** ** Arithmetic facts *)

Lemma land_pow2_testbit a k :
  0 <= k -> Z.land a (2 ^ k) = if Z.testbit a k then 2 ^ k else 0.
Proof.
  intros Hk. apply Z.bits_inj'. intros m Hm.
  rewrite Z.land_spec, Z.pow2_bits_eqb by lia.
  destruct (Z.eqb_spec k m) as [<- | Hne].
  - rewrite andb_true_r. destruct (Z.testbit a k) eqn:E.
    + now rewrite Z.pow2_bits_true.
    + now rewrite Z.bits_0.
  - rewrite andb_false_r. destruct (Z.testbit a k).
    + rewrite Z.pow2_bits_false; auto.
    + now rewrite Z.bits_0.
Qed.

Lemma bit63_test a :
  nonzero (Z.land a (Z.shiftl 1 63)) = Z.testbit a 63.
Proof.
  unfold nonzero. rewrite Z.shiftl_1_l, land_pow2_testbit by lia.
  now destruct (Z.testbit a 63).
Qed.

Lemma int128_wrap_small z :
  - 2 ^ 127 <= z < 2 ^ 127 -> int128_wrap z = z.
Proof.
  intros H. unfold int128_wrap.
  rewrite Z.mod_small; lia.
Qed.

Lemma wrap64_small z : hwaddr_ok z -> wrap64 z = z.
Proof. intros H. apply Z.mod_small. exact H. Qed.

Lemma wrap64_ok z : hwaddr_ok (wrap64 z).
Proof. apply Z.mod_pos_bound. lia. Qed.

(** Masking with the negation of a power of two clears the low bits. *)
Lemma land_neg_pow2 x k : 0 <= k -> Z.land x (- 2 ^ k) = x - x mod 2 ^ k.
Proof.
  intros Hk.
  replace (- 2 ^ k) with (Z.lnot (Z.ones k))
    by (rewrite Z.ones_equiv; unfold Z.lnot; lia).
  rewrite <- Z.ldiff_land.
  rewrite Z.ldiff_ones_r, Z.shiftl_mul_pow2, Z.shiftr_div_pow2 by lia.
  pose proof (Z.div_mod x (2 ^ k)). lia.
Qed.

(** On a 64-bit value the 64-bit image of the mask does the same. *)
Lemma land_wrap64_mask x d :
  hwaddr_ok x -> Z.land x (wrap64 d) = Z.land x d.
Proof.
  intros Hx. apply Z.bits_inj'. intros m Hm.
  rewrite !Z.land_spec. unfold wrap64.
  destruct (Z.ltb_spec m 64).
  - now rewrite Z.mod_pow2_bits_low.
  - assert (Z.testbit x m = false) as ->; [ | reflexivity ].
    destruct (Z.eq_dec x 0) as [-> | Hne]; [ apply Z.bits_0 | ].
    apply Z.bits_above_log2; [ unfold hwaddr_ok in Hx; lia | ].
    assert (Z.log2 x < 64); [ | lia ].
    apply Z.log2_lt_pow2; unfold hwaddr_ok in Hx; lia.
Qed.

Lemma land_neg_pow2_round_down x k :
  0 <= k -> Z.land x (- 2 ^ k) = round_down x (2 ^ k).
Proof.
  intros Hk. rewrite land_neg_pow2 by assumption. unfold round_down.
  pose proof (Z.div_mod x (2 ^ k)). lia.
Qed.

(** [ROUND_UP] to a power of two rounds up, modulo [2^64]. *)
Lemma ROUND_UP_pow2 a k :
  0 <= k < 64 -> hwaddr_ok a ->
  ROUND_UP a (2 ^ k) = wrap64 (round_up a (2 ^ k)).
Proof.
  intros Hk Ha. unfold ROUND_UP.
  rewrite land_wrap64_mask by apply wrap64_ok.
  rewrite land_neg_pow2_round_down by lia.
  unfold round_down, round_up, wrap64.
  assert (Hp : 0 < 2 ^ k) by (apply Z.pow_pos_nonneg; lia).
  assert (Hdiv : 2 ^ 64 = 2 ^ k * 2 ^ (64 - k))
    by (rewrite <- Z.pow_add_r by lia; f_equal; lia).
  set (p := 2 ^ k) in *. set (q := 2 ^ (64 - k)) in *.
  assert (Hq : 0 < q) by (apply Z.pow_pos_nonneg; lia).
  set (t := a + p - 1).
  rewrite Hdiv.
  rewrite Z.rem_mul_r by lia.
  rewrite (Z.mul_comm p ((t / p) mod q)), Z.div_add by lia.
  rewrite (Z.div_small (t mod p) p) by (apply Z.mod_pos_bound; lia).
  rewrite Z.add_0_l.
  rewrite (Z.mul_comm (t / p) p), Z.mul_mod_distr_l by lia.
  lia.
Qed.

(** ** Section filtering *)

Lemma skipped_iff section :
  vfio_listener_skipped_section section = true <->
  (mr_is_ram (mr section) = false /\ mr_is_iommu (mr section) = false) \/
  mr_is_protected (mr section) = true \/
  Z.testbit (offset_within_address_space section) 63 = true.
Proof.
  unfold vfio_listener_skipped_section, memory_region_is_ram,
    memory_region_is_iommu, memory_region_is_protected.
  rewrite bit63_test.
  destruct (mr_is_ram (mr section)), (mr_is_iommu (mr section)),
    (mr_is_protected (mr section)),
    (Z.testbit (offset_within_address_space section) 63); cbn;
    intuition congruence.
Qed.

(** The argument of the skip traces: [size - 1] as a 64-bit value. *)
Lemma skip_trace_end section tr :
  1 <= size section <= 2 ^ 64 ->
  get64 (int128_sub (size section) int128_one) tr
  = (Ok (size section - 1), tr).
Proof.
  intros Hsz. unfold get64, int128_get64, int128_sub, int128_one, int128_wrap.
  assert (H128 : 2 ^ 128 = 2 ^ 64 * 2 ^ 64) by reflexivity.
  assert (H127 : 2 * 2 ^ 127 = 2 ^ 128) by reflexivity.
  assert (H64 : 0 < 2 ^ 64) by reflexivity.
  rewrite Z.mod_small by nia.
  replace (size section - 1 + 2 ^ 127 - 2 ^ 127) with (size section - 1) by lia.
  destruct (0 <=? size section - 1) eqn:E1; [ | lia ].
  destruct (size section - 1 <? 2 ^ 64) eqn:E2; [ | lia ].
  reflexivity.
Qed.

Lemma skip_trace_silent section tr :
  snd (get64 (int128_sub (size section) int128_one) tr) = tr.
Proof. unfold get64. now destruct (int128_get64 _). Qed.

Lemma skip_trace_aborts section tr :
  - 2 ^ 127 < size section < 2 ^ 127 ->
  ~ 1 <= size section <= 2 ^ 64 ->
  get64 (int128_sub (size section) int128_one) tr = (Stop assert_failed, tr).
Proof.
  intros Hr Hsz.
  unfold get64, int128_get64, int128_sub, int128_one, int128_wrap.
  assert (H127 : 2 * 2 ^ 127 = 2 ^ 128) by reflexivity.
  assert (H64 : 2 ^ 64 < 2 ^ 127) by reflexivity.
  rewrite Z.mod_small by lia.
  replace (size section - 1 + 2 ^ 127 - 2 ^ 127) with (size section - 1) by lia.
  destruct (0 <=? size section - 1) eqn:E1,
           (size section - 1 <? 2 ^ 64) eqn:E2; try reflexivity; lia.
Qed.

(** A run through a skip branch that returned: the conversion went
    through. *)
Ltac skip_branch_returned Hrun :=
  unfold bind, get64 in Hrun;
  match type of Hrun with
  | context [match int128_get64 ?a with _ => _ end] =>
      destruct (int128_get64 a); [ | discriminate Hrun ]
  end;
  cbn in Hrun.

Lemma skipped_region_add container src section tr :
  vfio_listener_skipped_section section = true ->
  1 <= size section <= 2 ^ 64 ->
  vfio_container_region_add container src section tr
  = (Ok (container, src), tr).
Proof.
  intros H Hsz.
  unfold vfio_container_region_add, vfio_container_region_add_body.
  rewrite H. unfold bind. now rewrite skip_trace_end.
Qed.

Lemma skipped_region_del container section tr :
  vfio_listener_skipped_section section = true ->
  1 <= size section <= 2 ^ 64 ->
  vfio_container_region_del container section tr = (Ok container, tr).
Proof.
  intros H Hsz. unfold vfio_container_region_del.
  rewrite H. unfold bind. now rewrite skip_trace_end.
Qed.

Lemma skipped_region_add_silent container src section tr :
  vfio_listener_skipped_section section = true ->
  snd (vfio_container_region_add container src section tr) = tr.
Proof.
  intros H.
  unfold vfio_container_region_add, vfio_container_region_add_body.
  rewrite H. unfold bind, get64.
  now destruct (int128_get64 _).
Qed.

Lemma skipped_region_del_silent container section tr :
  vfio_listener_skipped_section section = true ->
  snd (vfio_container_region_del container section tr) = tr.
Proof.
  intros H. unfold vfio_container_region_del.
  rewrite H. unfold bind, get64.
  now destruct (int128_get64 _).
Qed.

Lemma skipped_region_add_aborts container src section tr :
  vfio_listener_skipped_section section = true ->
  - 2 ^ 127 < size section < 2 ^ 127 ->
  ~ 1 <= size section <= 2 ^ 64 ->
  vfio_container_region_add container src section tr
  = (Stop assert_failed, tr).
Proof.
  intros H Hr Hsz.
  unfold vfio_container_region_add, vfio_container_region_add_body.
  rewrite H. unfold bind. now rewrite skip_trace_aborts.
Qed.

Lemma skipped_region_del_aborts container section tr :
  vfio_listener_skipped_section section = true ->
  - 2 ^ 127 < size section < 2 ^ 127 ->
  ~ 1 <= size section <= 2 ^ 64 ->
  vfio_container_region_del container section tr = (Stop assert_failed, tr).
Proof.
  intros H Hr Hsz. unfold vfio_container_region_del.
  rewrite H. unfold bind. now rewrite skip_trace_aborts.
Qed.

Lemma skipped_log_sync container section tr :
  vfio_listener_skipped_section section = true ->
  vfio_container_log_sync container section tr = (Ok tt, tr).
Proof.
  intros H. unfold vfio_container_log_sync. now rewrite H.
Qed.

Lemma skipped_region_add_foreach section :
  vfio_listener_skipped_section section = true ->
  1 <= size section <= 2 ^ 64 ->
  forall cs src tr, region_add_foreach cs src section tr = (Ok cs, tr).
Proof.
  intros H Hsz. induction cs as [| c cs IH]; intros src tr; cbn.
  - reflexivity.
  - unfold bind. rewrite skipped_region_add by assumption.
    now rewrite IH.
Qed.

Lemma skipped_region_del_foreach section :
  vfio_listener_skipped_section section = true ->
  1 <= size section <= 2 ^ 64 ->
  forall cs tr, region_del_foreach cs section tr = (Ok cs, tr).
Proof.
  intros H Hsz. induction cs as [| c cs IH]; intros tr; cbn.
  - reflexivity.
  - unfold bind. rewrite skipped_region_del by assumption.
    now rewrite IH.
Qed.

Lemma skipped_region_add_foreach_silent section :
  vfio_listener_skipped_section section = true ->
  forall cs src tr, snd (region_add_foreach cs src section tr) = tr.
Proof.
  intros H. induction cs as [| c cs IH]; intros src tr; cbn.
  - reflexivity.
  - unfold bind.
    pose proof (skipped_region_add_silent c src section tr H) as Hs.
    destruct (vfio_container_region_add c src section tr) as [[[c' src'] | f] tr'];
      cbn in Hs; subst tr'; [ | reflexivity ].
    specialize (IH src' tr).
    destruct (region_add_foreach cs src' section tr) as [[cs' | f] tr'];
      cbn in IH |- *; exact IH.
Qed.

Lemma skipped_region_del_foreach_silent section :
  vfio_listener_skipped_section section = true ->
  forall cs tr, snd (region_del_foreach cs section tr) = tr.
Proof.
  intros H. induction cs as [| c cs IH]; intros tr; cbn.
  - reflexivity.
  - unfold bind.
    pose proof (skipped_region_del_silent c section tr H) as Hs.
    destruct (vfio_container_region_del c section tr) as [[c' | f] tr'];
      cbn in Hs; subst tr'; [ | reflexivity ].
    specialize (IH tr).
    destruct (region_del_foreach cs section tr) as [[cs' | f] tr'];
      cbn in IH |- *; exact IH.
Qed.

Lemma skipped_log_sync_foreach section :
  vfio_listener_skipped_section section = true ->
  forall cs tr, log_sync_foreach cs section tr = (Ok tt, tr).
Proof.
  intros H. induction cs as [| c cs IH]; intros tr; cbn.
  - reflexivity.
  - unfold bind. rewrite skipped_log_sync by assumption. apply IH.
Qed.

Lemma set_containers_same space : set_containers space (containers space) = space.
Proof. now destruct space. Qed.

(** C7: a section whose region is neither RAM nor an IOMMU region, or whose
    region is protected, or whose offset_within_address_space has bit 63
    set, is skipped by region_add, region_del and log_sync of the main
    listener.  For every container list and every history none of the three
    issues a call (no map, unmap, copy, dirty-bitmap or any other: the trace
    is the one they were entered with), and log_sync returns.  region_add
    and region_del hand [size - 1] as a 64-bit value to their skip trace:
    for a size between 1 and 2^64 both return with the address space as it
    was; for any other size the conversion's assertion stops them at the
    first container, still without a call. *)
Theorem C7_skipped_section_no_backend_calls :
  forall (space : VFIOAddressSpace) (section : MemoryRegionSection)
         (tr : Trace),
    (mr_is_ram (mr section) = false /\ mr_is_iommu (mr section) = false) \/
    mr_is_protected (mr section) = true \/
    Z.testbit (offset_within_address_space section) 63 = true ->
    (snd (vfio_listener_region_add space section tr) = tr /\
     snd (vfio_listener_region_del space section tr) = tr /\
     vfio_listener_log_sync space section tr = (Ok tt, tr)) /\
    (1 <= size section <= 2 ^ 64 ->
     vfio_listener_region_add space section tr = (Ok space, tr) /\
     vfio_listener_region_del space section tr = (Ok space, tr)) /\
    (- 2 ^ 127 < size section < 2 ^ 127 ->
     ~ 1 <= size section <= 2 ^ 64 ->
     containers space <> [] ->
     vfio_listener_region_add space section tr = (Stop assert_failed, tr) /\
     vfio_listener_region_del space section tr = (Stop assert_failed, tr)).
Proof.
  intros space section tr H. apply skipped_iff in H.
  split; [ | split ].
  - unfold vfio_listener_region_add, vfio_listener_region_del,
      vfio_listener_log_sync, bind.
    rewrite skipped_log_sync_foreach by assumption.
    pose proof (skipped_region_add_foreach_silent section H
                  (containers space) (Some None) tr) as Ha.
    pose proof (skipped_region_del_foreach_silent section H
                  (containers space) tr) as Hd.
    destruct (region_add_foreach _ _ _ _) as [[? | ?] ?],
             (region_del_foreach _ _ _) as [[? | ?] ?];
      cbn in Ha, Hd |- *; auto.
  - intros Hsz.
    unfold vfio_listener_region_add, vfio_listener_region_del, bind.
    rewrite skipped_region_add_foreach, skipped_region_del_foreach
      by assumption.
    unfold ret. now rewrite set_containers_same.
  - intros Hr Hsz Hne.
    unfold vfio_listener_region_add, vfio_listener_region_del, bind.
    destruct (containers space) as [| c cs]; [ congruence | ].
    cbn. unfold bind.
    rewrite skipped_region_add_aborts, skipped_region_del_aborts
      by assumption.
    split; reflexivity.
Qed.

(** ** Pre-registration listener *)

(** C10: the nested pre-registration listener looks only at whether the
    region is RAM.  For every RAM section, protected or not and whatever its
    offset_within_address_space, region_add is the RAM map path
    ([vfio_dma_map_ram_section] with a null source pointer, same calls, same
    stop, same container) and region_del is the RAM unmap path; a section
    that is not RAM is ignored.  The skip filter of the main listener plays
    no part. *)
Theorem C10_prereg_filters_on_ram_only :
  forall (container : VFIOContainer) (section : MemoryRegionSection)
         (tr : Trace),
    mr_is_ram (mr section) = true ->
    vfio_prereg_listener_region_add container section tr
    = match vfio_dma_map_ram_section container None section tr with
      | (Ok (_, _, _, container'), tr') => (Ok container', tr')
      | (Stop f, tr') => (Stop f, tr')
      end /\
    vfio_prereg_listener_region_del container section tr
    = vfio_dma_unmap_ram_section container section tr.
Proof.
  intros container section tr H.
  unfold vfio_prereg_listener_region_add, vfio_prereg_listener_region_del,
    memory_region_is_ram.
  rewrite H. cbn. split; [ | reflexivity ].
  unfold bind.
  destruct (vfio_dma_map_ram_section container None section tr)
    as [[[[[r e] s] c] | f] tr']; reflexivity.
Qed.

Lemma prereg_ignores_non_ram container section tr :
  mr_is_ram (mr section) = false ->
  vfio_prereg_listener_region_add container section tr = (Ok container, tr) /\
  vfio_prereg_listener_region_del container section tr = (Ok container, tr).
Proof.
  intros H.
  unfold vfio_prereg_listener_region_add, vfio_prereg_listener_region_del,
    memory_region_is_ram.
  now rewrite H.
Qed.

(** ** Host window table *)

Lemma range_last_of_window lo hi :
  hwaddr_ok lo -> hwaddr_ok hi ->
  range_get_last lo (wrap64 (hi - lo + 1)) = hi.
Proof.
  intros Hlo Hhi. unfold range_get_last, wrap64.
  replace (lo + (hi - lo + 1) mod 2 ^ 64 - 1)
    with ((hi - lo + 1) mod 2 ^ 64 + (lo - 1)) by lia.
  rewrite Zplus_mod_idemp_l.
  replace (hi - lo + 1 + (lo - 1)) with hi by lia.
  apply Z.mod_small. exact Hhi.
Qed.

Lemma ranges_overlap_windows w lo hi :
  window_ok w -> hwaddr_ok lo -> hwaddr_ok hi ->
  ranges_overlap (min_iova w) (wrap64 (max_iova w - min_iova w + 1))
    lo (wrap64 (hi - lo + 1))
  = negb ((hi <? min_iova w) || (max_iova w <? lo)).
Proof.
  intros [Hmin Hmax] Hlo Hhi. unfold ranges_overlap.
  now rewrite !range_last_of_window.
Qed.

Lemma overlap_detected w lo hi pg :
  window_ok w -> hwaddr_ok lo -> hwaddr_ok hi ->
  win_overlap w {| min_iova := lo; max_iova := hi; iova_pgsizes := pg |} ->
  ranges_overlap (min_iova w) (wrap64 (max_iova w - min_iova w + 1))
    lo (wrap64 (hi - lo + 1)) = true.
Proof.
  intros Hw Hlo Hhi (iova & H1 & H2). cbn in H2.
  rewrite ranges_overlap_windows by assumption.
  destruct (Z.ltb_spec hi (min_iova w)); [ lia | ].
  destruct (Z.ltb_spec (max_iova w) lo); [ lia | reflexivity ].
Qed.

Lemma no_overlap_detected w lo hi pg :
  window_ok w -> hwaddr_ok lo -> hwaddr_ok hi ->
  ranges_overlap (min_iova w) (wrap64 (max_iova w - min_iova w + 1))
    lo (wrap64 (hi - lo + 1)) = false ->
  ~ win_overlap {| min_iova := lo; max_iova := hi; iova_pgsizes := pg |} w.
Proof.
  intros Hw Hlo Hhi E (iova & H1 & H2). cbn in H1.
  rewrite ranges_overlap_windows in E by assumption.
  apply negb_false_iff, orb_true_iff in E.
  destruct E as [E | E]; apply Z.ltb_lt in E; lia.
Qed.

Lemma remove_first_incl {A} (p : A -> bool) l x :
  In x (remove_first p l) -> In x l.
Proof.
  induction l as [| y l IH]; cbn; [ tauto | ].
  destruct (p y); cbn; intuition.
Qed.

Lemma remove_first_disjoint p l :
  windows_disjoint l -> windows_disjoint (remove_first p l).
Proof.
  unfold windows_disjoint.
  induction 1 as [| w l Hw Hl IH]; cbn; [ constructor | ].
  destruct (p w); [ exact Hl | ].
  constructor; [ | exact IH ].
  rewrite Forall_forall in *. intros x Hx.
  apply Hw. eapply remove_first_incl; eauto.
Qed.

(** Deleting a window keeps the others disjoint. *)
Lemma vfio_host_win_del_disjoint container lo hi :
  windows_disjoint (hostwin_list container) ->
  windows_disjoint (hostwin_list (snd (vfio_host_win_del container lo hi))).
Proof.
  intros H. unfold vfio_host_win_del.
  destruct (existsb _ _); cbn; [ | exact H ].
  now apply remove_first_disjoint.
Qed.

Lemma remove_first_ok p l :
  Forall window_ok l -> Forall window_ok (remove_first p l).
Proof.
  intros H. rewrite Forall_forall in *. intros x Hx.
  apply H. eapply remove_first_incl; eauto.
Qed.

(** A returning add keeps the windows disjoint. *)
Lemma vfio_host_win_add_disjoint container lo hi pg tr container' tr' :
  Forall window_ok (hostwin_list container) ->
  hwaddr_ok lo -> hwaddr_ok hi ->
  windows_disjoint (hostwin_list container) ->
  vfio_host_win_add container lo hi pg tr = (Ok container', tr') ->
  tr' = tr /\
  hostwin_list container'
  = {| min_iova := lo; max_iova := hi; iova_pgsizes := pg |}
    :: hostwin_list container /\
  windows_disjoint (hostwin_list container') /\
  Forall window_ok (hostwin_list container').
Proof.
  intros Hok Hlo Hhi Hdis Heq. unfold vfio_host_win_add in Heq.
  destruct (existsb _ (hostwin_list container)) eqn:E; [ discriminate | ].
  unfold ret in Heq. injection Heq as <- <-. cbn.
  repeat split; auto.
  - constructor; [ | exact Hdis ].
    rewrite Forall_forall. intros w Hin.
    rewrite Forall_forall in Hok.
    apply no_overlap_detected; auto.
    destruct (ranges_overlap _ _ _ _) eqn:R; [ | reflexivity ].
    assert (existsb
              (fun hostwin =>
                 ranges_overlap (min_iova hostwin)
                   (wrap64 (max_iova hostwin - min_iova hostwin + 1)) lo
                   (wrap64 (hi - lo + 1))) (hostwin_list container) = true)
      as C by (apply existsb_exists; eauto).
    congruence.
  - constructor; [ split; assumption | exact Hok ].
Qed.

(** Whatever adds and deletes follow, the windows stay disjoint. *)
Lemma host_win_run_disjoint :
  forall l container tr container' tr',
    Forall host_win_op_ok l ->
    Forall window_ok (hostwin_list container) ->
    windows_disjoint (hostwin_list container) ->
    host_win_run l container tr = (Ok container', tr') ->
    windows_disjoint (hostwin_list container').
Proof.
  induction l as [| op l IH]; intros container tr container' tr' Hops Hok Hdis Hrun.
  - cbn in Hrun. injection Hrun as <- <-. exact Hdis.
  - inversion Hops as [| ? ? Hop Hops']; subst.
    destruct op as [lo hi pg | lo hi]; cbn in Hop; destruct Hop as [Hlo Hhi];
      cbn [host_win_run] in Hrun.
    + unfold bind in Hrun.
      destruct (vfio_host_win_add container lo hi pg tr)
        as [[c1 | f] tr1] eqn:Hadd; [ | discriminate ].
      destruct (vfio_host_win_add_disjoint _ _ _ _ _ _ _ Hok Hlo Hhi Hdis Hadd)
        as (_ & _ & Hdis1 & Hok1).
      eapply IH; eauto.
    + eapply IH; [ exact Hops' | | | exact Hrun ].
      * unfold vfio_host_win_del. destruct (existsb _ _); cbn; auto.
        now apply remove_first_ok.
      * now apply vfio_host_win_del_disjoint.
Qed.

(** C8: the host windows of a container are pairwise non-overlapping, and
    [vfio_host_win_add] keeps them so.  On a window list that is pairwise
    disjoint (as the empty list of a new container is), adding [min, max]
    when an existing window shares an IOVA with it stops in [hw_error]
    without issuing a call, so nothing is inserted; whenever the add
    returns, it has put exactly the new window at the head of the list and
    the list is still pairwise disjoint; and after any sequence of adds and
    deletes that returns the list is pairwise disjoint.  (An add of a
    non-empty window that meets none of the non-empty existing ones does
    return.) *)
Theorem C8_host_windows_pairwise_disjoint :
  forall (container : VFIOContainer) (lo hi pg : Z) (tr : Trace),
    Forall window_ok (hostwin_list container) ->
    hwaddr_ok lo -> hwaddr_ok hi ->
    windows_disjoint (hostwin_list container) ->
    let new := {| min_iova := lo; max_iova := hi; iova_pgsizes := pg |} in
    ((exists w, In w (hostwin_list container) /\ win_overlap w new) ->
     vfio_host_win_add container lo hi pg tr = (Stop hw_error, tr)) /\
    (forall container' tr',
       vfio_host_win_add container lo hi pg tr = (Ok container', tr') ->
       tr' = tr /\
       hostwin_list container' = new :: hostwin_list container /\
       windows_disjoint (hostwin_list container') /\
       Forall window_ok (hostwin_list container')) /\
    ((forall w, In w (hostwin_list container) ->
                min_iova w <= max_iova w /\ ~ win_overlap w new) ->
     lo <= hi ->
     exists container',
       vfio_host_win_add container lo hi pg tr = (Ok container', tr)) /\
    (forall l container' tr',
       Forall host_win_op_ok l ->
       host_win_run l container tr = (Ok container', tr') ->
       windows_disjoint (hostwin_list container')).
Proof.
  intros container lo hi pg tr Hok Hlo Hhi Hdis new.
  split; [ | split; [ | split ] ].
  - intros (w & Hin & Hov). unfold vfio_host_win_add.
    rewrite Forall_forall in Hok.
    pose proof (overlap_detected w lo hi pg (Hok w Hin) Hlo Hhi Hov) as T.
    assert (existsb
              (fun hostwin =>
                 ranges_overlap (min_iova hostwin)
                   (wrap64 (max_iova hostwin - min_iova hostwin + 1)) lo
                   (wrap64 (hi - lo + 1))) (hostwin_list container) = true)
      as -> by (apply existsb_exists; eauto).
    reflexivity.
  - intros container' tr' Heq.
    now apply vfio_host_win_add_disjoint with (tr := tr).
  - intros Hno Hle. unfold vfio_host_win_add.
    destruct (existsb _ (hostwin_list container)) eqn:E.
    + exfalso. apply existsb_exists in E. destruct E as (w & Hin & Hov).
      destruct (Hno w Hin) as [Hwf Hno']. apply Hno'.
      rewrite Forall_forall in Hok. specialize (Hok w Hin).
      rewrite ranges_overlap_windows in Hov by assumption.
      apply negb_true_iff, orb_false_iff in Hov. destruct Hov as [H1 H2].
      apply Z.ltb_ge in H1, H2. destruct Hok as [Hmin Hmax].
      exists (Z.max lo (min_iova w)). cbn. lia.
    + eexists. reflexivity.
  - intros l container' tr' Hops Hrun.
    eapply host_win_run_disjoint; eauto.
Qed.

(** ** The region_add fan-out and the source container *)

Ltac emits_auto :=
  cbv zeta; repeat emits_step; cbn; auto.

(** With an empty cell behind [src_container] the RAM map path issues no
    copy and leaves the cell empty: [copy_dma_supported] has been cleared by
    then, and the cell is only written under [copy_dma_supported]. *)
Lemma map_ram_section_empty_source container section :
  emits not_copy
    (fun '(_, _, src', _) => src' = Some None)
    (vfio_dma_map_ram_section container (Some None) section).
Proof.
  unfold vfio_dma_map_ram_section, vfio_register_ram_discard_listener,
    sub_page_misaligned, vfio_container_dma_map, iommufd_map.
  rewrite andb_false_r.
  emits_auto.
Qed.

Lemma region_add_empty_source container section :
  emits not_copy
    (fun '(_, src') => src' = Some None)
    (vfio_container_region_add container (Some None) section).
Proof.
  unfold vfio_container_region_add.
  eapply emits_bind
    with (R := fun exit => match exit with
                           | add_return _ src' => src' = Some None
                           | add_goto_fail _ src' _ => src' = Some None
                           end).
  - unfold vfio_container_region_add_body,
      vfio_container_add_section_window.
    cbv zeta.
    repeat lazymatch goal with
           | |- emits _ _ (bind (vfio_dma_map_ram_section _ _ _) _) =>
               eapply emits_bind;
               [ apply map_ram_section_empty_source
               | intros [[[r e] src'] c'] Hsrc ]
           | |- _ => emits_step
           end; cbn; auto.
  - intros [c' src' | c' src' err] Hsrc.
    + now apply emits_ret.
    + unfold vfio_container_region_add_fail. emits_auto.
Qed.

Lemma region_add_foreach_empty_source section :
  forall cs, emits not_copy (fun _ => True)
               (region_add_foreach cs (Some None) section).
Proof.
  induction cs as [| c cs IH]; cbn.
  - now apply emits_ret.
  - eapply emits_bind; [ apply region_add_empty_source | ].
    intros [c' src'] ->. cbn.
    eapply emits_bind; [ apply IH | ].
    intros cs' _. now apply emits_ret.
Qed.

(** No fan-out of [vfio_listener_region_add] ever reaches the backend copy:
    every event it appends is something else. *)
Lemma listener_region_add_never_copies space section :
  emits not_copy (fun _ => True) (vfio_listener_region_add space section).
Proof.
  unfold vfio_listener_region_add.
  eapply emits_bind; [ apply region_add_foreach_empty_source | ].
  intros cs _. now apply emits_ret.
Qed.

(** ** The fd-based copy *)

(** [iommufd_copy] passes its assertion exactly when both containers sit on
    the same backend fd; nothing before it compares the two. *)
Lemma iommufd_copy_same_fd src dst iova sz ro tr :
  be_fd src = be_fd dst ->
  iommufd_copy src dst iova sz ro tr
  = (Ok (oracle tr (ev_dma_copy (cid src) (cid dst) iova sz ro)),
     tr ++ [ev_dma_copy (cid src) (cid dst) iova sz ro]).
Proof.
  intros H. unfold iommufd_copy, bind, assert.
  rewrite H, Z.eqb_refl. reflexivity.
Qed.


(** ** The fan-out does not look at the backend fd *)




















(** ** Guest IOMMU notifier registration *)

(** Whatever the container, a notifier that [vfio_container_region_add]
    registers carries [IOMMU_NOTIFIER_IOTLB_EVENTS]: the local [flags] is
    not what [iommu_notifier_init] receives. *)
Lemma region_add_registers_iotlb_events container src section :
  emits registers_iotlb_events (fun _ => True)
    (vfio_container_region_add container src section).
Proof.
  unfold vfio_container_region_add, vfio_container_region_add_body,
    vfio_container_region_add_fail, vfio_container_add_section_window,
    vfio_dma_map_ram_section, vfio_register_ram_discard_listener,
    sub_page_misaligned, vfio_container_dma_map, vfio_container_dma_copy,
    iommufd_map, iommufd_copy.
  emits_auto.
Qed.

(** A nested container never asks for a replay in region_add. *)
Lemma nested_region_add_no_replay container src section :
  nested container = true ->
  emits not_replay (fun _ => True)
    (vfio_container_region_add container src section).
Proof.
  intros Hn.
  unfold vfio_container_region_add, vfio_container_region_add_body,
    vfio_container_region_add_fail, vfio_container_add_section_window,
    vfio_dma_map_ram_section, vfio_register_ram_discard_listener,
    sub_page_misaligned, vfio_container_dma_map, vfio_container_dma_copy,
    iommufd_map, iommufd_copy.
  rewrite Hn. cbv beta iota zeta.
  change (nonzero (Z.land IOMMU_NOTIFIER_UNMAP IOMMU_NOTIFIER_MAP))
    with false.
  emits_auto.
Qed.

(** The nested callback forwards the invalidation to the IOMMU region and
    touches no backend. *)
Lemma nested_notify_invalidates_cache giommu iotlb tr :
  vfio_nested_unmap_notify giommu iotlb tr
  = (Ok tt, tr ++ [ev_invalidate_cache (mr_id (iommu_mr giommu)) iotlb]).
Proof. reflexivity. Qed.

(** ** RAM unmap path *)

Lemma vfio_container_dma_unmap_event container iova sz :
  vfio_container_dma_unmap container iova sz None
  = call (ev_dma_unmap (cid container) iova sz None).
Proof.
  unfold vfio_container_dma_unmap, iommufd_unmap.
  now destruct (ops container).
Qed.

Lemma round_down_bounds a p : 0 < p -> 0 <= a -> 0 <= round_down a p <= a.
Proof.
  intros Hp Ha. unfold round_down.
  pose proof (Z.div_mod a p). pose proof (Z.mod_pos_bound a p Hp).
  pose proof (Z.div_pos a p Ha Hp). nia.
Qed.

Lemma get64_ok v tr : hwaddr_ok v -> get64 v tr = (Ok v, tr).
Proof.
  intros [H1 H2]. unfold get64, int128_get64.
  apply Z.leb_le in H1. apply Z.ltb_lt in H2. now rewrite H1, H2.
Qed.

Lemma sub_page_misaligned_trace iova llsize pgmask tr :
  snd (sub_page_misaligned iova llsize pgmask tr) = tr.
Proof.
  unfold sub_page_misaligned, bind, get64, ret, stop.
  destruct (nonzero (Z.land iova pgmask)); [ reflexivity | ].
  now destruct (int128_get64 llsize).
Qed.

(** The last part of [vfio_dma_unmap_ram_section], once [try_unmap] holds:
    one unmap, or two halves for a span of [2^64]. *)
Ltac run_unmap_calls :=
  unfold unmap_calls;
  lazymatch goal with
  | |- context [int128_eq ?l int128_2_64] =>
      unfold int128_eq, int128_2_64, int128_rshift;
      destruct (Z.eqb_spec l (2 ^ 64)) as [Heq | Hne];
      [ rewrite Heq; change (Z.shiftr (2 ^ 64) 1) with (2 ^ 63);
        cbv beta iota delta [bind ret];
        repeat (first
          [ rewrite get64_ok
              by (unfold hwaddr_ok; split; [ lia | reflexivity ])
          | rewrite vfio_container_dma_unmap_event; unfold call at 1 ];
          cbv beta iota);
        rewrite <- ?app_assoc; try reflexivity
      | cbv beta iota delta [bind ret];
        repeat (first
          [ rewrite get64_ok by (unfold hwaddr_ok; lia)
          | rewrite vfio_container_dma_unmap_event; unfold call at 1 ];
          cbv beta iota);
        rewrite <- ?app_assoc; try reflexivity ]
  end.

Ltac no_unmaps :=
  eexists; exists [], []; cbn; rewrite ?app_nil_r;
  split; [ reflexivity | ];
  split; [ constructor | ];
  split; [ left; reflexivity | intros [? ?]; discriminate ].

(** What [vfio_dma_unmap_ram_section] does on any section: it stops or
    returns after some calls [pre] that are not unmaps, followed either by no
    unmap at all or by the unmap calls for the page-aligned range; on an
    ordinary RAM region [pre] is empty, the function returns, and the unmap
    calls are issued whenever the range is not empty. *)
Lemma unmap_ram_section_calls container section k tr :
  qemu_real_host_page_size = 2 ^ k -> 0 <= k < 64 ->
  section_ok section ->
  exists res pre unmaps,
    vfio_dma_unmap_ram_section container section tr
    = (res, tr ++ pre ++ unmaps) /\
    Forall not_unmap pre /\
    (unmaps = [] \/
     (aligned_start section < aligned_end section /\
      unmaps = unmap_calls (cid container) (aligned_start section)
                 (aligned_end section - aligned_start section))) /\
    (plain_ram section ->
     res = Ok container /\ pre = [] /\
     (aligned_start section < aligned_end section ->
      unmaps = unmap_calls (cid container) (aligned_start section)
                 (aligned_end section - aligned_start section))).
Proof.
  intros Hp Hk (Hoas & Hsz & Hfit).
  unfold vfio_dma_unmap_ram_section, REAL_HOST_PAGE_ALIGN,
    qemu_real_host_page_mask, aligned_start, aligned_end, plain_ram,
    memory_region_is_ram_device, memory_region_has_ram_discard_manager.
  rewrite Hp.
  rewrite ROUND_UP_pow2 by assumption.
  unfold int128_make64, int128_exts64, int128_and, int128_add, int128_ge.
  assert (H64 : 2 ^ 64 < 2 ^ 127) by (apply Z.pow_lt_mono_r; lia).
  assert (Hpp : 0 < 2 ^ k) by (apply Z.pow_pos_nonneg; lia).
  rewrite (int128_wrap_small (offset_within_address_space section
                              + size section))
    by (unfold hwaddr_ok in Hoas; lia).
  rewrite land_neg_pow2_round_down by lia.
  set (iova := wrap64 (round_up (offset_within_address_space section) (2 ^ k))).
  set (llend := round_down (offset_within_address_space section
                            + size section) (2 ^ k)).
  assert (Hiova : hwaddr_ok iova) by apply wrap64_ok.
  assert (Hllend : 0 <= llend <= 2 ^ 64).
  { pose proof (round_down_bounds (offset_within_address_space section
                                   + size section) (2 ^ k) Hpp).
    unfold hwaddr_ok in Hoas. subst llend. lia. }
  cbv zeta.
  destruct (Z.leb_spec llend iova) as [Hle | Hlt].
  { exists (Ok container), [], []. cbn. rewrite app_nil_r.
    repeat split; auto. lia. }
  unfold int128_sub, int128_one.
  unfold hwaddr_ok in Hiova.
  rewrite !int128_wrap_small by lia.
  unfold bind at 1. rewrite get64_ok by (unfold hwaddr_ok; lia).
  destruct (mr_is_ram_device (mr section)) eqn:Hdev.
  - (* RAM device *)
    destruct (hostwin_from_range container iova (llend - 1)) as [hw |].
    + unfold bind at 1. unfold bind at 1.
      pose proof (sub_page_misaligned_trace iova (llend - iova)
                    (pgmask_of hw) tr) as Htr.
      destruct (sub_page_misaligned iova (llend - iova) (pgmask_of hw) tr)
        as [[[|] | f] tr1]; cbn in Htr; subst tr1.
      * no_unmaps.
      * exists (Ok container), [],
          (unmap_calls (cid container) iova (llend - iova)).
        unfold ret at 1. cbv beta iota. unfold negb.
        split; [ cbn [app]; run_unmap_calls | ].
        split; [ constructor | ].
        split; [ right; split; [ lia | reflexivity ]
               | intros [? ?]; discriminate ].
      * no_unmaps.
    + no_unmaps.
  - destruct (mr_rdm (mr section)) as [g |] eqn:Hrdm.
    + (* RamDiscardManager *)
      unfold vfio_unregister_ram_discard_listener.
      destruct (find (vrdl_matches section) (vrdl_list container)) as [v |].
      * eexists.
        exists [ev_rdm_unregister_listener (mr_id (mr section)) v], [].
        cbn. split; [ reflexivity | ].
        split; [ repeat constructor | ].
        split; [ left; reflexivity | intros [? ?]; discriminate ].
      * no_unmaps.
    + (* ordinary RAM *)
      exists (Ok container), [],
        (unmap_calls (cid container) iova (llend - iova)).
      unfold bind at 1. unfold ret at 1. cbv beta iota.
      split; [ cbn [app]; run_unmap_calls | ].
      split; [ constructor | ].
      split; [ right; split; [ lia | reflexivity ] | ].
      intros _. repeat split.
Qed.

Lemma not_unmap_within container section ev :
  not_unmap ev -> unmap_within container section ev.
Proof. destruct ev; cbn; tauto. Qed.

Lemma unmap_calls_within container section :
  Forall (unmap_within container section)
    (unmap_calls (cid container) (aligned_start section)
       (aligned_end section - aligned_start section)).
Proof.
  apply Forall_forall. intros ev Hin.
  pose proof Hin as Hin'. unfold unmap_calls in Hin'.
  destruct (_ =? _); cbn in Hin';
    repeat (destruct Hin' as [<- | Hin']; [ exact Hin | ]); contradiction.
Qed.

Lemma unmap_ram_section_emits container container0 section k :
  qemu_real_host_page_size = 2 ^ k -> 0 <= k < 64 ->
  section_ok section -> cid container = cid container0 ->
  emits (unmap_within container0 section) (fun _ => True)
    (vfio_dma_unmap_ram_section container section).
Proof.
  intros Hp Hk Hok Hcid tr.
  destruct (unmap_ram_section_calls container section k tr Hp Hk Hok)
    as (res & pre & unmaps & Heq & Hpre & Hun & _).
  exists (pre ++ unmaps). rewrite Heq. cbn.
  split; [ reflexivity | ]. split; [ | trivial ].
  apply Forall_app. split.
  - eapply Forall_impl; [ | exact Hpre ]. apply not_unmap_within.
  - destruct Hun as [-> | [_ ->]]; [ constructor | ].
    unfold unmap_within. rewrite <- Hcid. apply unmap_calls_within.
Qed.

Lemma region_del_emits container section k :
  qemu_real_host_page_size = 2 ^ k -> 0 <= k < 64 ->
  section_ok section ->
  emits (unmap_within container section) (fun _ => True)
    (vfio_container_region_del container section).
Proof.
  intros Hp Hk Hok. unfold vfio_container_region_del.
  destruct (vfio_listener_skipped_section section); [ emits_auto | ].
  destruct (section_misaligned section); [ now apply emits_ret | ].
  eapply emits_bind with (R := fun c1 => cid c1 = cid container).
  - emits_auto.
  - intros c1 Hc1.
    eapply emits_bind;
      [ apply (unmap_ram_section_emits c1 container section k); auto | ].
    intros c2 _. unfold vfio_container_del_section_window. emits_auto.
Qed.

(** region_del of a section of an ordinary RAM region that passes the
    filters: the unmap calls for the page-aligned range, then the reference
    is dropped and the section window removed. *)
Lemma region_del_plain container section k tr :
  qemu_real_host_page_size = 2 ^ k -> 0 <= k < 64 ->
  section_ok section -> plain_ram section ->
  vfio_listener_skipped_section section = false ->
  section_misaligned section = false ->
  mr_is_iommu (mr section) = false ->
  vfio_container_region_del container section tr
  = (Ok container,
     tr ++ (if aligned_end section <=? aligned_start section then []
            else unmap_calls (cid container) (aligned_start section)
                   (aligned_end section - aligned_start section))
        ++ [ ev_memory_region_unref (mr_id (mr section));
             ev_del_section_window (cid container) section ]).
Proof.
  intros Hp Hk Hok Hplain Hskip Hal Hio.
  unfold vfio_container_region_del, memory_region_is_iommu.
  rewrite Hskip, Hal, Hio.
  destruct (unmap_ram_section_calls container section k tr Hp Hk Hok)
    as (res & pre & unmaps & Heq & Hpre & Hun & Hpl).
  destruct (Hpl Hplain) as (-> & -> & Hex).
  unfold bind at 1. unfold ret at 1.
  unfold bind at 1. rewrite Heq.
  unfold vfio_container_del_section_window, bind, call_void, ret.
  cbn [app]. rewrite <- !app_assoc. cbn [app].
  do 2 f_equal.
  destruct (Z.leb_spec (aligned_end section) (aligned_start section))
    as [Hle | Hlt].
  - destruct Hun as [-> | [Hlt _]]; [ reflexivity | lia ].
  - now rewrite (Hex Hlt).
Qed.

Lemma round_up_least a p :
  0 < p -> a <= round_up a p < a + p /\ round_up a p mod p = 0.
Proof.
  intros Hp. unfold round_up.
  pose proof (Z.div_mod (a + p - 1) p).
  pose proof (Z.mod_pos_bound (a + p - 1) p Hp).
  split; [ lia | apply Z.mod_mul; lia ].
Qed.

Lemma round_down_greatest a p :
  0 < p -> a - p < round_down a p <= a /\ round_down a p mod p = 0.
Proof.
  intros Hp. unfold round_down.
  pose proof (Z.div_mod a p).
  pose proof (Z.mod_pos_bound a p Hp).
  split; [ lia | apply Z.mod_mul; lia ].
Qed.

(** C3 (amended): for every region_del the unmapped range is obtained by
    rounding offset_within_address_space UP to the host page size for the
    start (in 64 bits) and rounding offset_within_address_space + size down
    for the exclusive end.  [aligned_start] is the least multiple of the
    page size that is not below the offset, [aligned_end] the greatest one
    that is not above offset + size; every unmap that
    [vfio_container_region_del] issues is one of the unmap calls for
    [aligned_start, aligned_end); and for a section of an ordinary RAM
    region that passes the filters these calls are exactly what is issued
    before the reference is dropped. *)
Theorem C3_region_del_unmaps_from_rounded_up_start :
  forall (container : VFIOContainer) (section : MemoryRegionSection)
         (k : Z) (tr : Trace),
    qemu_real_host_page_size = 2 ^ k -> 0 <= k < 64 ->
    section_ok section ->
    let oas := offset_within_address_space section in
    let p := qemu_real_host_page_size in
    aligned_start section = wrap64 (round_up oas p) /\
    (oas <= round_up oas p < oas + p /\ round_up oas p mod p = 0) /\
    (oas + size section - p < aligned_end section <= oas + size section /\
     aligned_end section mod p = 0) /\
    (exists evs,
       snd (vfio_container_region_del container section tr) = tr ++ evs /\
       Forall (unmap_within container section) evs) /\
    (plain_ram section ->
     vfio_listener_skipped_section section = false ->
     section_misaligned section = false ->
     mr_is_iommu (mr section) = false ->
     vfio_container_region_del container section tr
     = (Ok container,
        tr ++ (if aligned_end section <=? aligned_start section then []
               else unmap_calls (cid container) (aligned_start section)
                      (aligned_end section - aligned_start section))
           ++ [ ev_memory_region_unref (mr_id (mr section));
                ev_del_section_window (cid container) section ])).
Proof.
  intros container section k tr Hp Hk Hok oas p.
  assert (Hpp : 0 < p)
    by (subst p; rewrite Hp; apply Z.pow_pos_nonneg; lia).
  split; [ reflexivity | ].
  split; [ now apply round_up_least | ].
  split; [ now apply round_down_greatest | ].
  split.
  - destruct (region_del_emits container section k Hp Hk Hok tr)
      as (evs & Htr & Hev & _).
    exists evs. split; assumption.
  - intros. now apply region_del_plain with (k := k).
Qed.

(** C6 (amended): region_del of a section of an ordinary RAM region (not a
    RAM device, no RamDiscardManager) that passes the filters.  When the
    page-aligned span is exactly [2^64] it issues exactly two unmaps of
    [2^63] bytes each, the second starting where the first ended; for a
    smaller non-empty span it issues exactly one unmap of the whole span. *)
Theorem C6_region_del_splits_full_span :
  forall (container : VFIOContainer) (section : MemoryRegionSection)
         (k : Z) (tr : Trace),
    qemu_real_host_page_size = 2 ^ k -> 0 <= k < 64 ->
    section_ok section -> plain_ram section ->
    vfio_listener_skipped_section section = false ->
    section_misaligned section = false ->
    mr_is_iommu (mr section) = false ->
    let iova := aligned_start section in
    let span := aligned_end section - aligned_start section in
    (span = 2 ^ 64 ->
     vfio_container_region_del container section tr
     = (Ok container,
        tr ++ [ ev_dma_unmap (cid container) iova (2 ^ 63) None;
                ev_dma_unmap (cid container) (iova + 2 ^ 63) (2 ^ 63) None;
                ev_memory_region_unref (mr_id (mr section));
                ev_del_section_window (cid container) section ]) /\
     2 ^ 63 + 2 ^ 63 = span) /\
    (0 < span < 2 ^ 64 ->
     vfio_container_region_del container section tr
     = (Ok container,
        tr ++ [ ev_dma_unmap (cid container) iova span None;
                ev_memory_region_unref (mr_id (mr section));
                ev_del_section_window (cid container) section ])).
Proof.
  intros container section k tr Hp Hk Hok Hplain Hskip Hal Hio iova span.
  subst iova span.
  pose proof (region_del_plain container section k tr
                Hp Hk Hok Hplain Hskip Hal Hio) as Hdel.
  assert (Hiova : hwaddr_ok (aligned_start section)) by apply wrap64_ok.
  assert (Hend : aligned_end section <= 2 ^ 64).
  { destruct Hok as (Hoas & Hsz & Hfit).
    assert (Hpp : 0 < qemu_real_host_page_size)
      by (rewrite Hp; apply Z.pow_pos_nonneg; lia).
    pose proof (round_down_greatest
                  (offset_within_address_space section + size section)
                  qemu_real_host_page_size Hpp).
    unfold aligned_end. lia. }
  unfold hwaddr_ok in Hiova.
  split.
  - intros Hspan.
    assert (Hz : aligned_start section = 0) by lia.
    split; [ | symmetry; etransitivity; [ exact Hspan | reflexivity ] ].
    rewrite Hdel.
    destruct (Z.leb_spec (aligned_end section) (aligned_start section));
      [ lia | ].
    unfold unmap_calls. rewrite Hspan, Z.eqb_refl.
    rewrite Hz. reflexivity.
  - intros Hspan.
    rewrite Hdel.
    destruct (Z.leb_spec (aligned_end section) (aligned_start section));
      [ lia | ].
    unfold unmap_calls.
    destruct (Z.eqb_spec (aligned_end section - aligned_start section)
                (2 ^ 64)); [ lia | reflexivity ].
Qed.

(** ** RAM discard listener: populate and its rollback *)

Lemma vfio_container_dma_map_event container iova sz vaddr ro :
  vfio_container_dma_map container iova sz vaddr ro
  = call (ev_dma_map (cid container) iova sz vaddr ro).
Proof.
  unfold vfio_container_dma_map, iommufd_map.
  now destruct (ops container).
Qed.

Lemma MIN_min a b : MIN a b = Z.min a b.
Proof. unfold MIN. destruct (Z.ltb_spec a b); lia. Qed.

Lemma slices_from_enough g end_ :
  0 < g ->
  forall fuel m start,
    end_ - start <= Z.of_nat fuel -> end_ - start <= Z.of_nat m ->
    slices_from fuel g end_ start = slices_from m g end_ start.
Proof.
  intros Hg. induction fuel as [| fuel IH]; intros m start Hn Hm.
  - destruct m as [| m]; cbn; [ reflexivity | ].
    destruct (Z.ltb_spec start end_); [ lia | reflexivity ].
  - destruct m as [| m]; cbn.
    + destruct (Z.ltb_spec start end_); [ lia | reflexivity ].
    + destruct (Z.ltb_spec start end_); [ | reflexivity ].
      f_equal.
      pose proof (round_up_least (start + 1) g Hg) as [[Hr _] _].
      apply IH; lia.
Qed.

(** Slices are non-empty, lie between the start and the end, and are at
    most one granule long. *)
Lemma slices_from_within g end_ :
  0 < g ->
  forall fuel start a b,
    start <= end_ ->
    In (a, b) (slices_from fuel g end_ start) ->
    start <= a /\ a < b /\ b <= end_ /\ b - a <= g.
Proof.
  intros Hg. induction fuel as [| fuel IH]; intros start a b Hs Hin;
    cbn in Hin.
  - contradiction.
  - destruct (Z.ltb_spec start end_); [ | contradiction ].
    pose proof (round_up_least (start + 1) g Hg) as [[Hr1 Hr2] _].
    destruct Hin as [Heq | Hin].
    + injection Heq as <- <-. lia.
    + apply IH in Hin; lia.
Qed.

(** One iteration of the loop on a slice that starts before the end. *)
Lemma populate_loop_step container vrdl section k fuel start tr :
  granularity vrdl = 2 ^ k -> 0 <= k < 64 ->
  populate_ok vrdl section ->
  offset_within_region section <= start
  < offset_within_region section + size section ->
  let next := Z.min (round_up (start + 1) (granularity vrdl))
                (offset_within_region section + size section) in
  let ev := slice_map container section (start, next) in
  vfio_ram_discard_notify_populate_loop (S fuel) container vrdl section
    (offset_within_region section + size section) start tr
  = if nonzero (oracle tr ev)
    then (Ok (oracle tr ev),
          tr ++ [ ev;
                  ev_dma_unmap (cid container)
                    (offset_within_address_space section)
                    (size section) None ])
    else vfio_ram_discard_notify_populate_loop fuel container vrdl section
           (offset_within_region section + size section) next (tr ++ [ev]).
Proof.
  intros Hg Hk (Howr & Hoas & Hptr & Hsz & Hroom & Hfit & Hhost) Hstart.
  assert (Hgp : 0 < granularity vrdl)
    by (rewrite Hg; apply Z.pow_pos_nonneg; lia).
  unfold hwaddr_ok in *.
  pose proof (round_up_least (start + 1) (granularity vrdl) Hgp)
    as [[Hr1 Hr2] _].
  cbn [vfio_ram_discard_notify_populate_loop].
  destruct (Z.ltb_spec start
              (offset_within_region section + size section)); [ | lia ].
  cbv zeta.
  rewrite (wrap64_small (start + 1)) by (unfold hwaddr_ok; lia).
  replace (ROUND_UP (start + 1) (granularity vrdl))
    with (wrap64 (round_up (start + 1) (granularity vrdl)))
    by (rewrite Hg; symmetry; apply ROUND_UP_pow2; unfold hwaddr_ok; lia).
  rewrite (wrap64_small (round_up (start + 1) (granularity vrdl)))
    by (unfold hwaddr_ok; lia).
  rewrite MIN_min.
  set (next := Z.min (round_up (start + 1) (granularity vrdl))
                 (offset_within_region section + size section)).
  assert (Hnext : start < next
                  <= offset_within_region section + size section)
    by (subst next; lia).
  rewrite (wrap64_small (start - offset_within_region section))
    by (unfold hwaddr_ok; lia).
  rewrite (wrap64_small (start - offset_within_region section
                         + offset_within_address_space section))
    by (unfold hwaddr_ok; lia).
  rewrite (wrap64_small (mr_ram_ptr (mr section) + start))
    by (unfold hwaddr_ok; lia).
  rewrite (wrap64_small (next - start)) by (unfold hwaddr_ok; lia).
  rewrite vfio_container_dma_map_event.
  change (ev_dma_map (cid container)
            (start - offset_within_region section
             + offset_within_address_space section)
            (next - start) (mr_ram_ptr (mr section) + start)
            (readonly section))
    with (slice_map container section (start, next)).
  unfold bind at 1. unfold call at 1. cbv beta iota.
  destruct (nonzero (oracle tr (slice_map container section (start, next))));
    [ | reflexivity ].
  unfold vfio_ram_discard_notify_discard.
  cbv beta iota delta [bind ret].
  rewrite get64_ok by (unfold hwaddr_ok; lia).
  cbv beta iota zeta.
  rewrite vfio_container_dma_unmap_event. unfold call at 1.
  rewrite <- app_assoc. reflexivity.
Qed.

(** The loop, run with enough fuel: it maps a prefix of the slices in
    order, each of these maps being accepted; either all of them, and
    returns 0, or it stops at the first slice whose map fails, issues the
    one unmap of the rollback and returns the error of that map. *)
Lemma populate_loop_run container vrdl section k :
  granularity vrdl = 2 ^ k -> 0 <= k < 64 ->
  populate_ok vrdl section ->
  forall fuel start tr,
    offset_within_region section <= start
    <= offset_within_region section + size section ->
    offset_within_region section + size section - start < Z.of_nat fuel ->
    exists mapped rest,
      slices_from fuel (granularity vrdl)
        (offset_within_region section + size section) start
      = mapped ++ rest /\
      all_accepted tr (map (slice_map container section) mapped) /\
      ((rest = [] /\
        vfio_ram_discard_notify_populate_loop fuel container vrdl section
          (offset_within_region section + size section) start tr
        = (Ok 0, tr ++ map (slice_map container section) mapped)) \/
       (exists failed rest' r,
          rest = failed :: rest' /\ r <> 0 /\
          r = oracle (tr ++ map (slice_map container section) mapped)
                (slice_map container section failed) /\
          vfio_ram_discard_notify_populate_loop fuel container vrdl section
            (offset_within_region section + size section) start tr
          = (Ok r,
             tr ++ map (slice_map container section) mapped
                ++ [ slice_map container section failed;
                     ev_dma_unmap (cid container)
                       (offset_within_address_space section)
                       (size section) None ]))).
Proof.
  intros Hg Hk Hok.
  assert (Hgp : 0 < granularity vrdl)
    by (rewrite Hg; apply Z.pow_pos_nonneg; lia).
  induction fuel as [| fuel IH]; intros start tr Hstart Hfuel.
  - lia.
  - destruct (Z.ltb_spec start
                (offset_within_region section + size section)) as [Hlt | Hge].
    + rewrite (populate_loop_step container vrdl section k fuel start tr)
        by (auto; lia).
      cbn [slices_from].
      destruct (Z.ltb_spec start
                  (offset_within_region section + size section)); [ | lia ].
      cbv zeta.
      pose proof (round_up_least (start + 1) (granularity vrdl) Hgp)
        as [[Hr1 Hr2] _].
      set (next := Z.min (round_up (start + 1) (granularity vrdl))
                     (offset_within_region section + size section)).
      assert (Hnext : start < next
                      <= offset_within_region section + size section)
        by (subst next; lia).
      destruct (nonzero (oracle tr (slice_map container section (start, next))))
        eqn:Hr.
      * (* this map fails: rollback *)
        exists [], ((start, next)
                    :: slices_from fuel (granularity vrdl)
                         (offset_within_region section + size section) next).
        split; [ reflexivity | ].
        split; [ exact I | right ].
        exists (start, next),
          (slices_from fuel (granularity vrdl)
             (offset_within_region section + size section) next),
          (oracle tr (slice_map container section (start, next))).
        cbn [map app]. rewrite app_nil_r.
        split; [ reflexivity | ].
        split; [ unfold nonzero in Hr; apply negb_true_iff, Z.eqb_neq in Hr;
                 exact Hr | ].
        split; reflexivity.
      * (* this map succeeds: go on from [next] *)
        destruct (IH next (tr ++ [slice_map container section (start, next)]))
          as (mapped & rest & Hsl & Hacc & Hrun); [ lia | lia | ].
        exists ((start, next) :: mapped), rest.
        split; [ cbn [app]; now rewrite Hsl | ].
        cbn [map].
        split.
        { cbn [all_accepted]. split; [ | exact Hacc ].
          unfold nonzero in Hr. apply negb_false_iff, Z.eqb_eq in Hr.
          exact Hr. }
        destruct Hrun
          as [[-> Hrun] | (failed & rest' & r & -> & Hne & Hor & Hrun)].
        -- left. split; [ reflexivity | ].
           rewrite Hrun, <- app_assoc. reflexivity.
        -- right. exists failed, rest', r.
           split; [ reflexivity | ].
           split; [ exact Hne | ].
           split.
           ++ rewrite Hor, <- app_assoc. reflexivity.
           ++ rewrite Hrun, <- app_assoc. reflexivity.
    + exists [], []. split.
      * cbn [slices_from].
        destruct (Z.ltb_spec start
                    (offset_within_region section + size section));
          [ lia | reflexivity ].
      * split; [ exact I | ].
        left. cbn [vfio_ram_discard_notify_populate_loop].
        destruct (Z.ltb_spec start
                    (offset_within_region section + size section));
          [ lia | ].
        cbn. rewrite app_nil_r. split; reflexivity.
Qed.

(** C5: a populate notification maps the section slice by slice, starting
    at offset_within_region and ending each slice at
    min(round_up(start + 1, granularity), end).  Given enough fuel the
    function returns: the calls it made are the maps of a prefix of these
    slices, in order, and the backend accepted each map of that prefix.
    Either the prefix is all of them, and it returns 0; or the map of the
    next slice failed, that map is followed by exactly one unmap of
    (offset_within_address_space, size), the whole section, and the
    function returns the error of the failed map.  So a populate that
    returns 0 has had every slice accepted, and the first refused map
    always leads to the rollback.  Every slice lies inside the range of
    that unmap, so the rollback covers whatever this call had mapped. *)
Theorem C5_populate_maps_slices_and_rolls_back :
  forall (container : VFIOContainer) (vrdl : VFIORamDiscardListener)
         (section : MemoryRegionSection) (k : Z) (fuel : nat) (tr : Trace),
    granularity vrdl = 2 ^ k -> 0 <= k < 64 ->
    populate_ok vrdl section ->
    size section < Z.of_nat fuel ->
    let oas := offset_within_address_space section in
    let owr := offset_within_region section in
    (forall a b,
       In (a, b) (spec_slices vrdl section) ->
       owr <= a < b /\ b <= owr + size section /\
       b - a <= granularity vrdl /\
       oas <= a - owr + oas /\
       (a - owr + oas) + (b - a) <= oas + size section) /\
    exists mapped rest,
      spec_slices vrdl section = mapped ++ rest /\
      all_accepted tr (map (slice_map container section) mapped) /\
      ((rest = [] /\
        vfio_ram_discard_notify_populate fuel container vrdl section tr
        = (Ok 0, tr ++ map (slice_map container section) mapped)) \/
       (exists failed rest' r,
          rest = failed :: rest' /\ r <> 0 /\
          r = oracle (tr ++ map (slice_map container section) mapped)
                (slice_map container section failed) /\
          vfio_ram_discard_notify_populate fuel container vrdl section tr
          = (Ok r,
             tr ++ map (slice_map container section) mapped
                ++ [ slice_map container section failed;
                     ev_dma_unmap (cid container) oas (size section)
                       None ]))).
Proof.
  intros container vrdl section k fuel tr Hg Hk Hok Hfuel oas owr.
  pose proof Hok as (Howr & Hoas & Hptr & Hsz & Hroom & Hfit & Hhost).
  assert (Hgp : 0 < granularity vrdl)
    by (rewrite Hg; apply Z.pow_pos_nonneg; lia).
  unfold hwaddr_ok in *. subst oas owr.
  split.
  - intros a b Hin. unfold spec_slices in Hin.
    apply slices_from_within in Hin; lia.
  - unfold vfio_ram_discard_notify_populate, spec_slices.
    unfold bind. rewrite get64_ok by (unfold hwaddr_ok; lia).
    rewrite (wrap64_small (offset_within_region section + size section))
      by (unfold hwaddr_ok; lia).
    rewrite (slices_from_enough (granularity vrdl)
               (offset_within_region section + size section) Hgp
               (Z.to_nat (size section)) fuel (offset_within_region section))
      by lia.
    apply populate_loop_run with (k := k); auto; lia.
Qed.

(** ** The initialization error latch *)

Lemma same_latch_refl c : same_latch c c.
Proof. repeat split. Qed.

Ltac solve_latch :=
  first [ exact I
        | assumption
        | unfold same_latch in *; cbn in *; intuition congruence ].

Lemma register_ram_discard_listener_same_latch container section :
  emits any_event (same_latch container)
    (vfio_register_ram_discard_listener container section).
Proof.
  unfold vfio_register_ram_discard_listener.
  emits_auto; solve_latch.
Qed.

Lemma map_ram_section_same_latch container src section :
  emits any_event (fun '(_, _, _, c') => same_latch container c')
    (vfio_dma_map_ram_section container src section).
Proof.
  unfold vfio_dma_map_ram_section, sub_page_misaligned,
    vfio_container_dma_map, vfio_container_dma_copy, iommufd_map,
    iommufd_copy.
  cbv zeta.
  repeat lazymatch goal with
         | |- emits _ _ (bind (vfio_register_ram_discard_listener _ _) _) =>
             eapply emits_bind;
             [ apply register_ram_discard_listener_same_latch
             | intros c' Hc' ]
         | |- _ => emits_step
         end; solve_latch.
Qed.

Lemma region_add_body_same_latch container src section :
  emits any_event (fun exit => same_latch container (exit_container exit))
    (vfio_container_region_add_body container src section).
Proof.
  unfold vfio_container_region_add_body, vfio_container_add_section_window.
  cbv zeta.
  repeat lazymatch goal with
         | |- emits _ _ (bind (vfio_dma_map_ram_section _ _ _) _) =>
             eapply emits_bind;
             [ apply map_ram_section_same_latch
             | intros [[[r e] src'] c'] Hc' ]
         | |- _ => emits_step
         end; solve_latch.
Qed.










(** ** More on the host window table *)

Lemma hostwin_from_range_some container iova end_ w :
  hostwin_from_range container iova end_ = Some w ->
  In w (hostwin_list container) /\ window_contains w iova end_.
Proof.
  unfold hostwin_from_range. intros H. apply find_some in H.
  destruct H as [Hin Hb]. apply andb_true_iff in Hb.
  destruct Hb as [H1 H2]. apply Z.leb_le in H1, H2.
  split; [ exact Hin | split; assumption ].
Qed.

Lemma hostwin_from_range_none container iova end_ :
  hostwin_from_range container iova end_ = None ->
  forall w, In w (hostwin_list container) -> ~ window_contains w iova end_.
Proof.
  unfold hostwin_from_range. intros H w Hin [H1 H2].
  pose proof (find_none _ _ H w Hin) as Hb. cbn in Hb.
  apply andb_false_iff in Hb.
  destruct Hb as [Hb | Hb]; apply Z.leb_gt in Hb; lia.
Qed.

(** In a pairwise disjoint list two entries that contain the same non-empty
    range are the same window. *)
Lemma disjoint_windows_contain_once l iova end_ :
  windows_disjoint l -> iova <= end_ ->
  forall w w',
    In w l -> In w' l ->
    window_contains w iova end_ -> window_contains w' iova end_ ->
    w = w'.
Proof.
  unfold windows_disjoint.
  induction 1 as [| x l Hx Hl IH]; intros Hle w w' Hw Hw' Hc Hc'.
  - contradiction.
  - assert (Hov : forall a b,
               window_contains a iova end_ -> window_contains b iova end_ ->
               win_overlap a b).
    { intros a b [A1 A2] [B1 B2]. exists iova. lia. }
    rewrite Forall_forall in Hx.
    destruct Hw as [<- | Hw], Hw' as [<- | Hw'].
    + reflexivity.
    + exfalso. apply (Hx w' Hw'). now apply Hov.
    + exfalso. apply (Hx w Hw). now apply Hov.
    + now apply IH.
Qed.

(** X1: [hostwin_from_range] finds a window of the container that contains
    the whole range [[iova, end]] when there is one, and reports none only
    when no window of the container contains it; when the windows are
    pairwise disjoint and the range is not empty, the window found is the
    only one that contains the range. *)
Theorem X1_hostwin_lookup_finds_the_containing_window :
  forall (container : VFIOContainer) (iova end_ : Z),
    match hostwin_from_range container iova end_ with
    | Some w =>
        In w (hostwin_list container) /\
        window_contains w iova end_ /\
        (windows_disjoint (hostwin_list container) -> iova <= end_ ->
         forall w', In w' (hostwin_list container) ->
                    window_contains w' iova end_ -> w' = w)
    | None =>
        forall w, In w (hostwin_list container) ->
                  ~ window_contains w iova end_
    end.
Proof.
  intros container iova end_.
  destruct (hostwin_from_range container iova end_) as [w |] eqn:E.
  - destruct (hostwin_from_range_some _ _ _ _ E) as [Hin Hc].
    split; [ exact Hin | ]. split; [ exact Hc | ].
    intros Hdis Hle w' Hin' Hc'.
    eapply disjoint_windows_contain_once; eauto.
  - now apply hostwin_from_range_none.
Qed.

Lemma set_hostwin_list_same c :
  set_hostwin_list c (hostwin_list c) = c.
Proof. now destruct c. Qed.

Lemma set_hostwin_list_twice c l l' :
  set_hostwin_list (set_hostwin_list c l) l' = set_hostwin_list c l'.
Proof. reflexivity. Qed.

(** X2: deleting the window that [vfio_host_win_add] has just inserted
    returns 0 and gives back the container as it was before the add; deleting
    a window that no entry matches exactly returns -1 and leaves the
    container as it is. *)
Theorem X2_host_win_add_then_del_restores :
  forall (container : VFIOContainer) (lo hi pg : Z) (tr : Trace),
    (forall container' tr',
       vfio_host_win_add container lo hi pg tr = (Ok container', tr') ->
       vfio_host_win_del container' lo hi = (0, container)) /\
    ((forall w, In w (hostwin_list container) ->
                min_iova w <> lo \/ max_iova w <> hi) ->
     vfio_host_win_del container lo hi = (-1, container)).
Proof.
  intros container lo hi pg tr. split.
  - intros container' tr' Hadd. unfold vfio_host_win_add in Hadd.
    destruct (existsb _ (hostwin_list container)); [ discriminate | ].
    unfold ret in Hadd. injection Hadd as <- <-.
    unfold vfio_host_win_del. cbn [hostwin_list set_hostwin_list existsb
                                   remove_first min_iova max_iova].
    rewrite !Z.eqb_refl. cbn [andb orb].
    rewrite set_hostwin_list_twice. now rewrite set_hostwin_list_same.
  - intros Hno. unfold vfio_host_win_del.
    destruct (existsb _ (hostwin_list container)) eqn:E; [ | reflexivity ].
    exfalso. apply existsb_exists in E. destruct E as (w & Hin & Hb).
    apply andb_true_iff in Hb. destruct Hb as [H1 H2].
    apply Z.eqb_eq in H1, H2. destruct (Hno w Hin); congruence.
Qed.

(** X3: after [vfio_host_win_add] has returned, every range that lies inside
    the new window is found by [hostwin_from_range], and the window it finds
    is the new one. *)
Theorem X3_host_win_add_then_lookup :
  forall (container container' : VFIOContainer) (lo hi pg : Z)
         (tr tr' : Trace) (iova end_ : Z),
    vfio_host_win_add container lo hi pg tr = (Ok container', tr') ->
    lo <= iova -> end_ <= hi ->
    hostwin_from_range container' iova end_
    = Some {| min_iova := lo; max_iova := hi; iova_pgsizes := pg |}.
Proof.
  intros container container' lo hi pg tr tr' iova end_ Hadd Hlo Hhi.
  unfold vfio_host_win_add in Hadd.
  destruct (existsb _ (hostwin_list container)); [ discriminate | ].
  unfold ret in Hadd. injection Hadd as <- <-.
  unfold hostwin_from_range. cbn.
  apply Z.leb_le in Hlo, Hhi. now rewrite Hlo, Hhi.
Qed.

(** ** What region_add maps *)

Lemma emits_bind_get64 {B} P (Q : B -> Prop) a k :
  emits P Q (k a) -> emits P Q (bind (get64 a) k).
Proof.
  intros H tr. unfold bind, get64, int128_get64.
  destruct ((0 <=? a) && (a <? 2 ^ 64)).
  - unfold ret. apply H.
  - exists []. cbn. rewrite app_nil_r. repeat split; auto. discriminate.
Qed.

Ltac emits_exact :=
  cbv zeta; repeat first [ apply emits_bind_get64 | emits_step ]; cbn; auto.

Lemma map_ram_section_map_within container src section k :
  TARGET_PAGE_SIZE = 2 ^ k -> 0 <= k < 64 -> section_ok section ->
  emits (map_within container section) (fun _ => True)
    (vfio_dma_map_ram_section container src section).
Proof.
  intros Hp Hk (Hoas & Hsz & Hfit).
  unfold vfio_dma_map_ram_section, TARGET_PAGE_ALIGN, TARGET_PAGE_MASK,
    map_within, map_vaddr, target_aligned_start, target_aligned_end.
  rewrite Hp.
  rewrite ROUND_UP_pow2 by assumption.
  unfold int128_make64, int128_exts64, int128_and, int128_add.
  assert (H64 : 2 ^ 64 < 2 ^ 127) by (apply Z.pow_lt_mono_r; lia).
  assert (Hpp : 0 < 2 ^ k) by (apply Z.pow_pos_nonneg; lia).
  rewrite (int128_wrap_small (offset_within_address_space section
                              + size section))
    by (unfold hwaddr_ok in Hoas; lia).
  rewrite land_neg_pow2_round_down by lia.
  set (iova := wrap64 (round_up (offset_within_address_space section) (2 ^ k))).
  set (llend := round_down (offset_within_address_space section
                            + size section) (2 ^ k)).
  assert (Hiova : hwaddr_ok iova) by apply wrap64_ok.
  assert (Hllend : 0 <= llend <= 2 ^ 64).
  { pose proof (round_down_bounds (offset_within_address_space section
                                   + size section) (2 ^ k) Hpp).
    unfold hwaddr_ok in Hoas. subst llend. lia. }
  unfold int128_sub, int128_one. unfold hwaddr_ok in Hiova.
  rewrite !int128_wrap_small by lia.
  unfold vfio_register_ram_discard_listener, sub_page_misaligned,
    vfio_container_dma_map, vfio_container_dma_copy, iommufd_map,
    iommufd_copy.
  emits_exact; repeat split; reflexivity.
Qed.

(** X4: whatever the source cell holds, every map and every copy that
    [vfio_container_region_add] issues is into this container and covers the
    whole range of the section between its start rounded up and its end
    rounded down to the target page size, read-only exactly when the section
    is; a map takes the host address that backs the rounded start. *)
Theorem X4_region_add_maps_the_target_page_aligned_range :
  forall (container : VFIOContainer) (src : SrcRef)
         (section : MemoryRegionSection) (k : Z),
    TARGET_PAGE_SIZE = 2 ^ k -> 0 <= k < 64 -> section_ok section ->
    emits (map_within container section) (fun _ => True)
      (vfio_container_region_add container src section).
Proof.
  intros container src section k Hp Hk Hok.
  unfold vfio_container_region_add, vfio_container_region_add_body,
    vfio_container_region_add_fail, vfio_container_add_section_window.
  cbv zeta.
  repeat lazymatch goal with
         | |- emits _ _ (bind (vfio_dma_map_ram_section _ _ _) _) =>
             eapply emits_bind;
             [ apply (map_ram_section_map_within _ _ _ k); assumption
             | intros [[[r e] src'] c'] _ ]
         | |- _ => emits_step
         end; cbn; auto.
Qed.

(** ** A section without a whole page *)

Lemma aligned_range_test section k :
  qemu_real_host_page_size = 2 ^ k -> 0 <= k < 64 -> section_ok section ->
  int128_ge
    (int128_make64
       (REAL_HOST_PAGE_ALIGN (offset_within_address_space section)))
    (int128_and
       (int128_add (int128_make64 (offset_within_address_space section))
          (size section))
       (int128_exts64 qemu_real_host_page_mask))
  = (aligned_end section <=? aligned_start section).
Proof.
  intros Hp Hk (Hoas & Hsz & Hfit).
  unfold REAL_HOST_PAGE_ALIGN, qemu_real_host_page_mask, aligned_start,
    aligned_end.
  rewrite Hp.
  rewrite ROUND_UP_pow2 by assumption.
  unfold int128_make64, int128_exts64, int128_and, int128_add, int128_ge.
  assert (H64 : 2 ^ 64 < 2 ^ 127) by (apply Z.pow_lt_mono_r; lia).
  rewrite (int128_wrap_small (offset_within_address_space section
                              + size section))
    by (unfold hwaddr_ok in Hoas; lia).
  now rewrite land_neg_pow2_round_down by lia.
Qed.

(** X5: for a section that passes the filters but holds no whole host page
    (its page-aligned range is empty), region_add returns without any call,
    so without taking a reference on the region, while region_del of the
    same section still drops a reference and removes the section window. *)
Theorem X5_sub_page_section_unref_without_ref :
  forall (container : VFIOContainer) (src : SrcRef)
         (section : MemoryRegionSection) (k : Z) (tr : Trace),
    qemu_real_host_page_size = 2 ^ k -> 0 <= k < 64 ->
    section_ok section ->
    vfio_listener_skipped_section section = false ->
    section_misaligned section = false ->
    mr_is_iommu (mr section) = false ->
    aligned_end section <= aligned_start section ->
    vfio_container_region_add container src section tr
    = (Ok (container, src), tr) /\
    vfio_container_region_del container section tr
    = (Ok container,
       tr ++ [ ev_memory_region_unref (mr_id (mr section));
               ev_del_section_window (cid container) section ]).
Proof.
  intros container src section k tr Hp Hk Hok Hskip Hal Hio Hempty.
  pose proof (aligned_range_test section k Hp Hk Hok) as Htest.
  apply Z.leb_le in Hempty. rewrite Hempty in Htest.
  split.
  - unfold vfio_container_region_add, vfio_container_region_add_body.
    rewrite Hskip, Hal. cbv zeta. rewrite Htest. reflexivity.
  - unfold vfio_container_region_del, vfio_dma_unmap_ram_section,
      memory_region_is_iommu.
    rewrite Hskip, Hal, Hio. cbv zeta. rewrite Htest.
    unfold vfio_container_del_section_window, bind, ret, call_void.
    now rewrite <- app_assoc.
Qed.

(** ** What each callback leaves alone *)

(** X6: [vfio_container_region_add] only issues calls that ask for a
    section window, take a reference, map, copy, set the page-size mask,
    register or replay; in particular, when it fails after
    [memory_region_ref] it neither drops the reference nor removes the
    section window, and it never unmaps. *)
Theorem X6_region_add_never_undoes :
  forall (container : VFIOContainer) (src : SrcRef)
         (section : MemoryRegionSection),
    emits add_side (fun _ => True)
      (vfio_container_region_add container src section).
Proof.
  intros container src section.
  unfold vfio_container_region_add, vfio_container_region_add_body,
    vfio_container_region_add_fail, vfio_container_add_section_window,
    vfio_dma_map_ram_section, vfio_register_ram_discard_listener,
    sub_page_misaligned, vfio_container_dma_map, vfio_container_dma_copy,
    iommufd_map, iommufd_copy.
  emits_auto.
Qed.

(** X7: [vfio_container_region_del] only issues calls that unmap,
    unregister, drop a reference or remove a section window: it never maps,
    copies, takes a reference or registers anything. *)
Theorem X7_region_del_never_maps :
  forall (container : VFIOContainer) (section : MemoryRegionSection),
    emits del_side (fun _ => True)
      (vfio_container_region_del container section).
Proof.
  intros container section.
  unfold vfio_container_region_del, vfio_dma_unmap_ram_section,
    vfio_unregister_ram_discard_listener, sub_page_misaligned,
    vfio_container_del_section_window, vfio_container_dma_unmap,
    iommufd_unmap.
  emits_auto.
Qed.

(** ** Where region_add can stop with a hardware error *)

Lemma avoids_ret {A} f (Q : A -> Prop) a : Q a -> avoids f Q (ret a).
Proof. intros HQ tr. exact HQ. Qed.

Lemma avoids_stop {A} f (Q : A -> Prop) f' : f' <> f -> avoids f Q (stop f').
Proof. intros Hf tr. exact Hf. Qed.

Lemma avoids_bind {A B} f (R : A -> Prop) (Q : B -> Prop) m k :
  avoids f R m -> (forall a, R a -> avoids f Q (k a)) -> avoids f Q (bind m k).
Proof.
  intros Hm Hk tr. specialize (Hm tr). unfold bind.
  destruct (m tr) as [[a | f'] tr1]; cbn in *.
  - apply (Hk a Hm).
  - exact Hm.
Qed.

Lemma avoids_call f (Q : Z -> Prop) ev : (forall r, Q r) -> avoids f Q (call ev).
Proof. intros HQ tr. apply HQ. Qed.

Lemma avoids_call_void f (Q : unit -> Prop) ev :
  Q tt -> avoids f Q (call_void ev).
Proof. intros HQ tr. exact HQ. Qed.

Lemma avoids_assert f (Q : unit -> Prop) b :
  assert_failed <> f -> Q tt -> avoids f Q (assert b).
Proof.
  intros Hf HQ. unfold assert. destruct b.
  - now apply avoids_ret.
  - now apply avoids_stop.
Qed.

Lemma avoids_get64 f (Q : Z -> Prop) a :
  assert_failed <> f -> (forall v, Q v) -> avoids f Q (get64 a).
Proof.
  intros Hf HQ. unfold get64. destruct (int128_get64 a).
  - now apply avoids_ret.
  - now apply avoids_stop.
Qed.

Ltac avoids_step :=
  lazymatch goal with
  | |- avoids _ _ (ret _) => apply avoids_ret
  | |- avoids _ _ (stop _) => apply avoids_stop
  | |- avoids _ _ (call _) => apply avoids_call; intros
  | |- avoids _ _ (call_void _) => apply avoids_call_void
  | |- avoids _ _ (assert _) => apply avoids_assert
  | |- avoids _ _ (get64 _) => apply avoids_get64; [ | intros ]
  | |- avoids _ _ (bind _ _) =>
      eapply avoids_bind with (R := fun _ => True); [ | intros ? _ ]
  | |- avoids _ _ (if ?b then _ else _) => destruct b eqn:?
  | |- avoids _ _ (match ?x with _ => _ end) => destruct x eqn:?
  | |- avoids _ _ (let '(_, _) := ?x in _) => destruct x eqn:?
  end.

Ltac avoids_auto :=
  cbv zeta; repeat avoids_step; cbn; auto; try discriminate.

(** The body of region_add has no hardware error of its own. *)
Lemma region_add_body_avoids_hw_error container src section :
  avoids hw_error (fun _ => True)
    (vfio_container_region_add_body container src section).
Proof.
  unfold vfio_container_region_add_body, vfio_container_add_section_window,
    vfio_dma_map_ram_section, vfio_register_ram_discard_listener,
    sub_page_misaligned, vfio_container_dma_map, vfio_container_dma_copy,
    iommufd_map, iommufd_copy.
  avoids_auto.
Qed.

(** X8: [vfio_container_region_add] stops with a hardware error only on a
    container that is already initialized and for a region that is not a RAM
    device.  For a RAM device the error latch of the container is left as it
    was, whatever fails. *)
Theorem X8_region_add_hw_error_only_at_runtime :
  forall (container : VFIOContainer) (src : SrcRef)
         (section : MemoryRegionSection),
    mr_is_ram_device (mr section) = true \/ initialized container = false ->
    avoids hw_error
      (fun '(container', _) =>
         mr_is_ram_device (mr section) = true ->
         error container' = error container)
      (vfio_container_region_add container src section).
Proof.
  intros container src section Hcase tr.
  pose proof (region_add_body_avoids_hw_error container src section tr) as Hav.
  destruct (region_add_body_same_latch container src section tr)
    as (evs & _ & _ & Hq).
  unfold vfio_container_region_add, bind.
  destruct (vfio_container_region_add_body container src section tr)
    as [[exit | f] tr1]; cbn in Hav; [ | exact Hav ].
  specialize (Hq exit eq_refl).
  destruct exit as [c1 src1 | c1 src1 err]; cbn in Hq;
    destruct Hq as (Hcid & Hin & Herr).
  - cbn. intros _. exact Herr.
  - unfold vfio_container_region_add_fail, memory_region_is_ram_device.
    destruct (mr_is_ram_device (mr section)) eqn:Hdev.
    + cbn. intros _. exact Herr.
    + destruct Hcase as [Hc | Hc]; [ discriminate | ].
      rewrite Hin, Hc. cbn [negb].
      destruct (error c1); cbn; intros; discriminate.
Qed.

(** ** The copy and its fallback *)

(** X9: with a source container recorded in the cell, both containers on the
    fd-based backend and on the same fd, the RAM map path first asks for a
    copy of the whole range.  An accepted copy ends it: no map is issued
    and the cell keeps the source.  A refused copy is followed by exactly one
    map of the same range; when that map succeeds this container replaces
    the source in the cell, and when it fails its result and an error are
    returned and the cell keeps the source. *)
Theorem X9_refused_copy_falls_back_to_map :
  forall (container src : VFIOContainer) (section : MemoryRegionSection)
         (k : Z) (w : VFIOHostDMAWindow) (tr : Trace),
    TARGET_PAGE_SIZE = 2 ^ k -> 0 <= k < 64 -> section_ok section ->
    mr_is_ram (mr section) = true -> plain_ram section ->
    ops container = IOMMUFD_OPS -> ops src = IOMMUFD_OPS ->
    be_fd src = be_fd container ->
    target_aligned_start section < target_aligned_end section ->
    target_aligned_end section - target_aligned_start section < 2 ^ 64 ->
    hostwin_from_range container (target_aligned_start section)
      (target_aligned_end section - 1) = Some w ->
    let iova := target_aligned_start section in
    let sz := target_aligned_end section - iova in
    let copy := ev_dma_copy (cid src) (cid container) iova sz
                  (readonly section) in
    let map := ev_dma_map (cid container) iova sz (map_vaddr section)
                 (readonly section) in
    vfio_dma_map_ram_section container (Some (Some src)) section tr
    = if oracle tr copy =? 0
      then (Ok (0, None, Some (Some src), container), tr ++ [copy])
      else
        let r := oracle (tr ++ [copy]) map in
        (Ok (r,
             (if r =? 0 then None
              else Some (err_dma_map (cid container) iova sz
                           (map_vaddr section) r)),
             (if r =? 0 then Some (Some container) else Some (Some src)),
             container),
         tr ++ [copy; map]).
Proof.
  intros container src section k w tr Hp Hk (Hoas & Hsz & Hfit) Hram
    (Hdev & Hrdm) Hops Hops' Hfd Hne Hlt Hw.
  unfold map_vaddr, target_aligned_start, target_aligned_end in *.
  unfold vfio_dma_map_ram_section, TARGET_PAGE_ALIGN, TARGET_PAGE_MASK,
    memory_region_is_ram, memory_region_has_ram_discard_manager,
    memory_region_is_ram_device, vfio_container_check_extension,
    vfio_container_dma_copy, vfio_container_dma_map, iommufd_map.
  rewrite Hp in *.
  rewrite ROUND_UP_pow2 by assumption.
  unfold int128_make64, int128_exts64, int128_and, int128_add.
  assert (H64 : 2 ^ 64 < 2 ^ 127) by (apply Z.pow_lt_mono_r; lia).
  assert (Hpp : 0 < 2 ^ k) by (apply Z.pow_pos_nonneg; lia).
  rewrite (int128_wrap_small (offset_within_address_space section
                              + size section))
    by (unfold hwaddr_ok in Hoas; lia).
  rewrite land_neg_pow2_round_down by lia.
  set (iova := wrap64 (round_up (offset_within_address_space section) (2 ^ k)))
    in *.
  set (llend := round_down (offset_within_address_space section
                            + size section) (2 ^ k)) in *.
  assert (Hiova : hwaddr_ok iova) by apply wrap64_ok.
  assert (Hllend : 0 <= llend <= 2 ^ 64).
  { pose proof (round_down_bounds (offset_within_address_space section
                                   + size section) (2 ^ k) Hpp).
    unfold hwaddr_ok in Hoas. subst llend. lia. }
  unfold int128_sub, int128_one. unfold hwaddr_ok in Hiova.
  rewrite !int128_wrap_small by lia.
  rewrite Hram, Hrdm, Hdev, Hops, Hops'.
  cbv beta iota zeta delta [bind ret assert iommufd_check_extension andb].
  rewrite get64_ok by (unfold hwaddr_ok; lia).
  cbv beta iota. rewrite Hw.
  rewrite get64_ok by (unfold hwaddr_ok; lia).
  cbv beta iota.
  rewrite iommufd_copy_same_fd by assumption.
  cbv beta iota.
  destruct (oracle tr _ =? 0) eqn:Hcopy.
  - reflexivity.
  - rewrite get64_ok by (unfold hwaddr_ok; lia).
    cbv beta iota. unfold call. cbv beta iota. unfold nonzero.
    rewrite <- app_assoc. cbn [app].
    destruct (oracle (tr ++ _) _ =? 0) eqn:Hmap; cbn [negb].
    + apply Z.eqb_eq in Hmap. rewrite Hmap. reflexivity.
    + reflexivity.
Qed.

(** ** Installing and removing a guest IOMMU notifier *)

Lemma cons_neq {A} (x : A) l : l <> x :: l.
Proof.
  intros H. apply (f_equal (@List.length A)) in H. cbn in H. lia.
Qed.

Lemma set_giommu_list_same c : set_giommu_list c (giommu_list c) = c.
Proof. now destruct c. Qed.

(** When region_add on a section of an IOMMU region returns with a longer
    notifier list, it went all the way: the page-aligned range is not empty
    and the container is the old one with the new notifier in front. *)
Lemma region_add_installs_giommu container src section tr
    container' src' tr' giommu :
  vfio_container_region_add container src section tr
  = (Ok (container', src'), tr') ->
  mr_is_iommu (mr section) = true ->
  giommu_list container' = giommu :: giommu_list container ->
  vfio_listener_skipped_section section = false /\
  section_misaligned section = false /\
  int128_ge
    (int128_make64
       (REAL_HOST_PAGE_ALIGN (offset_within_address_space section)))
    (int128_and
       (int128_add (int128_make64 (offset_within_address_space section))
          (size section))
       (int128_exts64 qemu_real_host_page_mask)) = false /\
  container' = set_giommu_list container (giommu :: giommu_list container) /\
  giommu_container giommu = cid container /\
  iommu_mr giommu = mr section /\
  iommu_offset giommu
  = wrap64 (offset_within_address_space section
            - offset_within_region section) /\
  notify (n giommu)
  = (if nested container then vfio_nested_unmap_notify_fn
     else vfio_iommu_map_notify_fn) /\
  n_start (n giommu) = offset_within_region section /\
  In (ev_register_iommu_notifier (mr_id (mr section)) (n giommu)) tr'.
Proof.
  intros Hrun Hio Hlist.
  unfold vfio_container_region_add, vfio_container_region_add_body,
    vfio_container_region_add_fail, vfio_container_add_section_window,
    memory_region_is_iommu, memory_region_is_ram_device in Hrun.
  rewrite Hio in Hrun.
  destruct (vfio_listener_skipped_section section) eqn:Hskip.
  { skip_branch_returned Hrun. injection Hrun as <- <- <-.
    now apply cons_neq in Hlist. }
  destruct (section_misaligned section) eqn:Hmis.
  { cbn in Hrun. injection Hrun as <- <- <-.
    now apply cons_neq in Hlist. }
  cbv zeta in Hrun.
  destruct (int128_ge _ _) eqn:Hge.
  { cbn in Hrun. injection Hrun as <- <- <-.
    now apply cons_neq in Hlist. }
  destruct (nested container) eqn:Hn;
    cbv beta iota zeta delta [bind ret stop call call_void get64] in Hrun;
    repeat match type of Hrun with
         | context [match int128_get64 ?a with _ => _ end] =>
             destruct (int128_get64 a) eqn:?
         | context [match hostwin_from_range ?c ?a ?b with _ => _ end] =>
             destruct (hostwin_from_range c a b) eqn:?
         | context [if nonzero ?r then _ else _] =>
             destruct (nonzero r) eqn:?
         | context [if mr_is_ram_device ?r then _ else _] =>
             destruct (mr_is_ram_device r) eqn:?
         | context [if negb (initialized ?c) then _ else _] =>
             destruct (initialized c) eqn:?; cbn [negb] in Hrun
         | context [match error ?c with _ => _ end] =>
             destruct (error c) eqn:?
         end;
    try discriminate;
    try (injection Hrun as <- <- <-; cbn in Hlist;
         now apply cons_neq in Hlist).
  all: cbn in Hrun;
    injection Hrun as <- <- <-; cbn in Hlist;
    injection Hlist as <-; cbn;
    repeat split; auto;
    rewrite ?in_app_iff; cbn; auto 10.
Qed.

(** X10: the notifier that [vfio_container_region_add] installs for a
    section of an IOMMU region is the one it registered with the memory
    core, and what it does with an IOTLB event follows the container: a
    nested container forwards every event as a cache invalidation of the
    IOMMU region; otherwise an invalidation in the system address space
    unmaps, and a mapping maps, [addr_mask + 1] bytes at the event's IOVA
    moved by the distance between the section's place in the address space
    and its place in the region. *)
Theorem X10_installed_notifier_acts_at_section_offset :
  forall (container : VFIOContainer) (src : SrcRef)
         (section : MemoryRegionSection) (tr : Trace)
         (container' : VFIOContainer) (src' : SrcRef) (tr' : Trace)
         (giommu : VFIOGuestIOMMU),
    vfio_container_region_add container src section tr
    = (Ok (container', src'), tr') ->
    mr_is_iommu (mr section) = true ->
    giommu_list container' = giommu :: giommu_list container ->
    let iova_of iotlb :=
      wrap64 (iotlb_iova iotlb
              + wrap64 (offset_within_address_space section
                        - offset_within_region section)) in
    In (ev_register_iommu_notifier (mr_id (mr section)) (n giommu)) tr' /\
    (nested container = true ->
     forall iotlb tr2,
       notifier_deliver container' giommu iotlb tr2
       = (Ok tt, tr2 ++ [ev_invalidate_cache (mr_id (mr section)) iotlb])) /\
    (nested container = false ->
     forall iotlb tr2,
       target_as iotlb = address_space_memory ->
       (Z.land (perm iotlb) IOMMU_RW = IOMMU_NONE ->
        notifier_deliver container' giommu iotlb tr2
        = (Ok tt,
           tr2 ++ [ev_dma_unmap (cid container) (iova_of iotlb)
                     (wrap64 (addr_mask iotlb + 1))
                     (match ops container with
                      | LEGACY_OPS => Some iotlb
                      | IOMMUFD_OPS => None
                      end)])) /\
       (Z.land (perm iotlb) IOMMU_RW <> IOMMU_NONE ->
        forall vaddr ram_addr read_only rdm,
          memory_get_xlat_addr iotlb
          = Some (vaddr, ram_addr, read_only, rdm) ->
          notifier_deliver container' giommu iotlb tr2
          = (Ok tt,
             tr2 ++ [ev_dma_map (cid container) (iova_of iotlb)
                       (wrap64 (addr_mask iotlb + 1)) vaddr read_only]))).
Proof.
  intros container src section tr container' src' tr' giommu Hrun Hio Hlist.
  destruct (region_add_installs_giommu _ _ _ _ _ _ _ _ Hrun Hio Hlist)
    as (_ & _ & _ & Hc' & _ & Hmr & Hoff & Hnotify & _ & Hin).
  cbv zeta. split; [ exact Hin | ].
  unfold notifier_deliver. rewrite Hnotify. split.
  - intros Hn iotlb tr2. rewrite Hn.
    unfold vfio_nested_unmap_notify, call_void. now rewrite Hmr.
  - intros Hn iotlb tr2 Has. rewrite Hn.
    unfold vfio_iommu_map_notify. apply Z.eqb_eq in Has. rewrite Has.
    cbn [negb]. rewrite Hoff, Hc'. split.
    + intros Hperm. apply Z.eqb_eq in Hperm. rewrite Hperm. cbn [negb].
      unfold vfio_container_dma_unmap, iommufd_unmap, bind, call, ret.
      cbn [ops cid set_giommu_list]. now destruct (ops container).
    + intros Hperm vaddr ram_addr read_only rdm Hx.
      apply Z.eqb_neq in Hperm. rewrite Hperm. cbn [negb].
      unfold vfio_get_xlat_addr. rewrite Hx.
      unfold vfio_container_dma_map, iommufd_map, bind, call, ret.
      cbn [ops cid set_giommu_list]. now destruct (ops container).
Qed.

Lemma set_giommu_list_twice c l l' :
  set_giommu_list (set_giommu_list c l) l' = set_giommu_list c l'.
Proof. reflexivity. Qed.

(** The end of region_del on a region that is neither a RAM device nor
    discard-managed: the unmap calls for the page-aligned range, then the
    reference is dropped and the section window removed. *)
Lemma region_del_tail container section k tr :
  qemu_real_host_page_size = 2 ^ k -> 0 <= k < 64 ->
  section_ok section -> plain_ram section ->
  (container2 <- vfio_dma_unmap_ram_section container section ;;
   call_void (ev_memory_region_unref (mr_id (mr section))) ;;;
   vfio_container_del_section_window container2 section ;;;
   ret container2) tr
  = (Ok container,
     tr ++ (if aligned_end section <=? aligned_start section then []
            else unmap_calls (cid container) (aligned_start section)
                   (aligned_end section - aligned_start section))
        ++ [ ev_memory_region_unref (mr_id (mr section));
             ev_del_section_window (cid container) section ]).
Proof.
  intros Hp Hk Hok Hplain.
  destruct (unmap_ram_section_calls container section k tr Hp Hk Hok)
    as (res & pre & unmaps & Heq & Hpre & Hun & Hpl).
  destruct (Hpl Hplain) as (-> & -> & Hex).
  unfold bind at 1. rewrite Heq.
  unfold vfio_container_del_section_window, bind, call_void, ret.
  cbn [app]. rewrite <- !app_assoc. cbn [app].
  do 2 f_equal.
  destruct (Z.leb_spec (aligned_end section) (aligned_start section))
    as [Hle | Hlt].
  - destruct Hun as [-> | [Hlt _]]; [ reflexivity | lia ].
  - now rewrite (Hex Hlt).
Qed.

(** X11: region_del undoes the notifier installation of region_add.  After
    [vfio_container_region_add] has installed a notifier for a section of an
    IOMMU region, [vfio_container_region_del] of the same section
    unregisters exactly that notifier, unmaps the whole page-aligned range
    of the section with the unmap calls for it, drops the reference, removes
    the section window, and returns the container as it was before the
    add. *)
Theorem X11_region_del_undoes_notifier_installation :
  forall (container : VFIOContainer) (src : SrcRef)
         (section : MemoryRegionSection) (k : Z) (tr : Trace)
         (container' : VFIOContainer) (src' : SrcRef) (tr' : Trace)
         (giommu : VFIOGuestIOMMU) (tr2 : Trace),
    qemu_real_host_page_size = 2 ^ k -> 0 <= k < 64 ->
    section_ok section -> plain_ram section ->
    mr_is_iommu (mr section) = true ->
    vfio_container_region_add container src section tr
    = (Ok (container', src'), tr') ->
    giommu_list container' = giommu :: giommu_list container ->
    aligned_start section < aligned_end section /\
    vfio_container_region_del container' section tr2
    = (Ok container,
       tr2 ++ [ ev_unregister_iommu_notifier (mr_id (mr section))
                  (n giommu) ]
           ++ unmap_calls (cid container) (aligned_start section)
                (aligned_end section - aligned_start section)
           ++ [ ev_memory_region_unref (mr_id (mr section));
                ev_del_section_window (cid container) section ]).
Proof.
  intros container src section k tr container' src' tr' giommu tr2
    Hp Hk Hok Hplain Hio Hrun Hlist.
  destruct (region_add_installs_giommu _ _ _ _ _ _ _ _ Hrun Hio Hlist)
    as (Hskip & Hmis & Hge & Hc' & _ & Hmr & _ & _ & Hstart & _).
  rewrite (aligned_range_test section k Hp Hk Hok) in Hge.
  apply Z.leb_gt in Hge. split; [ exact Hge | ].
  unfold vfio_container_region_del, memory_region_is_iommu.
  rewrite Hskip, Hmis, Hio, Hlist.
  assert (Hm : giommu_matches section giommu = true).
  { unfold giommu_matches. rewrite Hmr, Hstart, !Z.eqb_refl. reflexivity. }
  cbn [find remove_first]. rewrite Hm.
  unfold bind at 1. unfold bind at 1. unfold call_void at 1.
  unfold ret at 1. cbv beta iota.
  rewrite Hc', set_giommu_list_twice, set_giommu_list_same.
  rewrite (region_del_tail container section k _ Hp Hk Hok Hplain).
  apply Z.leb_gt in Hge. rewrite Hge.
  now rewrite <- !app_assoc.
Qed.

(** ** Installing and removing a RAM discard listener *)

Lemma set_vrdl_list_same c : set_vrdl_list c (vrdl_list c) = c.
Proof. now destruct c. Qed.

Lemma set_vrdl_list_twice c l l' :
  set_vrdl_list (set_vrdl_list c l) l' = set_vrdl_list c l'.
Proof. reflexivity. Qed.

Lemma int128_get64_some a v : int128_get64 a = Some v -> v = a.
Proof.
  unfold int128_get64. destruct (_ && _); [ | discriminate ].
  intros H. now injection H.
Qed.

(** When region_add returns with a longer list of RAM discard listeners, it
    has done nothing but add the section window, take the reference and
    register the listener: the populated parts are mapped later, through the
    listener. *)
Lemma region_add_installs_vrdl container src section tr
    container' src' tr' vrdl :
  vfio_container_region_add container src section tr
  = (Ok (container', src'), tr') ->
  vrdl_list container' = vrdl :: vrdl_list container ->
  vfio_listener_skipped_section section = false /\
  section_misaligned section = false /\
  mr_is_iommu (mr section) = false /\
  int128_ge
    (int128_make64
       (REAL_HOST_PAGE_ALIGN (offset_within_address_space section)))
    (int128_and
       (int128_add (int128_make64 (offset_within_address_space section))
          (size section))
       (int128_exts64 qemu_real_host_page_mask)) = false /\
  (exists end_,
     int128_get64
       (int128_sub
          (int128_and
             (int128_add (int128_make64 (offset_within_address_space section))
                (size section))
             (int128_exts64 qemu_real_host_page_mask))
          int128_one) = Some end_) /\
  container' = set_vrdl_list container (vrdl :: vrdl_list container) /\
  vrdl_mr vrdl = mr section /\
  vrdl_offset_within_address_space vrdl
  = offset_within_address_space section /\
  vrdl_size vrdl = size section /\
  mr_rdm (mr section) = Some (granularity vrdl) /\
  tr' = tr ++ [ ev_add_section_window (cid container) section;
                ev_memory_region_ref (mr_id (mr section));
                ev_rdm_register_listener (mr_id (mr section)) vrdl section ].
Proof.
  intros Hrun Hlist.
  unfold vfio_container_region_add, vfio_container_region_add_body,
    vfio_container_region_add_fail, vfio_container_add_section_window,
    vfio_dma_map_ram_section, vfio_register_ram_discard_listener,
    sub_page_misaligned, vfio_container_dma_map, vfio_container_dma_copy,
    iommufd_map, iommufd_copy,
    memory_region_is_iommu, memory_region_is_ram_device,
    memory_region_has_ram_discard_manager, memory_region_is_ram in Hrun.
  destruct (vfio_listener_skipped_section section) eqn:Hskip.
  { skip_branch_returned Hrun. injection Hrun as <- <- <-.
    now apply cons_neq in Hlist. }
  destruct (section_misaligned section) eqn:Hmis.
  { cbn in Hrun. injection Hrun as <- <- <-.
    now apply cons_neq in Hlist. }
  cbv zeta in Hrun.
  destruct (int128_ge _ _) eqn:Hge.
  { cbn in Hrun. injection Hrun as <- <- <-.
    now apply cons_neq in Hlist. }
  destruct (mr_is_iommu (mr section)) eqn:Hio;
    destruct (nested container) eqn:Hn;
    destruct (mr_rdm (mr section)) as [g |] eqn:Hrdm;
    cbv beta iota zeta delta [bind ret stop call call_void get64 assert]
      in Hrun;
    repeat match type of Hrun with
           | context [match int128_get64 ?a with _ => _ end] =>
               destruct (int128_get64 a) eqn:?
           | context [match hostwin_from_range ?c ?a ?b with _ => _ end] =>
               destruct (hostwin_from_range c a b) eqn:?
           | context [if nonzero ?r then _ else _] =>
               destruct (nonzero r) eqn:?
           | context [if mr_is_ram_device ?r then _ else _] =>
               destruct (mr_is_ram_device r) eqn:?
           | context [if mr_is_ram ?r then _ else _] =>
               destruct (mr_is_ram r) eqn:?
           | context [if QEMU_IS_ALIGNED ?a ?b then _ else _] =>
               destruct (QEMU_IS_ALIGNED a b) eqn:?
           | context [if negb (initialized ?c) then _ else _] =>
               destruct (initialized c) eqn:?; cbn [negb] in Hrun
           | context [match error ?c with _ => _ end] =>
               destruct (error c) eqn:?
           | context [match src with _ => _ end] =>
               destruct src as [[?|]|] eqn:?
           | context [match ops ?c with _ => _ end] =>
               destruct (ops c) eqn:?
           | context [if ?a =? ?b then _ else _] =>
               destruct (a =? b) eqn:?
           | context [if ?a && ?b then _ else _] =>
               destruct (a && b) eqn:?
           end;
    try discriminate;
    try (cbn in Hrun; injection Hrun as <- <- <-; cbn in Hlist;
         now apply cons_neq in Hlist).
  all: match goal with
       | H : int128_get64 (size _) = Some ?v |- _ =>
           apply int128_get64_some in H; subst v
       end.
  all: cbn in Hrun; injection Hrun as <- <- <-; cbn in Hlist;
    injection Hlist as <-; cbn;
    repeat split; eauto;
    rewrite <- ?app_assoc; reflexivity.
Qed.

(** X12: for a region with a RamDiscardManager, region_add maps nothing
    itself: when it installs a RAM discard listener it has issued exactly
    the section-window request, the reference and the registration of that
    listener.  region_del of the same section, unless the region is also a
    RAM device, unregisters exactly that listener, issues no unmap of its
    own, drops the reference, removes the section window, and returns the
    container as it was before the add. *)
Theorem X12_region_del_undoes_discard_listener_installation :
  forall (container : VFIOContainer) (src : SrcRef)
         (section : MemoryRegionSection) (tr : Trace)
         (container' : VFIOContainer) (src' : SrcRef) (tr' : Trace)
         (vrdl : VFIORamDiscardListener) (tr2 : Trace),
    vfio_container_region_add container src section tr
    = (Ok (container', src'), tr') ->
    vrdl_list container' = vrdl :: vrdl_list container ->
    mr_is_ram_device (mr section) = false ->
    tr' = tr ++ [ ev_add_section_window (cid container) section;
                  ev_memory_region_ref (mr_id (mr section));
                  ev_rdm_register_listener (mr_id (mr section)) vrdl
                    section ] /\
    vfio_container_region_del container' section tr2
    = (Ok container,
       tr2 ++ [ ev_rdm_unregister_listener (mr_id (mr section)) vrdl;
                ev_memory_region_unref (mr_id (mr section));
                ev_del_section_window (cid container) section ]).
Proof.
  intros container src section tr container' src' tr' vrdl tr2
    Hrun Hlist Hdev.
  destruct (region_add_installs_vrdl _ _ _ _ _ _ _ _ Hrun Hlist)
    as (Hskip & Hmis & Hio & Hge & [end_ Hend] & Hc' & Hmr & Hoas & _
        & Hrdm & Htr).
  split; [ exact Htr | ].
  unfold vfio_container_region_del, vfio_dma_unmap_ram_section,
    vfio_unregister_ram_discard_listener, memory_region_is_iommu,
    memory_region_is_ram_device, memory_region_has_ram_discard_manager.
  assert (Hm : vrdl_matches section vrdl = true).
  { unfold vrdl_matches. rewrite Hmr, Hoas, !Z.eqb_refl. reflexivity. }
  rewrite Hskip, Hmis, Hio, Hdev, Hrdm. cbv zeta. rewrite Hge.
  unfold get64. rewrite Hend.
  cbv beta iota delta [bind ret call_void vfio_container_del_section_window].
  rewrite Hlist. cbn [find remove_first]. rewrite Hm.
  rewrite Hc', set_vrdl_list_twice, set_vrdl_list_same.
  cbn [cid set_vrdl_list]. now rewrite <- !app_assoc.
Qed.

(** ** Dirty-page synchronisation *)

Lemma container_log_sync_sync_side container section :
  emits sync_side (fun _ => True) (vfio_container_log_sync container section).
Proof.
  unfold vfio_container_log_sync, vfio_container_devices_all_dirty_tracking,
    vfio_sync_dirty_bitmap, vfio_sync_ram_discard_listener_dirty_bitmap,
    vfio_container_get_dirty_bitmap.
  emits_auto.
Qed.

Lemma container_log_sync_unsupported container section tr :
  dirty_pages_supported container = false ->
  vfio_container_log_sync container section tr = (Ok tt, tr).
Proof.
  intros H. unfold vfio_container_log_sync. rewrite H.
  now rewrite orb_true_r.
Qed.

(** X13: [vfio_listener_log_sync] only asks: over all the containers of the
    address space it issues nothing but the dirty-tracking query, dirty
    bitmap reads and the replays that drive them, so it never maps, unmaps,
    copies or touches a reference; and it issues no call at all when no
    container supports dirty pages. *)
Theorem X13_log_sync_only_queries :
  forall (space : VFIOAddressSpace) (section : MemoryRegionSection),
    emits sync_side (fun _ => True) (vfio_listener_log_sync space section) /\
    (forallb (fun c => negb (dirty_pages_supported c)) (containers space)
     = true ->
     forall tr, vfio_listener_log_sync space section tr = (Ok tt, tr)).
Proof.
  intros space section. unfold vfio_listener_log_sync. split.
  - induction (containers space) as [| c cs IH]; cbn.
    + now apply emits_ret.
    + eapply emits_bind; [ apply container_log_sync_sync_side | ].
      intros _ _. exact IH.
  - induction (containers space) as [| c cs IH]; cbn; intros Hall tr.
    + reflexivity.
    + apply andb_true_iff in Hall. destruct Hall as [Hc Hcs].
      apply negb_true_iff in Hc.
      unfold bind. rewrite container_log_sync_unsupported by assumption.
      now apply IH.
Qed.

(** X14: for a section of an ordinary RAM region, a container that supports
    dirty pages first asks whether all its devices track dirty pages; if
    not, that is all, and otherwise it reads one dirty bitmap that starts at
    the section's start rounded up to the host page size, is as long as the
    whole section (the size is not rounded), and is reported at the RAM
    address of the section's place in the region. *)
Theorem X14_log_sync_reads_one_bitmap_for_plain_ram :
  forall (container : VFIOContainer) (section : MemoryRegionSection)
         (k : Z) (tr : Trace),
    qemu_real_host_page_size = 2 ^ k -> 0 <= k < 64 ->
    hwaddr_ok (offset_within_address_space section) ->
    hwaddr_ok (size section) ->
    vfio_listener_skipped_section section = false ->
    dirty_pages_supported container = true ->
    mr_is_iommu (mr section) = false ->
    mr_rdm (mr section) = None ->
    let ask := ev_devices_all_dirty_tracking (cid container) in
    let read := ev_get_dirty_bitmap (cid container) (aligned_start section)
                  (size section)
                  (wrap64 (mr_ram_addr (mr section)
                           + offset_within_region section)) in
    vfio_container_log_sync container section tr
    = (Ok tt, if oracle tr ask =? 0 then tr ++ [ask] else tr ++ [ask; read]).
Proof.
  intros container section k tr Hp Hk Hoas Hsz Hskip Hdirty Hio Hrdm.
  unfold vfio_container_log_sync, vfio_container_devices_all_dirty_tracking,
    vfio_sync_dirty_bitmap, vfio_container_get_dirty_bitmap,
    memory_region_is_iommu, memory_region_has_ram_discard_manager,
    aligned_start, REAL_HOST_PAGE_ALIGN.
  rewrite Hskip, Hdirty, Hio, Hrdm, Hp. cbn [negb orb].
  rewrite ROUND_UP_pow2 by assumption.
  cbv beta iota zeta delta [bind ret call nonzero].
  destruct (oracle tr _ =? 0); cbn [negb].
  - reflexivity.
  - rewrite get64_ok by assumption. cbv beta iota.
    now rewrite <- app_assoc.
Qed.

(** ** The pre-registration listener of a nested container *)

Lemma map_ram_section_avoids_hw_error container src section :
  avoids hw_error (fun _ => True)
    (vfio_dma_map_ram_section container src section).
Proof.
  unfold vfio_dma_map_ram_section, vfio_register_ram_discard_listener,
    sub_page_misaligned, vfio_container_dma_map, vfio_container_dma_copy,
    iommufd_map, iommufd_copy.
  avoids_auto.
Qed.

(** X15: the pre-registration listener never stops with a hardware error on
    region_add and never writes the error latch of its container: whatever
    fails in the RAM map path is only reported, so the container comes back
    with the identity, the [initialized] flag and the latch it had. *)
Theorem X15_prereg_region_add_never_latches :
  forall (container : VFIOContainer) (section : MemoryRegionSection),
    avoids hw_error (same_latch container)
      (vfio_prereg_listener_region_add container section).
Proof.
  intros container section tr.
  unfold vfio_prereg_listener_region_add.
  destruct (negb (memory_region_is_ram (mr section))).
  - cbn. apply same_latch_refl.
  - pose proof (map_ram_section_avoids_hw_error container None section tr)
      as Hav.
    destruct (map_ram_section_same_latch container None section tr)
      as (evs & _ & _ & Hq).
    unfold bind.
    destruct (vfio_dma_map_ram_section container None section tr)
      as [[[[[r e] s] c'] | f] tr1]; cbn in Hav |- *.
    + exact (Hq _ eq_refl).
    + exact Hav.
Qed.

(** ** A successful populate covers the section *)

Lemma populate_loop_tiles container vrdl section k :
  granularity vrdl = 2 ^ k -> 0 <= k < 64 ->
  populate_ok vrdl section ->
  forall fuel start tr,
    offset_within_region section <= start
    <= offset_within_region section + size section ->
    offset_within_region section + size section - start < Z.of_nat fuel ->
    exists r evs,
      vfio_ram_discard_notify_populate_loop fuel container vrdl section
        (offset_within_region section + size section) start tr
      = (Ok r, tr ++ evs) /\
      (r = 0 ->
       tiles (cid container) evs
         (start - offset_within_region section
          + offset_within_address_space section)
         (offset_within_address_space section + size section)).
Proof.
  intros Hg Hk Hok.
  assert (Hgp : 0 < granularity vrdl)
    by (rewrite Hg; apply Z.pow_pos_nonneg; lia).
  induction fuel as [| fuel IH]; intros start tr Hstart Hfuel.
  - lia.
  - destruct (Z.ltb_spec start
                (offset_within_region section + size section)) as [Hlt | Hge].
    + rewrite (populate_loop_step container vrdl section k fuel start tr)
        by (auto; lia).
      cbv zeta.
      pose proof (round_up_least (start + 1) (granularity vrdl) Hgp)
        as [[Hr1 Hr2] _].
      set (next := Z.min (round_up (start + 1) (granularity vrdl))
                     (offset_within_region section + size section)) in *.
      set (ev := slice_map container section (start, next)).
      destruct (nonzero (oracle tr ev)) eqn:Hr.
      * eexists. eexists. split; [ reflexivity | ].
        intros H0. rewrite H0 in Hr. discriminate.
      * destruct (IH next (tr ++ [ev])) as (r & evs & Hrun & Htiles);
          [ subst next; lia | subst next; lia | ].
        exists r, (ev :: evs). rewrite Hrun, <- app_assoc.
        split; [ reflexivity | ].
        intros H0. subst ev. unfold slice_map. cbn [tiles fst snd].
        repeat split; [ subst next; lia | ].
        replace (start - offset_within_region section
                 + offset_within_address_space section + (next - start))
          with (next - offset_within_region section
                + offset_within_address_space section) by lia.
        now apply Htiles.
    + cbn [vfio_ram_discard_notify_populate_loop].
      destruct (Z.ltb_spec start
                  (offset_within_region section + size section)); [ lia | ].
      exists 0, []. rewrite app_nil_r. split; [ reflexivity | ].
      intros _. cbn. lia.
Qed.

(** X16: populate and discard work on the same range.  Given enough fuel,
    [vfio_ram_discard_notify_populate] returns, and when it returns 0 the
    calls it made are maps into the container that tile the section in the
    address space, from [offset_within_address_space] to its end, without gap
    or overlap; [vfio_ram_discard_notify_discard] unmaps exactly that range
    with one call. *)
Theorem X16_successful_populate_tiles_what_discard_unmaps :
  forall (container : VFIOContainer) (vrdl : VFIORamDiscardListener)
         (section : MemoryRegionSection) (k : Z) (fuel : nat)
         (tr tr2 : Trace),
    granularity vrdl = 2 ^ k -> 0 <= k < 64 ->
    populate_ok vrdl section ->
    size section < Z.of_nat fuel ->
    let oas := offset_within_address_space section in
    (exists r evs,
       vfio_ram_discard_notify_populate fuel container vrdl section tr
       = (Ok r, tr ++ evs) /\
       (r = 0 -> tiles (cid container) evs oas (oas + size section))) /\
    vfio_ram_discard_notify_discard container vrdl section tr2
    = (Ok tt, tr2 ++ [ev_dma_unmap (cid container) oas (size section) None]).
Proof.
  intros container vrdl section k fuel tr tr2 Hg Hk Hok Hfuel.
  pose proof Hok as (Howr & Hoas & Hptr & Hsz & Hroom & Hfit & Hhost).
  assert (Hgp : 0 < granularity vrdl)
    by (rewrite Hg; apply Z.pow_pos_nonneg; lia).
  assert (Hsize : hwaddr_ok (size section))
    by (unfold hwaddr_ok in *; lia).
  cbv zeta. split.
  - unfold vfio_ram_discard_notify_populate, bind.
    rewrite get64_ok by assumption.
    rewrite wrap64_small by (unfold hwaddr_ok in *; lia).
    destruct (populate_loop_tiles container vrdl section k Hg Hk Hok fuel
                (offset_within_region section) tr)
      as (r & evs & Hrun & Htiles); [ lia | lia | ].
    exists r, evs. split; [ exact Hrun | ].
    intros H0. specialize (Htiles H0).
    now replace (offset_within_region section - offset_within_region section
                 + offset_within_address_space section)
      with (offset_within_address_space section) in Htiles by lia.
  - unfold vfio_ram_discard_notify_discard, bind.
    rewrite get64_ok by assumption.
    rewrite vfio_container_dma_unmap_event. reflexivity.
Qed.

(** ** Taking a container out of an address space *)

Lemma unregister_without_containers space view tr :
  containers space = [] ->
  memory_listener_unregister space view tr = (Ok space, tr).
Proof.
  revert space tr. induction view as [| section view IH];
    intros space tr Hempty; cbn.
  - reflexivity.
  - unfold bind, vfio_listener_region_del. rewrite Hempty. cbn.
    rewrite <- Hempty, set_containers_same. now apply IH.
Qed.

(** X17: [vfio_as_del_container] issues no call at all, whatever the memory
    core hands to region_del while the listener is unregistered: the
    container has left the list before the listener is unregistered, so no
    region_del reaches it and nothing it had mapped or referenced is undone
    here.  The address space keeps its other containers in order, and
    [listener_initialized] stays as it was. *)
Theorem X17_as_del_container_issues_no_call :
  forall (space : VFIOAddressSpace) (container : VFIOContainer)
         (view : list MemoryRegionSection) (tr : Trace),
    exists space',
      vfio_as_del_container space container view tr = (Ok space', tr) /\
      containers space'
      = remove_first (same_container container) (containers space) /\
      as_id space' = as_id space /\
      listener_initialized space' = listener_initialized space.
Proof.
  intros space container view tr.
  exists (set_containers space
            (remove_first (same_container container) (containers space))).
  unfold vfio_as_del_container. cbv zeta. cbn [containers set_containers].
  destruct (remove_first (same_container container) (containers space)).
  - rewrite unregister_without_containers by reflexivity.
    repeat split.
  - repeat split.
Qed.

(** ** The registry of address spaces *)

Lemma find_same_as_none as_ l :
  find (same_as as_) l = None -> ~ In as_ (map as_id l).
Proof.
  intros Hnone Hin. apply in_map_iff in Hin.
  destruct Hin as (space & Hid & Hin).
  pose proof (find_none _ _ Hnone space Hin) as Hb.
  unfold same_as in Hb. apply Z.eqb_neq in Hb. congruence.
Qed.

(** X18: [vfio_get_address_space] returns a binding of the address space it
    was asked for and that binding is in the list afterwards; asking again
    returns the same binding and changes nothing, so no second binding and
    no second reset registration is made; and the list keeps holding at
    most one binding per address space. *)
Theorem X18_get_address_space_is_idempotent :
  forall (globals : VFIOGlobals) (as_ : Z),
    let space := fst (vfio_get_address_space globals as_) in
    let globals' := snd (vfio_get_address_space globals as_) in
    as_id space = as_ /\
    In space (vfio_address_spaces globals') /\
    vfio_get_address_space globals' as_ = (space, globals') /\
    (NoDup (map as_id (vfio_address_spaces globals)) ->
     NoDup (map as_id (vfio_address_spaces globals'))).
Proof.
  intros globals as_. cbv zeta. unfold vfio_get_address_space.
  destruct (find (same_as as_) (vfio_address_spaces globals)) as [space |]
    eqn:Hfind; cbn [fst snd].
  - apply find_some in Hfind as Hs. destruct Hs as [Hin Hid].
    unfold same_as in Hid. apply Z.eqb_eq in Hid.
    rewrite Hfind. auto.
  - cbn [vfio_address_spaces find as_id map]. unfold same_as at 1.
    cbn [as_id]. rewrite Z.eqb_refl.
    repeat split; [ now left | ].
    intros Hnd. constructor; [ | exact Hnd ].
    now apply find_same_as_none.
Qed.

Lemma reset_hooks_app calls c :
  reset_hooks (calls ++ [c])
  = reset_hooks calls
    + match c with
      | qemu_register_reset => 1
      | qemu_unregister_reset => -1
      end.
Proof.
  induction calls as [| c' calls IH]; cbn.
  - destruct c; reflexivity.
  - rewrite IH. destruct c', c; lia.
Qed.

Lemma remove_first_map_incl {A} (p : A -> bool) (f : A -> Z) l :
  NoDup (map f l) -> NoDup (map f (remove_first p l)).
Proof.
  induction l as [| x l IH]; cbn; intros Hnd.
  - constructor.
  - inversion Hnd as [| ? ? Hx Hl]; subst.
    destruct (p x); [ exact Hl | ].
    cbn. constructor; [ | now apply IH ].
    intros Hin. apply Hx.
    apply in_map_iff in Hin. destruct Hin as (y & Hy & Hin).
    apply in_map_iff. exists y. split; [ exact Hy | ].
    now apply (remove_first_incl p l y).
Qed.

Lemma update_first_as_id as_ cs l :
  map as_id
    (update_first (same_as as_) (fun space => set_containers space cs) l)
  = map as_id l.
Proof.
  induction l as [| x l IH]; cbn.
  - reflexivity.
  - destruct (same_as as_ x); cbn; [ reflexivity | now rewrite IH ].
Qed.

Lemma registry_step_inv globals op :
  registry_inv_holds globals -> registry_inv_holds (registry_step globals op).
Proof.
  intros [Hnd Hhooks]. destruct op as [as_ | as_ | as_ cs]; cbn.
  - unfold vfio_get_address_space.
    destruct (find (same_as as_) (vfio_address_spaces globals)) eqn:Hfind;
      cbn [snd]; [ now split | ].
    split; cbn [vfio_address_spaces reset_calls map as_id].
    + constructor; [ now apply find_same_as_none | exact Hnd ].
    + destruct (vfio_address_spaces globals); [ | exact Hhooks ].
      rewrite reset_hooks_app, Hhooks. reflexivity.
  - destruct (find (same_as as_) (vfio_address_spaces globals)) as [space |]
      eqn:Hfind; [ | now split ].
    apply find_some in Hfind. destruct Hfind as [Hin _].
    unfold vfio_put_address_space.
    destruct (containers space).
    + split; cbn [vfio_address_spaces reset_calls].
      * now apply remove_first_map_incl.
      * destruct (remove_first _ _); [ | ].
        -- rewrite reset_hooks_app, Hhooks.
           destruct (vfio_address_spaces globals); [ contradiction | ].
           reflexivity.
        -- rewrite Hhooks.
           destruct (vfio_address_spaces globals); [ contradiction | ].
           reflexivity.
    + split; cbn [vfio_address_spaces reset_calls]; [ exact Hnd | ].
      destruct (vfio_address_spaces globals); [ contradiction | ].
      exact Hhooks.
  - split; cbn [vfio_address_spaces reset_calls].
    + now rewrite update_first_as_id.
    + rewrite Hhooks.
      destruct (vfio_address_spaces globals) as [| x l]; cbn;
        [ reflexivity | ].
      now destruct (same_as as_ x).
Qed.

(** X19: whatever the callers do with the registry, in any order -- look up
    the binding of an address space, let go of a binding they hold, change
    the containers of a binding -- the list holds at most one binding per
    address space, and the reset handler is registered exactly while the
    list is not empty: one registration in force then, none otherwise. *)
Theorem X19_reset_handler_registered_while_bindings_exist :
  forall (ops : list RegistryOp),
    let globals := registry_run ops no_globals in
    NoDup (map as_id (vfio_address_spaces globals)) /\
    reset_hooks (reset_calls globals)
    = match vfio_address_spaces globals with
      | [] => 0
      | _ :: _ => 1
      end.
Proof.
  intros ops. cbv zeta. unfold registry_run.
  assert (H : registry_inv_holds no_globals)
    by (split; [ constructor | reflexivity ]).
  revert H. generalize no_globals.
  induction ops as [| op ops IH]; intros globals Hinv; cbn.
  - exact Hinv.
  - apply IH. now apply registry_step_inv.
Qed.

(** X20: a binding that [vfio_get_address_space] had to create and that got
    no container is taken out again by [vfio_put_address_space]: the list is
    as it was before, and the reset handler was registered and unregistered
    once each if the list was empty, and not touched otherwise.  Once the
    binding holds a container, [vfio_put_address_space] leaves it in place
    and makes no reset call. *)
Theorem X20_put_undoes_get_of_a_new_binding :
  forall (globals : VFIOGlobals) (as_ : Z),
    find (same_as as_) (vfio_address_spaces globals) = None ->
    let space := fst (vfio_get_address_space globals as_) in
    let globals' := snd (vfio_get_address_space globals as_) in
    vfio_put_address_space globals' space
    = {| vfio_address_spaces := vfio_address_spaces globals;
         reset_calls :=
           match vfio_address_spaces globals with
           | [] => reset_calls globals
                   ++ [qemu_register_reset; qemu_unregister_reset]
           | _ :: _ => reset_calls globals
           end |} /\
    forall c cs,
      let globals2 :=
        registry_step globals' (registry_set_containers as_ (c :: cs)) in
      vfio_put_address_space globals2 (set_containers space (c :: cs))
      = globals2.
Proof.
  intros globals as_ Hfind. cbv zeta.
  unfold vfio_get_address_space. rewrite Hfind. cbn [fst snd].
  unfold vfio_put_address_space, registry_step.
  cbn [containers set_containers vfio_address_spaces reset_calls
       remove_first update_first as_id].
  assert (Hs : forall cs li,
             same_as as_ {| as_id := as_; containers := cs;
                            listener_initialized := li |} = true)
    by (intros; apply Z.eqb_refl).
  rewrite !Hs.
  split.
  - destruct (vfio_address_spaces globals); [ | reflexivity ].
    now rewrite <- app_assoc.
  - intros c cs. reflexivity.
Qed.

(** ** The KVM VFIO device *)

Lemma created_devices_app pre l1 l2 :
  created_devices pre (l1 ++ l2)
  = created_devices pre l1 ++ created_devices (pre ++ l1) l2.
Proof.
  revert pre. induction l1 as [| c l1 IH]; intros pre; cbn.
  - now rewrite app_nil_r.
  - rewrite IH, <- !app_assoc. reflexivity.
Qed.

(** Either no KVM VFIO device has been created and no attribute set, or one
    has, its fd is the global, and every attribute was set on it. *)
Lemma kvm_step_inv s op :
  creates_valid_fds ->
  (vfio_kvm_device_fd s < 0 /\ created_devices [] (dev_calls s) = [] /\
   Forall (fun c => match c with
                    | kvm_set_device_attr _ _ _ => False
                    | _ => True
                    end) (dev_calls s)) \/
  (0 <= vfio_kvm_device_fd s /\
   created_devices [] (dev_calls s) = [vfio_kvm_device_fd s] /\
   Forall (attr_set_on (vfio_kvm_device_fd s)) (dev_calls s)) ->
  let s' := kvm_step s op in
  (vfio_kvm_device_fd s' < 0 /\ created_devices [] (dev_calls s') = [] /\
   Forall (fun c => match c with
                    | kvm_set_device_attr _ _ _ => False
                    | _ => True
                    end) (dev_calls s')) \/
  (0 <= vfio_kvm_device_fd s' /\
   created_devices [] (dev_calls s') = [vfio_kvm_device_fd s'] /\
   Forall (attr_set_on (vfio_kvm_device_fd s')) (dev_calls s')).
Proof.
  intros Hvalid Hinv. cbv zeta.
  destruct op as [fd | fd]; cbn [kvm_step].
  - unfold vfio_kvm_device_add_fd.
    destruct kvm_enabled; cbn [negb snd]; [ | exact Hinv ].
    destruct (Z.ltb_spec (vfio_kvm_device_fd s) 0) as [Hneg | Hpos].
    + destruct Hinv as [(_ & Hnone & Hattr) | (Hge & _)]; [ | lia ].
      unfold dev_call. cbn [fst snd vfio_kvm_device_fd dev_calls
                            set_vfio_kvm_device_fd].
      destruct (nonzero (ans_ret (env_answer denv (dev_calls s)
                                    kvm_create_device))) eqn:Hret;
        cbn [snd vfio_kvm_device_fd dev_calls].
      * left. split; [ exact Hneg | ]. split.
        -- rewrite created_devices_app, Hnone. cbn. now rewrite Hret.
        -- apply Forall_app. split; [ exact Hattr | repeat constructor ].
      * assert (H0 : ans_ret (env_answer denv (dev_calls s)
                                kvm_create_device) = 0).
        { unfold nonzero in Hret. apply negb_false_iff in Hret.
          now apply Z.eqb_eq in Hret. }
        destruct (nonzero (ans_ret (env_answer denv (dev_calls s ++ _) _)));
          cbn [snd vfio_kvm_device_fd dev_calls]; right;
          (split; [ now apply Hvalid | ]); split.
        all: rewrite <- app_assoc.
        all: try (rewrite created_devices_app, Hnone; cbn;
                  now rewrite Hret).
        all: apply Forall_app; split;
          [ eapply Forall_impl; [ | exact Hattr ];
            intros c Hc; destruct c; cbn in *; tauto
          | repeat constructor ].
    + destruct Hinv as [(Hlt & _) | (Hge & Hone & Hattr)]; [ lia | ].
      unfold dev_call. cbn [fst snd vfio_kvm_device_fd dev_calls].
      destruct (nonzero _); cbn [snd vfio_kvm_device_fd dev_calls];
        right; (split; [ exact Hge | ]); (split;
          [ rewrite created_devices_app, Hone; cbn; reflexivity
          | apply Forall_app; split; [ exact Hattr | repeat constructor ] ]).
  - unfold vfio_kvm_device_del_fd.
    destruct (Z.ltb_spec (vfio_kvm_device_fd s) 0) as [Hneg | Hpos];
      cbn [snd]; [ exact Hinv | ].
    destruct Hinv as [(Hlt & _) | (Hge & Hone & Hattr)]; [ lia | ].
    unfold dev_call. cbn [fst snd vfio_kvm_device_fd dev_calls].
    destruct (nonzero _); cbn [snd vfio_kvm_device_fd dev_calls];
      right; (split; [ exact Hge | ]); (split;
        [ rewrite created_devices_app, Hone; cbn; reflexivity
        | apply Forall_app; split; [ exact Hattr | repeat constructor ] ]).
Qed.

(** X21: over any sequence of [vfio_kvm_device_add_fd] and
    [vfio_kvm_device_del_fd] calls from the start of the process, with a
    kernel that hands out fds that are not negative: at most one KVM VFIO
    device is ever created; while there is none, [vfio_kvm_device_fd] is
    negative and no attribute has been set; once there is one, its fd is
    [vfio_kvm_device_fd] and every attribute, added or deleted, was set on
    it. *)
Theorem X21_kvm_vfio_device_created_once :
  forall (ops : list KvmOp),
    creates_valid_fds ->
    let s := kvm_run ops no_device_state in
    (List.length (created_devices [] (dev_calls s)) <= 1)%nat /\
    (created_devices [] (dev_calls s) = [] ->
     vfio_kvm_device_fd s < 0 /\
     Forall (fun c => match c with
                      | kvm_set_device_attr _ _ _ => False
                      | _ => True
                      end) (dev_calls s)) /\
    (forall fd, created_devices [] (dev_calls s) = [fd] ->
                vfio_kvm_device_fd s = fd /\ 0 <= fd /\
                Forall (attr_set_on fd) (dev_calls s)).
Proof.
  intros ops Hvalid. cbv zeta. unfold kvm_run.
  assert (Hinv :
    (vfio_kvm_device_fd no_device_state < 0 /\
     created_devices [] (dev_calls no_device_state) = [] /\
     Forall (fun c => match c with
                      | kvm_set_device_attr _ _ _ => False
                      | _ => True
                      end) (dev_calls no_device_state)) \/
    (0 <= vfio_kvm_device_fd no_device_state /\
     created_devices [] (dev_calls no_device_state)
     = [vfio_kvm_device_fd no_device_state] /\
     Forall (attr_set_on (vfio_kvm_device_fd no_device_state))
       (dev_calls no_device_state))).
  { left. cbn. split; [ lia | split; [ reflexivity | constructor ] ]. }
  revert Hinv. generalize no_device_state.
  induction ops as [| op ops IH]; intros s Hinv; cbn [fold_left].
  - destruct Hinv as [(Hlt & Hnone & Hattr) | (Hge & Hone & Hattr)].
    + rewrite Hnone. cbn. split; [ lia | ]. split; [ auto | ].
      intros fd Hfd. discriminate.
    + rewrite Hone. cbn. split; [ lia | ]. split; [ discriminate | ].
      intros fd Hfd. injection Hfd as <-. auto.
  - apply IH. now apply kvm_step_inv.
Qed.

(** X22: [vfio_kvm_device_del_fd] does not ask whether KVM is enabled.
    Without KVM no KVM VFIO device is ever created, so after any sequence of
    adds and deletes the state is still the initial one: no call has been
    made, every further [vfio_kvm_device_add_fd] returns 0 and does
    nothing, and every further [vfio_kvm_device_del_fd] fails with
    [-EINVAL]. *)
Theorem X22_without_kvm_every_delete_fails :
  forall (ops : list KvmOp) (fd : Z),
    kvm_enabled = false ->
    let s := kvm_run ops no_device_state in
    s = no_device_state /\
    vfio_kvm_device_add_fd fd s = (0, s) /\
    vfio_kvm_device_del_fd fd s = (- EINVAL, s).
Proof.
  intros ops fd Hkvm. cbv zeta.
  assert (Hrun : kvm_run ops no_device_state = no_device_state).
  { unfold kvm_run.
    induction ops as [| op ops IH]; cbn [fold_left]; [ reflexivity | ].
    assert (Hstep : kvm_step no_device_state op = no_device_state).
    { destruct op; cbn [kvm_step]; [ | reflexivity ].
      unfold vfio_kvm_device_add_fd. now rewrite Hkvm. }
    rewrite Hstep. exact IH. }
  rewrite Hrun. split; [ reflexivity | ]. split.
  - unfold vfio_kvm_device_add_fd. now rewrite Hkvm.
  - reflexivity.
Qed.

(** ** Devices and hardware page tables *)

Lemma set_hwpt_list_same container :
  set_hwpt_list container (hwpt_list container) = container.
Proof. now destruct container. Qed.

Lemma has_hwpt_id_true id hwpt :
  has_hwpt_id id hwpt = true -> hwpt_id hwpt = id.
Proof. apply Z.eqb_eq. Qed.

Lemma update_first_hwpt_ids id (devs : VFIOIOASHwpt -> list VFIODevice) l :
  map hwpt_id
    (update_first (has_hwpt_id id)
       (fun hwpt => {| hwpt_id := hwpt_id hwpt; device_list := devs hwpt |})
       l)
  = map hwpt_id l.
Proof.
  induction l as [| x l IH]; cbn.
  - reflexivity.
  - destruct (has_hwpt_id id x); cbn; [ reflexivity | now rewrite IH ].
Qed.

Lemma update_first_nonempty id devs l :
  devs <> [] ->
  NoDup (map hwpt_id l) ->
  Forall (fun hwpt => has_hwpt_id id hwpt = false -> device_list hwpt <> [])
    l ->
  Forall (fun hwpt => device_list hwpt <> [])
    (update_first (has_hwpt_id id)
       (fun hwpt => {| hwpt_id := hwpt_id hwpt; device_list := devs |}) l).
Proof.
  intros Hdevs. induction l as [| x l IH]; cbn; intros Hnd Hall.
  - constructor.
  - inversion Hnd as [| ? ? Hx Hl]; subst.
    inversion Hall as [| ? ? Hhead Htail]; subst.
    destruct (has_hwpt_id id x) eqn:Hid.
    + constructor; [ exact Hdevs | ].
      apply has_hwpt_id_true in Hid.
      rewrite Forall_forall in *. intros y Hy. apply (Htail y Hy).
      unfold has_hwpt_id. apply Z.eqb_neq. intros Heq. apply Hx.
      apply in_map_iff. exists y. split; [ congruence | exact Hy ].
    + constructor; [ now apply Hhead | now apply IH ].
Qed.

Lemma remove_first_update_first {A} (p : A -> bool) f l :
  (forall x, p (f x) = p x) ->
  remove_first p (update_first p f l) = remove_first p l.
Proof.
  intros Hp. induction l as [| x l IH]; cbn.
  - reflexivity.
  - destruct (p x) eqn:E; cbn.
    + now rewrite Hp, E.
    + now rewrite E, IH.
Qed.

Lemma update_first_undo {A} (p : A -> bool) f g l x0 :
  find p l = Some x0 ->
  (forall x, p (f x) = p x) ->
  g (f x0) = x0 ->
  update_first p g (update_first p f l) = l.
Proof.
  intros Hfind Hp Hg. induction l as [| x l IH]; cbn in *.
  - discriminate.
  - destruct (p x) eqn:E; cbn.
    + injection Hfind as <-. now rewrite Hp, E, Hg.
    + rewrite E. now rewrite IH.
Qed.

Lemma find_update_first {A} (p q : A -> bool) f l x0 :
  find p l = Some x0 ->
  find q l = None ->
  q (f x0) = true ->
  find q (update_first p f l) = Some (f x0).
Proof.
  intros Hp Hq Hf. induction l as [| x l IH]; cbn in *.
  - discriminate.
  - destruct (q x) eqn:Eq; [ discriminate | ].
    destruct (p x) eqn:Ep; cbn.
    + injection Hp as <-. now rewrite Hf.
    + rewrite Eq. now apply IH.
Qed.

Lemma update_first_In {A} (p : A -> bool) f l x0 :
  find p l = Some x0 -> In (f x0) (update_first p f l).
Proof.
  intros Hp. induction l as [| x l IH]; cbn in *.
  - discriminate.
  - destruct (p x); cbn.
    + injection Hp as <-. now left.
    + right. now apply IH.
Qed.

(** What [vfio_container_get_hwpt] gives: a hwpt with the id asked for, which
    is the first one with that id in the list afterwards; it creates one
    (with no device, at the head) only if the list had none. *)
Lemma get_hwpt_spec container id :
  let hwpt := fst (vfio_container_get_hwpt container id) in
  let container1 := snd (vfio_container_get_hwpt container id) in
  hwpt_id hwpt = id /\
  find (has_hwpt_id id) (hwpt_list container1) = Some hwpt /\
  bcontainer container1 = bcontainer container /\
  nested_data container1 = nested_data container /\
  ((find (has_hwpt_id id) (hwpt_list container) = Some hwpt /\
    container1 = container) \/
   (find (has_hwpt_id id) (hwpt_list container) = None /\
    hwpt = {| hwpt_id := id; device_list := [] |} /\
    hwpt_list container1 = hwpt :: hwpt_list container)).
Proof.
  cbv zeta. unfold vfio_container_get_hwpt.
  destruct (find (has_hwpt_id id) (hwpt_list container)) as [hwpt |] eqn:E;
    cbn [fst snd].
  - apply find_some in E as Hs. destruct Hs as [_ Hid].
    apply has_hwpt_id_true in Hid. auto 10.
  - cbn [hwpt_list set_hwpt_list find hwpt_id bcontainer nested_data].
    unfold has_hwpt_id at 1. cbn [hwpt_id]. rewrite Z.eqb_refl.
    repeat split. right. auto.
Qed.

Lemma nonzero_true r : nonzero r = true -> r <> 0.
Proof. intros H H0. rewrite H0 in H. discriminate. Qed.

Lemma nonzero_false r : nonzero r = false -> r = 0.
Proof.
  unfold nonzero. intros H. apply negb_false_iff in H. now apply Z.eqb_eq.
Qed.

(** How [vfio_device_attach_container] ends: with a result other than 0, an
    error and the container untouched, or with 0 and the device at the head
    of the device list of the hwpt with the id the allocation gave. *)
Lemma attach_container_result vbasedev container s
    ret errp vbasedev' container' s' :
  vfio_device_attach_container vbasedev container s
  = (ret, errp, vbasedev', container', s') ->
  vdev_id vbasedev' = vdev_id vbasedev /\
  ((ret <> 0 /\ errp <> None /\ container' = container) \/
   (ret = 0 /\
    exists id,
      container'
      = set_device_list (snd (vfio_container_get_hwpt container id))
          (hwpt_id (fst (vfio_container_get_hwpt container id)))
          (vbasedev'
           :: device_list (fst (vfio_container_get_hwpt container id))))).
Proof.
  unfold vfio_device_attach_container, dev_call. cbv zeta.
  intros Hrun.
  repeat match type of Hrun with
         | context [if nonzero ?r then _ else _] =>
             destruct (nonzero r) eqn:?
         | context [let '(_, _) := vfio_container_get_hwpt ?c ?i in _] =>
             destruct (vfio_container_get_hwpt c i) eqn:?
         end;
    injection Hrun as <- <- <- <- <-; (split; [ reflexivity | ]).
  all: try (left; repeat split; try discriminate;
            apply nonzero_true; assumption).
  all: right; split; [ reflexivity | ]; eexists;
    match goal with
    | H : vfio_container_get_hwpt _ _ = _ |- _ => rewrite H
    end; reflexivity.
Qed.

Lemma same_device_refl vbasedev : same_device vbasedev vbasedev = true.
Proof. apply Z.eqb_refl. Qed.

Lemma same_device_id v v' d :
  vdev_id v' = vdev_id v -> same_device v' d = same_device v d.
Proof. intros H. unfold same_device. now rewrite H. Qed.

(** X23: [vfio_device_attach_container] returns 0 exactly when it has linked
    the device into a hwpt of the container, and then every later lookup of
    the device finds a hwpt; when it returns something else it has set an
    error and left the container as it was.  So a call that sets no error
    has returned 0; the converse does not hold, see
    [attach_ioctl_failure_returns_zero]. *)
Theorem X23_attach_container_returns_zero_iff_linked :
  forall (vbasedev : VFIODevice) (container : VFIOIOMMUFDContainer)
         (s : DevState) (ret : Z) (errp : option DevError)
         (vbasedev' : VFIODevice) (container' : VFIOIOMMUFDContainer)
         (s' : DevState),
    vfio_device_attach_container vbasedev container s
    = (ret, errp, vbasedev', container', s') ->
    vdev_id vbasedev' = vdev_id vbasedev /\
    (ret = 0 ->
     exists hwpt,
       vfio_find_hwpt_for_dev container' vbasedev' = Some hwpt /\
       In hwpt (hwpt_list container')) /\
    (ret <> 0 -> errp <> None /\ container' = container) /\
    (errp = None -> ret = 0).
Proof.
  intros vbasedev container s ret errp vbasedev' container' s' Hrun.
  destruct (attach_container_result _ _ _ _ _ _ _ _ Hrun)
    as [Hid [(Hret & Herr & Hc) | (Hret & id & Hc)]].
  - split; [ exact Hid | ]. split; [ intros; contradiction | ].
    split; [ auto | ]. intros H. contradiction.
  - split; [ exact Hid | ]. split; [ | split; [ intros; contradiction | auto ] ].
    intros _.
    destruct (get_hwpt_spec container id) as (Hh & Hfind & _).
    cbv zeta in Hh, Hfind.
    set (hwpt0 := fst (vfio_container_get_hwpt container id)) in *.
    set (c1 := snd (vfio_container_get_hwpt container id)) in *.
    rewrite Hh in Hc.
    assert (Hin : In {| hwpt_id := hwpt_id hwpt0;
                        device_list := vbasedev' :: device_list hwpt0 |}
                     (hwpt_list container')).
    { rewrite Hc. unfold set_device_list. cbn [hwpt_list set_hwpt_list].
      exact (update_first_In (has_hwpt_id id)
               (fun hwpt => {| hwpt_id := hwpt_id hwpt;
                               device_list := vbasedev' :: device_list hwpt0 |})
               _ _ Hfind). }
    unfold vfio_find_hwpt_for_dev.
    destruct (find _ (hwpt_list container')) as [hwpt |] eqn:E.
    + exists hwpt. split; [ reflexivity | ].
      now apply find_some in E.
    + exfalso. pose proof (find_none _ _ E _ Hin) as Hb.
      cbn in Hb. rewrite same_device_refl in Hb. discriminate.
Qed.

Lemma kvm_add_device_created vbasedev s :
  kvm_enabled = true -> 0 <= vfio_kvm_device_fd s ->
  vfio_kvm_device_add_device vbasedev s
  = {| vfio_kvm_device_fd := vfio_kvm_device_fd s;
       dev_calls := dev_calls s
                    ++ [kvm_set_device_attr (vfio_kvm_device_fd s)
                          KVM_DEV_VFIO_GROUP_ADD (dev_fd vbasedev)] |}.
Proof.
  intros Hkvm Hfd.
  unfold vfio_kvm_device_add_device, vfio_kvm_device_add_fd, dev_call.
  rewrite Hkvm. cbn [negb].
  assert (Hlt : (vfio_kvm_device_fd s <? 0) = false) by (apply Z.ltb_ge; lia).
  rewrite Hlt. now destruct (nonzero _).
Qed.

Lemma kvm_del_device_created vbasedev s :
  0 <= vfio_kvm_device_fd s ->
  vfio_kvm_device_del_device vbasedev s
  = {| vfio_kvm_device_fd := vfio_kvm_device_fd s;
       dev_calls := dev_calls s
                    ++ [kvm_set_device_attr (vfio_kvm_device_fd s)
                          KVM_DEV_VFIO_GROUP_DEL (dev_fd vbasedev)] |}.
Proof.
  intros Hfd.
  unfold vfio_kvm_device_del_device, vfio_kvm_device_del_fd, dev_call.
  assert (Hlt : (vfio_kvm_device_fd s <? 0) = false) by (apply Z.ltb_ge; lia).
  rewrite Hlt. now destruct (nonzero _).
Qed.

(** X24: with KVM enabled and the KVM VFIO device created,
    [vfio_device_attach_container] first adds the device fd to KVM and
    binds; a failed bind removes the fd from KVM again and is returned; a
    failed hwpt allocation is returned with the fd still added to KVM; a
    failed attach ioctl removes the fd from KVM, and 0 is returned all the
    same. *)
Theorem X24_attach_container_calls :
  forall (vbasedev : VFIODevice) (container : VFIOIOMMUFDContainer)
         (s : DevState),
    kvm_enabled = true -> 0 <= vfio_kvm_device_fd s ->
    let iommufd := be_fd (bcontainer container) in
    let add := kvm_set_device_attr (vfio_kvm_device_fd s)
                 KVM_DEV_VFIO_GROUP_ADD (dev_fd vbasedev) in
    let del := kvm_set_device_attr (vfio_kvm_device_fd s)
                 KVM_DEV_VFIO_GROUP_DEL (dev_fd vbasedev) in
    let bind := vfio_device_bind_iommufd (dev_fd vbasedev) iommufd
                  (vdev_id vbasedev) in
    let bound := env_answer denv (dev_calls s ++ [add]) bind in
    let alloc := iommufd_backend_alloc_hwpt iommufd (ans_out bound)
                   (ioas_id (bcontainer container)) (nested_data container) in
    let allocated := env_answer denv (dev_calls s ++ [add; bind]) alloc in
    let attach := vfio_device_attach_iommufd_pt (dev_fd vbasedev)
                    (ans_out allocated) in
    let attached :=
      env_answer denv (dev_calls s ++ [add; bind; alloc]) attach in
    let '(ret, errp, _, _, s') :=
      vfio_device_attach_container vbasedev container s in
    vfio_kvm_device_fd s' = vfio_kvm_device_fd s /\
    (ret, errp, dev_calls s')
    = if nonzero (ans_ret bound) then
        (ans_ret bound, Some bind_error, dev_calls s ++ [add; bind; del])
      else if nonzero (ans_ret allocated) then
        (ans_ret allocated, Some alloc_hwpt_error,
         dev_calls s ++ [add; bind; alloc])
      else if nonzero (ans_ret attached) then
        (0, Some attach_error, dev_calls s ++ [add; bind; alloc; attach; del])
      else (0, None, dev_calls s ++ [add; bind; alloc; attach]).
Proof.
  intros vbasedev container s Hkvm Hfd. cbv zeta.
  unfold vfio_device_attach_container.
  rewrite kvm_add_device_created by assumption.
  unfold dev_call. cbv beta iota zeta.
  cbn [vfio_kvm_device_fd dev_calls devid set_devid dev_fd vdev_id].
  rewrite !kvm_del_device_created by (cbn [vfio_kvm_device_fd]; exact Hfd).
  cbn [vfio_kvm_device_fd dev_calls devid set_devid dev_fd vdev_id].
  rewrite <- !app_assoc. cbn [app].
  repeat lazymatch goal with
         | |- context [nonzero (ans_ret ?a)] =>
             destruct (nonzero (ans_ret a))
         end;
    cbv beta iota;
    try destruct (vfio_container_get_hwpt container _);
    cbn [vfio_kvm_device_fd dev_calls];
    split; reflexivity.
Qed.

Lemma detach_container_list vbasedev container s :
  exists errp container' s',
    vfio_device_detach_container vbasedev container s
    = (Ok (errp, container'), s') /\
    bcontainer container' = bcontainer container /\
    nested_data container' = nested_data container /\
    hwpt_list container'
    = match vfio_find_hwpt_for_dev container vbasedev with
      | Some hwpt =>
          let devs :=
            remove_first (same_device vbasedev) (device_list hwpt) in
          match devs with
          | [] => remove_first (has_hwpt_id (hwpt_id hwpt))
                    (hwpt_list container)
          | _ :: _ =>
              update_first (has_hwpt_id (hwpt_id hwpt))
                (fun h => {| hwpt_id := hwpt_id h; device_list := devs |})
                (hwpt_list container)
          end
      | None => hwpt_list container
      end.
Proof.
  unfold vfio_device_detach_container, __vfio_device_detach_container,
    __vfio_device_detach_hwpt, dev_call.
  destruct (vfio_find_hwpt_for_dev container vbasedev) as [hwpt |].
  - cbv zeta.
    destruct (remove_first (same_device vbasedev) (device_list hwpt)) eqn:E.
    + unfold vfio_container_put_hwpt. cbn [device_list hwpt_id].
      destruct (nonzero _); do 3 eexists; (split; [ reflexivity | ]);
        cbn [bcontainer nested_data hwpt_list set_hwpt_list set_device_list];
        (repeat split);
        now rewrite remove_first_update_first by reflexivity.
    + destruct (nonzero _); do 3 eexists; (split; [ reflexivity | ]);
        repeat split.
  - destruct (nonzero _); do 3 eexists; (split; [ reflexivity | ]);
      repeat split.
Qed.

Lemma find_split {A} (q : A -> bool) l h :
  find q l = Some h ->
  exists l1 l2,
    l = l1 ++ h :: l2 /\ q h = true /\ forall x, In x l1 -> q x = false.
Proof.
  induction l as [| x l IH]; cbn; intros Hf.
  - discriminate.
  - destruct (q x) eqn:E.
    + injection Hf as <-. exists [], l. repeat split; [ exact E | ].
      intros y [].
    + destruct (IH Hf) as (l1 & l2 & -> & Hq & Hl1).
      exists (x :: l1), l2. repeat split; [ exact Hq | ].
      intros y [<- | Hy]; [ exact E | now apply Hl1 ].
Qed.

Lemma update_first_split {A} (p : A -> bool) f l1 h l2 :
  (forall x, In x l1 -> p x = false) -> p h = true ->
  update_first p f (l1 ++ h :: l2) = l1 ++ f h :: l2.
Proof.
  intros Hl1 Hh. induction l1 as [| x l1 IH]; cbn.
  - now rewrite Hh.
  - rewrite (Hl1 x) by now left.
    f_equal. apply IH. intros y Hy. apply Hl1. now right.
Qed.

Lemma remove_first_split {A} (p : A -> bool) l1 h l2 :
  (forall x, In x l1 -> p x = false) -> p h = true ->
  remove_first p (l1 ++ h :: l2) = l1 ++ l2.
Proof.
  intros Hl1 Hh. induction l1 as [| x l1 IH]; cbn.
  - now rewrite Hh.
  - rewrite (Hl1 x) by now left.
    f_equal. apply IH. intros y Hy. apply Hl1. now right.
Qed.

(** The ids of the devices of a hwpt list, around one hwpt. *)
Lemma device_ids_split l1 h l2 :
  map vdev_id (List.concat (map device_list (l1 ++ h :: l2)))
  = map vdev_id (List.concat (map device_list l1))
    ++ map vdev_id (device_list h)
    ++ map vdev_id (List.concat (map device_list l2)).
Proof.
  rewrite map_app, concat_app. cbn [map List.concat].
  now rewrite !map_app.
Qed.

Lemma device_ids_app l1 l2 :
  map vdev_id (List.concat (map device_list (l1 ++ l2)))
  = map vdev_id (List.concat (map device_list l1))
    ++ map vdev_id (List.concat (map device_list l2)).
Proof. now rewrite map_app, concat_app, map_app. Qed.

Lemma NoDup_middle_cons {A} (x : A) a d b :
  NoDup (a ++ d ++ b) -> ~ In x (a ++ d ++ b) ->
  NoDup (a ++ (x :: d) ++ b).
Proof.
  intros Hnd Hx. cbn.
  apply (NoDup_Add (Add_app x a (d ++ b))). split; assumption.
Qed.

Lemma NoDup_middle_incl {A} (a d d' b : list A) :
  NoDup (a ++ d ++ b) -> NoDup d' -> incl d' d ->
  NoDup (a ++ d' ++ b).
Proof.
  intros Hnd Hd' Hincl.
  assert (Hin : forall x, In x (a ++ d' ++ b) -> In x (a ++ d ++ b)).
  { intros x. rewrite !in_app_iff. intuition. }
  induction a as [| y a IH]; cbn in *.
  - apply NoDup_app.
    + exact Hd'.
    + now apply NoDup_app_remove_l in Hnd.
    + intros x Hx Hb. apply Hincl in Hx.
      induction d as [| z d IHd]; [ contradiction | ].
      cbn in Hnd. inversion Hnd as [| ? ? Hz Hrest]; subst.
      destruct Hx as [<- | Hx].
      * apply Hz. apply in_app_iff. now right.
      * clear IHd.
        assert (Hsplit : exists d1 d2, d = d1 ++ x :: d2)
          by (now apply in_split).
        destruct Hsplit as (d1 & d2 & ->).
        rewrite <- app_assoc in Hrest. cbn in Hrest.
        apply NoDup_remove_2 in Hrest. apply Hrest.
        rewrite !in_app_iff. auto.
  - inversion Hnd as [| ? ? Hy Hrest]; subst.
    constructor.
    + intros Hc. apply Hy.
      rewrite !in_app_iff in *. destruct Hc as [? | [? | ?]]; auto.
    + apply IH; [ exact Hrest | ].
      intros x. rewrite !in_app_iff. intuition.
Qed.

Lemma not_linked_no_id container vbasedev :
  vfio_find_hwpt_for_dev container vbasedev = None ->
  ~ In (vdev_id vbasedev) (map vdev_id (all_devices container)).
Proof.
  unfold vfio_find_hwpt_for_dev, all_devices. intros Hnone Hin.
  apply in_map_iff in Hin. destruct Hin as (d & Hid & Hd).
  apply in_concat in Hd. destruct Hd as (l & Hl & Hdl).
  apply in_map_iff in Hl. destruct Hl as (hwpt & <- & Hh).
  pose proof (find_none _ _ Hnone hwpt Hh) as Hb.
  cbv beta in Hb.
  assert (Ht : existsb (same_device vbasedev) (device_list hwpt) = true).
  { apply existsb_exists. exists d. split; [ exact Hdl | ].
    unfold same_device. now apply Z.eqb_eq. }
  congruence.
Qed.

Lemma remove_first_incl_map {A B} (p : A -> bool) (f : A -> B) l :
  incl (map f (remove_first p l)) (map f l).
Proof.
  intros y Hy. apply in_map_iff in Hy. destruct Hy as (x & <- & Hx).
  apply in_map. now apply (remove_first_incl p l x).
Qed.

(** X25: on a container whose hwpt list is well formed (one hwpt per id, no
    hwpt without a device) and in which no device is linked twice,
    [vfio_device_attach_container] of a device that is not linked yet, and
    [vfio_device_detach_container] of any device, leave the hwpt list well
    formed and every device linked at most once; so an empty list means
    that no device is left.  The detach always returns: the
    [g_assert_not_reached] of [vfio_container_put_hwpt] is never hit. *)
Theorem X25_attach_and_detach_keep_hwpt_list_well_formed :
  forall (vbasedev : VFIODevice) (container : VFIOIOMMUFDContainer)
         (s : DevState),
    hwpt_list_ok container ->
    linked_once container ->
    (vfio_find_hwpt_for_dev container vbasedev = None ->
     let '(_, _, _, container', _) :=
       vfio_device_attach_container vbasedev container s in
     hwpt_list_ok container' /\ linked_once container') /\
    (exists errp container' s',
       vfio_device_detach_container vbasedev container s
       = (Ok (errp, container'), s') /\
       hwpt_list_ok container' /\ linked_once container').
Proof.
  intros vbasedev container s [Hnd Hne] Honce. split.
  - intros Hnone.
    destruct (vfio_device_attach_container vbasedev container s)
      as [[[[ret errp] vbasedev'] container'] s'] eqn:Hrun.
    destruct (attach_container_result _ _ _ _ _ _ _ _ Hrun)
      as [Hvid [(_ & _ & ->) | (_ & id & ->)]];
      [ split; [ now split | exact Honce ] | ].
    destruct (get_hwpt_spec container id)
      as (Hh & Hfind & _ & _ & Hcase). cbv zeta in Hh, Hfind, Hcase.
    set (hwpt0 := fst (vfio_container_get_hwpt container id)) in *.
    set (c1 := snd (vfio_container_get_hwpt container id)) in *.
    assert (Hnd1 : NoDup (map hwpt_id (hwpt_list c1))).
    { destruct Hcase as [(_ & ->) | (Hnone' & _ & ->)]; [ exact Hnd | ].
      cbn. rewrite Hh. constructor; [ | exact Hnd ].
      intros Hin. apply in_map_iff in Hin. destruct Hin as (y & Hy & Hin).
      pose proof (find_none _ _ Hnone' y Hin) as Hb.
      unfold has_hwpt_id in Hb. apply Z.eqb_neq in Hb. congruence. }
    assert (Hdevs1 : all_devices c1 = all_devices container).
    { destruct Hcase as [(_ & ->) | (_ & Hnew & Hl)]; [ reflexivity | ].
      unfold all_devices. rewrite Hl, Hnew. reflexivity. }
    split.
    + unfold hwpt_list_ok, set_device_list. cbn [hwpt_list set_hwpt_list].
      split.
      * rewrite (update_first_hwpt_ids (hwpt_id hwpt0)
                   (fun _ => vbasedev' :: device_list hwpt0)).
        exact Hnd1.
      * apply update_first_nonempty; [ discriminate | exact Hnd1 | ].
        destruct Hcase as [(_ & ->) | (_ & Hnew & ->)].
        -- eapply Forall_impl; [ | exact Hne ]. auto.
        -- constructor.
           ++ intros Hb. rewrite Hh in Hb. unfold has_hwpt_id in Hb.
              rewrite Hh, Z.eqb_refl in Hb. discriminate.
           ++ eapply Forall_impl; [ | exact Hne ]. auto.
    + unfold linked_once in *. rewrite <- Hdevs1 in Honce.
      apply not_linked_no_id in Hnone. rewrite <- Hdevs1, <- Hvid in Hnone.
      unfold all_devices in *. unfold set_device_list.
      cbn [hwpt_list set_hwpt_list].
      destruct (find_split _ _ _ Hfind) as (l1 & l2 & Hl & Hq & Hl1).
      rewrite Hl in Honce, Hnone |- *. rewrite Hh.
      rewrite update_first_split by assumption.
      rewrite device_ids_split in *. cbn [device_list map].
      now apply NoDup_middle_cons.
  - destruct (detach_container_list vbasedev container s)
      as (errp & container' & s' & Hrun & _ & _ & Hlist).
    exists errp, container', s'. split; [ exact Hrun | ].
    unfold hwpt_list_ok, linked_once, all_devices in *. rewrite Hlist.
    destruct (vfio_find_hwpt_for_dev container vbasedev) as [hwpt |] eqn:Hf;
      [ | split; [ now split | exact Honce ] ].
    cbv zeta.
    unfold vfio_find_hwpt_for_dev in Hf.
    destruct (find_split _ _ _ Hf) as (l1 & l2 & Hl & _ & _).
    assert (Hids : forall x, In x l1 ->
                             has_hwpt_id (hwpt_id hwpt) x = false).
    { intros x Hx. rewrite Hl, map_app in Hnd. cbn in Hnd.
      apply NoDup_remove_2 in Hnd. unfold has_hwpt_id.
      apply Z.eqb_neq. intros Heq. apply Hnd.
      apply in_app_iff. left. apply in_map_iff. now exists x. }
    assert (Hself : has_hwpt_id (hwpt_id hwpt) hwpt = true)
      by apply Z.eqb_refl.
    destruct (remove_first (same_device vbasedev) (device_list hwpt)) eqn:E.
    + split; [ split; [ now apply remove_first_map_incl | ] | ].
      * rewrite Forall_forall in *. intros y Hy. apply Hne.
        now apply (remove_first_incl _ _ _ Hy).
      * rewrite Hl in Honce |- *.
        rewrite remove_first_split by assumption.
        rewrite device_ids_split in Honce. rewrite device_ids_app.
        apply (NoDup_middle_incl _ _ [] _ Honce); [ constructor | ].
        intros y [].
    + split; [ split | ].
      * rewrite (update_first_hwpt_ids (hwpt_id hwpt) (fun _ => v :: l)).
        exact Hnd.
      * apply update_first_nonempty; [ discriminate | exact Hnd | ].
        eapply Forall_impl; [ | exact Hne ]. auto.
      * rewrite Hl in Honce |- *.
        rewrite update_first_split by assumption.
        rewrite device_ids_split in Honce |- *. cbn [device_list].
        rewrite <- E.
        apply (NoDup_middle_incl _ _ _ _ Honce).
        -- apply remove_first_map_incl.
           apply NoDup_app_remove_l in Honce.
           now apply NoDup_app_remove_r in Honce.
        -- apply remove_first_incl_map.
Qed.

(** X26: detaching undoes attaching.  When [vfio_device_attach_container]
    has returned 0 for a device that was linked in no hwpt of a well-formed
    container, [vfio_find_hwpt_for_dev] finds a hwpt with the device at the
    head of its list, and [vfio_device_detach_container] gives back the
    container exactly as it was before the attach. *)
Theorem X26_detach_container_undoes_attach :
  forall (vbasedev : VFIODevice) (container : VFIOIOMMUFDContainer)
         (s : DevState) (errp : option DevError)
         (vbasedev' : VFIODevice) (container' : VFIOIOMMUFDContainer)
         (s' s2 : DevState),
    hwpt_list_ok container ->
    vfio_find_hwpt_for_dev container vbasedev = None ->
    vfio_device_attach_container vbasedev container s
    = (0, errp, vbasedev', container', s') ->
    (exists hwpt devs,
       vfio_find_hwpt_for_dev container' vbasedev' = Some hwpt /\
       device_list hwpt = vbasedev' :: devs) /\
    (exists errp2 s3,
       vfio_device_detach_container vbasedev' container' s2
       = (Ok (errp2, container), s3)).
Proof.
  intros vbasedev container s errp vbasedev' container' s' s2
    [Hnd Hne] Hnone Hrun.
  destruct (attach_container_result _ _ _ _ _ _ _ _ Hrun)
    as [Hid [(Hret & _) | (_ & id & Hc)]]; [ contradiction | ].
  destruct (get_hwpt_spec container id)
    as (Hh & Hfind & Hbc & Hnd' & Hcase). cbv zeta in Hh, Hfind, Hbc, Hnd', Hcase.
  set (hwpt0 := fst (vfio_container_get_hwpt container id)) in *.
  set (c1 := snd (vfio_container_get_hwpt container id)) in *.
  set (f := fun hwpt : VFIOIOASHwpt =>
              {| hwpt_id := hwpt_id hwpt;
                 device_list := vbasedev' :: device_list hwpt0 |}).
  assert (Hlist' : hwpt_list container'
                   = update_first (has_hwpt_id id) f (hwpt_list c1)).
  { rewrite Hc, Hh. reflexivity. }
  (* the device is in no hwpt of [c1] either *)
  assert (Hnone1 :
    find (fun hwpt => existsb (same_device vbasedev') (device_list hwpt))
      (hwpt_list c1) = None).
  { unfold vfio_find_hwpt_for_dev in Hnone.
    assert (Hsame : (fun hwpt : VFIOIOASHwpt =>
                       existsb (same_device vbasedev') (device_list hwpt))
                    = (fun hwpt =>
                       existsb (same_device vbasedev) (device_list hwpt))).
    { unfold same_device. now rewrite Hid. }
    rewrite Hsame.
    destruct Hcase as [(_ & ->) | (_ & Hnew & ->)]; [ exact Hnone | ].
    cbn [find]. rewrite Hnew. cbn. exact Hnone. }
  assert (Hfound :
    vfio_find_hwpt_for_dev container' vbasedev' = Some (f hwpt0)).
  { unfold vfio_find_hwpt_for_dev. rewrite Hlist'.
    apply find_update_first; [ exact Hfind | exact Hnone1 | ].
    cbn. now rewrite same_device_refl. }
  split.
  { exists (f hwpt0), (device_list hwpt0). split; [ exact Hfound | ].
    reflexivity. }
  destruct (detach_container_list vbasedev' container' s2)
    as (errp2 & container2 & s3 & Hdet & Hbc2 & Hnd2 & Hlist2).
  exists errp2, s3. rewrite Hdet. do 2 f_equal. f_equal.
  rewrite Hfound in Hlist2. cbv zeta in Hlist2.
  cbn [device_list hwpt_id f remove_first] in Hlist2.
  rewrite same_device_refl, Hh in Hlist2.
  assert (Hfields : bcontainer container' = bcontainer container /\
                    nested_data container' = nested_data container).
  { rewrite Hc. cbn. auto. }
  destruct Hfields as [Hb1 Hb2].
  assert (Hl : hwpt_list container2 = hwpt_list container).
  { rewrite Hlist2, Hlist'.
    destruct Hcase as [(Hfind0 & Hc1) | (_ & Hnew & Hl1)].
    - rewrite Hc1 in *.
      assert (Hin : In hwpt0 (hwpt_list container))
        by (now apply find_some in Hfind0).
      rewrite Forall_forall in Hne. specialize (Hne hwpt0 Hin).
      destruct (device_list hwpt0) as [| d ds] eqn:Hd; [ contradiction | ].
      apply (update_first_undo _ _ _ _ hwpt0 Hfind0); [ reflexivity | ].
      subst f. cbn. rewrite <- Hd. now destruct hwpt0.
    - rewrite Hnew. cbn [device_list].
      rewrite remove_first_update_first by reflexivity.
      rewrite Hl1. cbn [remove_first].
      assert (Hb : has_hwpt_id id hwpt0 = true)
        by (unfold has_hwpt_id; rewrite Hh; apply Z.eqb_refl).
      now rewrite Hb. }
  destruct container2, container. cbn in *. congruence.
Qed.

(** ** Resetting the devices of a container *)

Lemma last_reset_failure_app pre l1 l2 acc :
  last_reset_failure pre (l1 ++ l2) acc
  = last_reset_failure (pre ++ l1) l2 (last_reset_failure pre l1 acc).
Proof.
  revert pre acc. induction l1 as [| c l1 IH]; intros pre acc; cbn.
  - now rewrite app_nil_r.
  - rewrite IH, <- app_assoc. reflexivity.
Qed.

Lemma device_reset_spec vbasedev s :
  exists calls,
    dev_calls (snd (vfio_device_reset vbasedev s)) = dev_calls s ++ calls /\
    vdev_id (snd (fst (vfio_device_reset vbasedev s))) = vdev_id vbasedev /\
    filter is_compute_needs_reset calls
    = (if realized vbasedev
       then [vfio_compute_needs_reset (vdev_id vbasedev)] else []) /\
    forall acc,
      (if nonzero (fst (fst (vfio_device_reset vbasedev s)))
       then fst (fst (vfio_device_reset vbasedev s)) else acc)
      = last_reset_failure (dev_calls s) calls acc.
Proof.
  unfold vfio_device_reset, dev_call.
  destruct (realized vbasedev).
  - cbv zeta. cbn [needs_reset set_needs_reset].
    destruct (nonzero (ans_out _)); cbn [fst snd dev_calls vdev_id
                                         set_needs_reset].
    + exists [vfio_compute_needs_reset (vdev_id vbasedev);
              vfio_hot_reset_multi (vdev_id vbasedev)].
      rewrite <- app_assoc. repeat split.
    + exists [vfio_compute_needs_reset (vdev_id vbasedev)].
      repeat split.
  - exists []. cbn. rewrite app_nil_r. repeat split.
Qed.

Lemma reset_device_list_spec devs :
  forall final_ret s,
  exists calls,
    dev_calls (snd (reset_device_list devs final_ret s))
    = dev_calls s ++ calls /\
    map vdev_id (snd (fst (reset_device_list devs final_ret s)))
    = map vdev_id devs /\
    filter is_compute_needs_reset calls
    = map (fun d => vfio_compute_needs_reset (vdev_id d))
        (filter realized devs) /\
    fst (fst (reset_device_list devs final_ret s))
    = last_reset_failure (dev_calls s) calls final_ret.
Proof.
  induction devs as [| d devs IH]; intros final_ret s.
  - exists []. cbn. rewrite app_nil_r. repeat split.
  - cbn [reset_device_list].
    destruct (device_reset_spec d s) as (c1 & Hc1 & Hid1 & Hf1 & Hr1).
    destruct (vfio_device_reset d s) as [[ret d'] s1]. cbn [fst snd] in *.
    specialize (IH (if nonzero ret then ret else final_ret) s1).
    destruct IH as (c2 & Hc2 & Hid2 & Hf2 & Hr2).
    destruct (reset_device_list devs _ s1) as [[r devs'] s2].
    cbn [fst snd] in *.
    exists (c1 ++ c2). rewrite Hc2, Hc1, <- app_assoc.
    split; [ reflexivity | ]. split; [ cbn; congruence | ].
    split.
    + rewrite filter_app, Hf1, Hf2. cbn [filter].
      now destruct (realized d).
    + rewrite Hr2, last_reset_failure_app, <- Hr1, Hc1. reflexivity.
Qed.

Lemma reset_hwpt_list_spec l :
  forall final_ret s,
  exists calls,
    dev_calls (snd (reset_hwpt_list l final_ret s)) = dev_calls s ++ calls /\
    map hwpt_id (snd (fst (reset_hwpt_list l final_ret s)))
    = map hwpt_id l /\
    map vdev_id
      (List.concat (map device_list
                      (snd (fst (reset_hwpt_list l final_ret s)))))
    = map vdev_id (List.concat (map device_list l)) /\
    filter is_compute_needs_reset calls
    = map (fun d => vfio_compute_needs_reset (vdev_id d))
        (filter realized (List.concat (map device_list l))) /\
    fst (fst (reset_hwpt_list l final_ret s))
    = last_reset_failure (dev_calls s) calls final_ret.
Proof.
  induction l as [| hwpt l IH]; intros final_ret s.
  - exists []. cbn. rewrite app_nil_r. repeat split.
  - cbn [reset_hwpt_list].
    destruct (reset_device_list_spec (device_list hwpt) final_ret s)
      as (c1 & Hc1 & Hid1 & Hf1 & Hr1).
    destruct (reset_device_list (device_list hwpt) final_ret s)
      as [[r1 devs] s1]. cbn [fst snd] in *.
    specialize (IH r1 s1).
    destruct IH as (c2 & Hc2 & Hh2 & Hid2 & Hf2 & Hr2).
    destruct (reset_hwpt_list l r1 s1) as [[r l'] s2]. cbn [fst snd] in *.
    exists (c1 ++ c2). rewrite Hc2, Hc1, <- app_assoc.
    split; [ reflexivity | ]. split; [ cbn; congruence | ].
    split; [ cbn; rewrite !map_app; congruence | ].
    split.
    + cbn [map List.concat]. rewrite !filter_app, map_app, Hf1, Hf2.
      reflexivity.
    + rewrite Hr2, last_reset_failure_app, <- Hr1, Hc1. reflexivity.
Qed.

(** X27: [vfio_iommufd_container_reset] goes through every device of the
    container once, hwpt by hwpt and in list order, whether or not an
    earlier reset failed: the devices it asks whether they need a reset are
    exactly the realized ones, in that order.  It returns the last answer
    other than 0 that a hot reset gave, and 0 if there was none; and it
    leaves the hwpts and their devices in place. *)
Theorem X27_container_reset_visits_all_and_returns_last_failure :
  forall (container : VFIOIOMMUFDContainer) (s : DevState),
    let '(ret, container', s') := vfio_iommufd_container_reset container s in
    exists calls,
      dev_calls s' = dev_calls s ++ calls /\
      filter is_compute_needs_reset calls
      = map (fun d => vfio_compute_needs_reset (vdev_id d))
          (filter realized (all_devices container)) /\
      ret = last_reset_failure (dev_calls s) calls 0 /\
      map hwpt_id (hwpt_list container') = map hwpt_id (hwpt_list container) /\
      map vdev_id (all_devices container')
      = map vdev_id (all_devices container).
Proof.
  intros container s. unfold vfio_iommufd_container_reset, all_devices.
  destruct (reset_hwpt_list_spec (hwpt_list container) 0 s)
    as (calls & Hc & Hh & Hid & Hf & Hr).
  destruct (reset_hwpt_list (hwpt_list container) 0 s) as [[r l] s1].
  cbn [fst snd] in *. exists calls. cbn [hwpt_list set_hwpt_list].
  auto 10.
Qed.

(** ** log_sync after region_add *)

(** The range and the index of the notifier region_add installs. *)
Lemma region_add_installs_giommu_range container src section tr
    container' src' tr' giommu :
  vfio_container_region_add container src section tr
  = (Ok (container', src'), tr') ->
  mr_is_iommu (mr section) = true ->
  giommu_list container' = giommu :: giommu_list container ->
  int128_get64
    (int128_sub
       (int128_add (int128_make64 (offset_within_region section))
          (size section))
       int128_one) = Some (n_end (n giommu)) /\
  iommu_idx (n giommu) = memory_region_iommu_attrs_to_index (mr section).
Proof.
  intros Hrun Hio Hlist.
  unfold vfio_container_region_add, vfio_container_region_add_body,
    vfio_container_region_add_fail, vfio_container_add_section_window,
    memory_region_is_iommu, memory_region_is_ram_device in Hrun.
  rewrite Hio in Hrun.
  destruct (vfio_listener_skipped_section section) eqn:Hskip.
  { skip_branch_returned Hrun. injection Hrun as <- <- <-.
    now apply cons_neq in Hlist. }
  destruct (section_misaligned section) eqn:Hmis.
  { cbn in Hrun. injection Hrun as <- <- <-.
    now apply cons_neq in Hlist. }
  cbv zeta in Hrun.
  destruct (int128_ge _ _) eqn:Hge.
  { cbn in Hrun. injection Hrun as <- <- <-.
    now apply cons_neq in Hlist. }
  destruct (nested container) eqn:Hn;
    cbv beta iota zeta delta [bind ret stop call call_void get64] in Hrun;
    repeat match type of Hrun with
           | context [match int128_get64 ?a with _ => _ end] =>
               destruct (int128_get64 a) eqn:?
           | context [match hostwin_from_range ?c ?a ?b with _ => _ end] =>
               destruct (hostwin_from_range c a b) eqn:?
           | context [if nonzero ?r then _ else _] =>
               destruct (nonzero r) eqn:?
           | context [if mr_is_ram_device ?r then _ else _] =>
               destruct (mr_is_ram_device r) eqn:?
           | context [if negb (initialized ?c) then _ else _] =>
               destruct (initialized c) eqn:?; cbn [negb] in Hrun
           | context [match error ?c with _ => _ end] =>
               destruct (error c) eqn:?
           end;
    try discriminate;
    try (injection Hrun as <- <- <-; cbn in Hlist;
         now apply cons_neq in Hlist).
  all: cbn in Hrun;
    injection Hrun as <- <- <-; cbn in Hlist;
    injection Hlist as <-;
    cbn [n n_end iommu_idx iommu_notifier_init];
    split; reflexivity.
Qed.

(** X28: log_sync finds what region_add installed.  For a section of an
    IOMMU region whose notifier [vfio_container_region_add] has installed,
    [vfio_sync_dirty_bitmap] replays the region through a dirty notifier
    over the same range and with the same index as the installed one,
    asking for mappings only, and returns 0; and for every translation the
    replay delivers, [vfio_iommu_map_dirty_notify] reads one dirty bitmap of
    [addr_mask + 1] bytes at the event's IOVA moved by the distance between
    the section's place in the address space and its place in the region,
    reported at the translated RAM address. *)
Theorem X28_log_sync_replays_installed_notifier :
  forall (container : VFIOContainer) (src : SrcRef)
         (section : MemoryRegionSection) (tr : Trace)
         (container' : VFIOContainer) (src' : SrcRef) (tr' : Trace)
         (giommu : VFIOGuestIOMMU) (tr2 : Trace),
    vfio_container_region_add container src section tr
    = (Ok (container', src'), tr') ->
    mr_is_iommu (mr section) = true ->
    giommu_list container' = giommu :: giommu_list container ->
    vfio_sync_dirty_bitmap container' section tr2
    = (Ok 0,
       tr2 ++ [ev_iommu_replay (mr_id (mr section))
                 {| notify := vfio_iommu_map_dirty_notify_fn;
                    notifier_flags := IOMMU_NOTIFIER_MAP;
                    n_start := n_start (n giommu);
                    n_end := n_end (n giommu);
                    iommu_idx := iommu_idx (n giommu) |}]) /\
    forall iotlb vaddr ram_addr read_only rdm tr3,
      target_as iotlb = address_space_memory ->
      memory_get_xlat_addr iotlb = Some (vaddr, ram_addr, read_only, rdm) ->
      vfio_iommu_map_dirty_notify container' giommu iotlb tr3
      = (Ok tt,
         tr3 ++ [ev_get_dirty_bitmap (cid container)
                   (wrap64 (iotlb_iova iotlb
                            + wrap64 (offset_within_address_space section
                                      - offset_within_region section)))
                   (wrap64 (addr_mask iotlb + 1)) ram_addr]).
Proof.
  intros container src section tr container' src' tr' giommu tr2
    Hrun Hio Hlist.
  destruct (region_add_installs_giommu _ _ _ _ _ _ _ _ Hrun Hio Hlist)
    as (_ & _ & _ & Hc' & _ & Hmr & Hoff & _ & Hstart & _).
  destruct (region_add_installs_giommu_range _ _ _ _ _ _ _ _ Hrun Hio Hlist)
    as (Hend & Hidx).
  assert (Hm : giommu_matches section giommu = true).
  { unfold giommu_matches. rewrite Hmr, Hstart, !Z.eqb_refl. reflexivity. }
  split.
  - unfold vfio_sync_dirty_bitmap, memory_region_is_iommu.
    rewrite Hio, Hlist. cbn [find]. rewrite Hm.
    unfold bind, get64. rewrite Hend.
    unfold ret, call_void, iommu_notifier_init.
    now rewrite Hmr, Hstart, Hidx.
  - intros iotlb vaddr ram_addr read_only rdm tr3 Has Hx.
    unfold vfio_iommu_map_dirty_notify, vfio_get_xlat_addr.
    apply Z.eqb_eq in Has. rewrite Has, Hx. cbn [negb].
    unfold vfio_container_get_dirty_bitmap, bind, call, ret.
    now rewrite Hoff, Hc'.
Qed.

(** X29: for a section of a discard-managed region whose listener
    [vfio_container_region_add] has installed, [vfio_sync_dirty_bitmap] asks
    the RamDiscardManager to replay the populated parts of the section and
    returns what the replay returns; on a container that holds no listener
    for the section it stops with a hardware error.  The [opaque] of the
    replay is [&vrdl], the address of the local pointer to exactly that
    listener, where the callback [vfio_ram_discard_get_dirty_bitmap] takes
    its [opaque] for a pointer to a listener. *)
Theorem X29_log_sync_replays_installed_discard_listener :
  forall (container : VFIOContainer) (src : SrcRef)
         (section : MemoryRegionSection) (tr : Trace)
         (container' : VFIOContainer) (src' : SrcRef) (tr' : Trace)
         (vrdl : VFIORamDiscardListener) (tr2 : Trace),
    vfio_container_region_add container src section tr
    = (Ok (container', src'), tr') ->
    vrdl_list container' = vrdl :: vrdl_list container ->
    let replay :=
      ev_rdm_replay_populated (mr_id (mr section)) section
        (opaque_listener_pointer vrdl) in
    vfio_sync_dirty_bitmap container' section tr2
    = (Ok (oracle tr2 replay), tr2 ++ [replay]) /\
    (find (vrdl_matches section) (vrdl_list container) = None ->
     vfio_sync_dirty_bitmap container section tr2 = (Stop hw_error, tr2)).
Proof.
  intros container src section tr container' src' tr' vrdl tr2 Hrun Hlist.
  destruct (region_add_installs_vrdl _ _ _ _ _ _ _ _ Hrun Hlist)
    as (_ & _ & Hio & _ & _ & Hc' & Hmr & Hoas & _ & Hrdm & _).
  assert (Hm : vrdl_matches section vrdl = true).
  { unfold vrdl_matches. rewrite Hmr, Hoas, !Z.eqb_refl. reflexivity. }
  cbv zeta.
  unfold vfio_sync_dirty_bitmap, vfio_sync_ram_discard_listener_dirty_bitmap,
    memory_region_is_iommu, memory_region_has_ram_discard_manager.
  rewrite Hio, Hrdm. split.
  - rewrite Hlist. cbn [find]. now rewrite Hm.
  - intros Hnone. now rewrite Hnone.
Qed.

(** ** What the fan-out keeps *)

Lemma same_identity_refl c : same_identity c c.
Proof. repeat split. Qed.

Lemma same_identity_trans a b c :
  same_identity a b -> same_identity b c -> same_identity a c.
Proof. unfold same_identity. intuition congruence. Qed.

Ltac solve_identity :=
  first [ exact I
        | assumption
        | unfold same_identity in *; cbn in *; intuition congruence ].

Lemma register_ram_discard_listener_same_identity container section :
  emits any_event (same_identity container)
    (vfio_register_ram_discard_listener container section).
Proof.
  unfold vfio_register_ram_discard_listener.
  emits_auto; solve_identity.
Qed.

Lemma map_ram_section_same_identity container src section :
  emits any_event (fun '(_, _, _, c') => same_identity container c')
    (vfio_dma_map_ram_section container src section).
Proof.
  unfold vfio_dma_map_ram_section, sub_page_misaligned,
    vfio_container_dma_map, vfio_container_dma_copy, iommufd_map,
    iommufd_copy.
  cbv zeta.
  repeat lazymatch goal with
         | |- emits _ _ (bind (vfio_register_ram_discard_listener _ _) _) =>
             eapply emits_bind;
             [ apply register_ram_discard_listener_same_identity
             | intros c' Hc' ]
         | |- _ => emits_step
         end; solve_identity.
Qed.

Lemma region_add_same_identity container src section :
  emits any_event (fun '(c', _) => same_identity container c')
    (vfio_container_region_add container src section).
Proof.
  unfold vfio_container_region_add.
  eapply emits_bind
    with (R := fun exit => same_identity container (exit_container exit)).
  - unfold vfio_container_region_add_body,
      vfio_container_add_section_window.
    cbv zeta.
    repeat lazymatch goal with
           | |- emits _ _ (bind (vfio_dma_map_ram_section _ _ _) _) =>
               eapply emits_bind;
               [ apply map_ram_section_same_identity
               | intros [[[r e] src'] c'] Hc' ]
           | |- _ => emits_step
           end; solve_identity.
  - intros [c' src' | c' src' err] Hc; cbn in Hc.
    + apply emits_ret. exact Hc.
    + unfold vfio_container_region_add_fail.
      eapply emits_bind with (R := same_identity container).
      * emits_auto; solve_identity.
      * intros c'' Hc''. apply emits_ret. exact Hc''.
Qed.

Lemma unregister_ram_discard_listener_same_identity container section :
  emits any_event (same_identity container)
    (vfio_unregister_ram_discard_listener container section).
Proof.
  unfold vfio_unregister_ram_discard_listener.
  emits_auto; solve_identity.
Qed.

Lemma unmap_ram_section_same_identity container section :
  emits any_event (same_identity container)
    (vfio_dma_unmap_ram_section container section).
Proof.
  unfold vfio_dma_unmap_ram_section,
    sub_page_misaligned, vfio_container_dma_unmap, iommufd_unmap.
  cbv zeta.
  destruct (int128_ge _ _); [ apply emits_ret; apply same_identity_refl | ].
  eapply emits_bind with (R := fun _ => True); [ emits_auto | intros end_ _ ].
  eapply emits_bind
    with (R := fun p : bool * VFIOContainer => same_identity container (snd p)).
  - repeat lazymatch goal with
           | |- emits _ _ (bind (vfio_unregister_ram_discard_listener _ _) _) =>
               eapply emits_bind;
               [ apply unregister_ram_discard_listener_same_identity
               | intros c' Hc' ]
           | |- _ => emits_step
           end; solve_identity.
  - intros [try_unmap c'] Hc'. cbn in Hc'.
    destruct try_unmap; [ | now apply emits_ret ].
    emits_auto; solve_identity.
Qed.

Lemma region_del_same_identity container section :
  emits any_event (same_identity container)
    (vfio_container_region_del container section).
Proof.
  unfold vfio_container_region_del.
  destruct (vfio_listener_skipped_section section);
    [ emits_auto; apply same_identity_refl | ].
  destruct (section_misaligned section);
    [ apply emits_ret; apply same_identity_refl | ].
  eapply emits_bind with (R := same_identity container).
  - emits_auto; solve_identity.
  - intros c1 Hc1.
    eapply emits_bind with (R := same_identity container).
    + eapply emits_weaken;
        [ apply unmap_ram_section_same_identity | auto | ].
      intros c2 Hc2. eapply same_identity_trans; eassumption.
    + intros c2 Hc2. unfold vfio_container_del_section_window.
      emits_auto; solve_identity.
Qed.

(** X30: the fan-out of region_add and of region_del returns the address
    space with the same containers in the same order: none is added,
    dropped or moved, and each keeps its identity, its backend, its fd and
    IOAS, its [nested] and [initialized] flags and its page sizes; only
    the lists of notifiers and listeners and the error latch of a container
    can differ. *)
Theorem X30_fan_out_keeps_the_containers :
  forall (space : VFIOAddressSpace) (section : MemoryRegionSection)
         (tr : Trace),
    (forall space' tr',
       vfio_listener_region_add space section tr = (Ok space', tr') ->
       as_id space' = as_id space /\
       listener_initialized space' = listener_initialized space /\
       Forall2 same_identity (containers space) (containers space')) /\
    (forall space' tr',
       vfio_listener_region_del space section tr = (Ok space', tr') ->
       as_id space' = as_id space /\
       listener_initialized space' = listener_initialized space /\
       Forall2 same_identity (containers space) (containers space')).
Proof.
  intros space section tr. split.
  - intros space' tr' Hrun. unfold vfio_listener_region_add, bind in Hrun.
    destruct (region_add_foreach (containers space) (Some None) section tr)
      as [[cs | f] tr1] eqn:Hfe; [ | discriminate ].
    unfold ret in Hrun. injection Hrun as <- <-. cbn.
    repeat split.
    revert Hfe. generalize (Some None : SrcRef). revert tr cs tr1.
    induction (containers space) as [| c l IH]; intros tr cs tr1 src Hfe;
      cbn in Hfe.
    + unfold ret in Hfe. injection Hfe as <- <-. constructor.
    + unfold bind in Hfe.
      destruct (region_add_same_identity c src section tr)
        as (evs & _ & _ & Hq).
      destruct (vfio_container_region_add c src section tr)
        as [[[c' src'] | f] tr2]; [ | discriminate ].
      specialize (Hq _ eq_refl). cbn in Hq.
      destruct (region_add_foreach l src' section tr2)
        as [[cs' | f] tr3] eqn:Hrest; [ | discriminate ].
      unfold ret in Hfe. injection Hfe as <- <-.
      constructor; [ exact Hq | ]. eapply IH. exact Hrest.
  - intros space' tr' Hrun. unfold vfio_listener_region_del, bind in Hrun.
    destruct (region_del_foreach (containers space) section tr)
      as [[cs | f] tr1] eqn:Hfe; [ | discriminate ].
    unfold ret in Hrun. injection Hrun as <- <-. cbn.
    repeat split.
    revert tr cs tr1 Hfe.
    induction (containers space) as [| c l IH]; intros tr cs tr1 Hfe;
      cbn in Hfe.
    + unfold ret in Hfe. injection Hfe as <- <-. constructor.
    + unfold bind in Hfe.
      destruct (region_del_same_identity c section tr)
        as (evs & _ & _ & Hq).
      destruct (vfio_container_region_del c section tr)
        as [[c' | f] tr2]; [ | discriminate ].
      specialize (Hq _ eq_refl).
      destruct (region_del_foreach l section tr2)
        as [[cs' | f] tr3] eqn:Hrest; [ | discriminate ].
      unfold ret in Hfe. injection Hfe as <- <-.
      constructor; [ exact Hq | ]. eapply IH. exact Hrest.
Qed.

End Pipeline.

(** ** The theorems at concrete configurations *)

(** A RAM section at [2^63] is skipped by the three entry points. *)
Lemma C7_witness :
  let section := mk_section ram_region (2 ^ 63) 0 4096 in
  vfio_listener_region_add (mk_env oracle_ok) two_container_space section []
  = (Ok two_container_space, []) /\
  vfio_listener_region_del (mk_env oracle_ok) two_container_space section []
  = (Ok two_container_space, []) /\
  vfio_listener_log_sync (mk_env oracle_ok) two_container_space section []
  = (Ok tt, []).
Proof.
  intro section.
  destruct (C7_skipped_section_no_backend_calls (mk_env oracle_ok)
              two_container_space section []
              (or_intror (or_intror eq_refl)))
    as [[_ [_ Hsync]] [Hret _]].
  destruct Hret as [Hadd Hdel].
  { unfold section, mk_section, size. lia. }
  split; [ exact Hadd | split; [ exact Hdel | exact Hsync ] ].
Defined.

(** The skip traces of region_add and region_del take [size - 1] as a
    64-bit value: a skipped section of size 0 stops both in the
    conversion's assertion, and no call has been issued. *)
Example skipped_empty_section_aborts :
  let section := mk_section mmio_region 4096 0 0 in
  vfio_listener_region_add (mk_env oracle_ok) two_container_space section []
  = (Stop assert_failed, []) /\
  vfio_listener_region_del (mk_env oracle_ok) two_container_space section []
  = (Stop assert_failed, []) /\
  vfio_listener_log_sync (mk_env oracle_ok) two_container_space section []
  = (Ok tt, []).
Proof. repeat split. Qed.

(** A section of a region that is neither RAM nor an IOMMU region, and a
    section of a protected RAM region, are skipped as well. *)
Example skipped_mmio_and_protected :
  vfio_listener_region_add (mk_env oracle_ok) two_container_space
    (mk_section mmio_region 4096 0 4096) []
  = (Ok two_container_space, []) /\
  vfio_listener_region_add (mk_env oracle_ok) two_container_space
    (mk_section protected_ram_region 4096 0 4096) []
  = (Ok two_container_space, []).
Proof. split; reflexivity. Qed.

(** A protected RAM section at [2^63] reaches the map and unmap paths of the
    pre-registration listener. *)
Lemma C10_witness :
  let container := mk_container 1 3 true true in
  let section := mk_section protected_ram_region (2 ^ 63) 0 4096 in
  vfio_prereg_listener_region_add (mk_env oracle_ok) container section []
  = match vfio_dma_map_ram_section (mk_env oracle_ok) container None
            section [] with
    | (Ok (_, _, _, container'), tr') => (Ok container', tr')
    | (Stop f, tr') => (Stop f, tr')
    end /\
  vfio_prereg_listener_region_del (mk_env oracle_ok) container section []
  = vfio_dma_unmap_ram_section (mk_env oracle_ok) container section [].
Proof.
  intros container section.
  apply (C10_prereg_filters_on_ram_only (mk_env oracle_ok) container
           section []).
  reflexivity.
Defined.

(** There the pre-registration listener maps and unmaps one page, which the
    main listener would have skipped. *)
Example prereg_maps_protected_high_section :
  let container := mk_container 1 3 true true in
  let section := mk_section protected_ram_region (2 ^ 63) 0 4096 in
  snd (vfio_prereg_listener_region_add (mk_env oracle_ok) container section [])
  = [ev_dma_map 1 (2 ^ 63) 4096 (2 ^ 40) false] /\
  snd (vfio_prereg_listener_region_del (mk_env oracle_ok) container section [])
  = [ev_dma_unmap 1 (2 ^ 63) 4096 None] /\
  snd (vfio_container_region_add (mk_env oracle_ok) container (Some None)
         section [])
  = [].
Proof. vm_compute. repeat split. Qed.

Ltac hwaddr_ok_by_computation :=
  unfold hwaddr_ok; split; [ apply Z.leb_le | apply Z.ltb_lt ]; reflexivity.

(** On a container with the window [0, 0xffff], for the overlapping window
    [0x8000, 0x1ffff]. *)
Lemma C8_witness :
  let new := {| min_iova := 32768; max_iova := 131071;
                iova_pgsizes := 4096 |} in
  ((exists w, In w (hostwin_list one_window_container) /\ win_overlap w new) ->
   vfio_host_win_add one_window_container 32768 131071 4096 []
   = (Stop hw_error, [])) /\
  (forall container' tr',
     vfio_host_win_add one_window_container 32768 131071 4096 []
     = (Ok container', tr') ->
     tr' = [] /\
     hostwin_list container' = new :: hostwin_list one_window_container /\
     windows_disjoint (hostwin_list container') /\
     Forall window_ok (hostwin_list container')) /\
  ((forall w, In w (hostwin_list one_window_container) ->
              min_iova w <= max_iova w /\ ~ win_overlap w new) ->
   32768 <= 131071 ->
   exists container',
     vfio_host_win_add one_window_container 32768 131071 4096 []
     = (Ok container', [])) /\
  (forall l container' tr',
     Forall host_win_op_ok l ->
     host_win_run l one_window_container [] = (Ok container', tr') ->
     windows_disjoint (hostwin_list container')).
Proof.
  apply (C8_host_windows_pairwise_disjoint one_window_container
           32768 131071 4096 []).
  - constructor; [ split; hwaddr_ok_by_computation | constructor ].
  - hwaddr_ok_by_computation.
  - hwaddr_ok_by_computation.
  - repeat constructor.
Defined.

(** An overlapping add is fatal, a disjoint one inserts at the head. *)
Example host_win_add_overlap_and_disjoint :
  vfio_host_win_add one_window_container 32768 131071 4096 []
  = (Stop hw_error, []) /\
  (exists c', vfio_host_win_add one_window_container 65536 131071 4096 []
              = (Ok c', []) /\
              hostwin_list c'
              = [ {| min_iova := 65536; max_iova := 131071;
                     iova_pgsizes := 4096 |};
                  {| min_iova := 0; max_iova := 65535;
                     iova_pgsizes := 4096 |} ]).
Proof.
  split; [ reflexivity | ]. eexists. split; reflexivity.
Qed.

(** C1, evaluated: two fd-based containers on the same backend fd (3), both
    advertising DMA_COPY, receive a region_add of 1 GiB of RAM at 0.  The
    specification expects one map on the first container and a copy from it
    to the second.  [vfio_dma_map_ram_section] clears [copy_dma_supported] when the
    source cell is empty and writes the cell only under
    [copy_dma_supported], so the cell stays empty: the fan-out maps on both
    containers, and no fan-out, whatever the containers, the section and the
    history, issues a copy. *)
Theorem C1_fanout_maps_twice_and_never_copies :
  vfio_listener_region_add (mk_env oracle_ok) two_container_space ram_1g []
  = (Ok two_container_space,
     [ ev_add_section_window 1 ram_1g;
       ev_memory_region_ref 100;
       ev_dma_map 1 0 (2 ^ 30) (2 ^ 40) false;
       ev_add_section_window 2 ram_1g;
       ev_memory_region_ref 100;
       ev_dma_map 2 0 (2 ^ 30) (2 ^ 40) false ]) /\
  (forall env space section tr,
     exists evs,
       snd (vfio_listener_region_add env space section tr) = tr ++ evs /\
       Forall not_copy evs).
Proof.
  split.
  - vm_compute. reflexivity.
  - intros env space section tr.
    destruct (listener_region_add_never_copies env space section tr)
      as (evs & Htr & Hev & _).
    exists evs. split; assumption.
Qed.

(** Given a source, the RAM map path does copy instead of mapping. *)
Example map_ram_section_copies_from_given_source :
  snd (vfio_dma_map_ram_section (mk_env oracle_ok)
         (mk_container 2 3 false true)
         (Some (Some (mk_container 1 3 false true))) ram_1g [])
  = [ev_dma_copy 1 2 0 (2 ^ 30) false].
Proof. vm_compute. reflexivity. Qed.

(** The RAM map path itself hands a recorded source to the copy without
    comparing backend fds: entered with a source on fd 3 and a destination
    on fd 4, both fd-based, it stops in the assertion of [iommufd_copy]
    before any call is issued.  Neither of its two callers enters it with a
    recorded source. *)
Example map_ram_section_given_source_on_other_fd :
  vfio_dma_map_ram_section (mk_env oracle_ok)
    (mk_container 2 4 false true)
    (Some (Some (mk_container 1 3 false true))) ram_1g []
  = (Stop assert_failed, []).
Proof. vm_compute. reflexivity. Qed.

(** Two fd-based containers on different backend fds (3 and 4), both
    advertising DMA_COPY: the fan-out maps on each of them and returns. *)
Example fanout_on_two_fds_maps_twice :
  vfio_listener_region_add (mk_env oracle_ok) two_fd_space ram_1g []
  = (Ok two_fd_space,
     [ ev_add_section_window 1 ram_1g;
       ev_memory_region_ref 100;
       ev_dma_map 1 0 (2 ^ 30) (2 ^ 40) false;
       ev_add_section_window 2 ram_1g;
       ev_memory_region_ref 100;
       ev_dma_map 2 0 (2 ^ 30) (2 ^ 40) false ]).
Proof. vm_compute. reflexivity. Qed.

(** C2, evaluated: region_add of an IOMMU region into a nested container.
    The callback is the nested one and no replay is requested, as claimed;
    but the notifier is registered with [IOMMU_NOTIFIER_IOTLB_EVENTS], which
    is not UNMAP-only and includes MAP. *)
Theorem C2_nested_notifier_registered_with_map_flag :
  vfio_container_region_add (mk_env oracle_ok) nested_container (Some None)
    iommu_4g []
  = (Ok (set_giommu_list nested_container
           [ {| giommu_container := 1; iommu_mr := iommu_region;
                iommu_offset := 0; n := nested_notifier |} ],
         Some None),
     [ ev_add_section_window 1 iommu_4g;
       ev_memory_region_ref 102;
       ev_iommu_set_page_size_mask 102 4096;
       ev_register_iommu_notifier 102 nested_notifier ]) /\
  notifier_flags nested_notifier <> IOMMU_NOTIFIER_UNMAP /\
  Z.land (notifier_flags nested_notifier) IOMMU_NOTIFIER_MAP <> 0.
Proof.
  split; [ vm_compute; reflexivity | ].
  split; vm_compute; discriminate.
Qed.

(** The notifier installed there turns a guest invalidation of
    [0x1000, 0x1fff] into one cache invalidation on the IOMMU region. *)
Example nested_invalidation_is_forwarded :
  let iotlb := {| target_as := 0; iotlb_iova := 4096; translated_addr := 0;
                  addr_mask := 4095; perm := IOMMU_NONE |} in
  notifier_deliver (mk_env oracle_ok) nested_container
    {| giommu_container := 1; iommu_mr := iommu_region;
       iommu_offset := 0; n := nested_notifier |} iotlb []
  = (Ok tt, [ev_invalidate_cache 102 iotlb]).
Proof. reflexivity. Qed.

Lemma ram_straddling_ok : section_ok ram_straddling.
Proof. unfold section_ok, hwaddr_ok. cbn. lia. Qed.

(** Rounding the offset 2048 down gives 0, but region_del unmaps from 4096
    (one page), not from 0: the start is not rounded down. *)
Lemma C3_counterexample :
  round_down (offset_within_address_space ram_straddling) 4096 = 0 /\
  round_down (offset_within_address_space ram_straddling
              + size ram_straddling) 4096 = 8192 /\
  snd (vfio_container_region_del (mk_env oracle_ok) plain_container
         ram_straddling [])
  = [ ev_dma_unmap 1 4096 4096 None;
      ev_memory_region_unref 100;
      ev_del_section_window 1 ram_straddling ].
Proof. vm_compute. repeat split. Qed.

(** The same section, through the theorem: one page is unmapped, from the
    rounded-up start. *)
Lemma C3_witness :
  vfio_container_region_del (mk_env oracle_ok) plain_container
    ram_straddling []
  = (Ok plain_container,
     [ ev_dma_unmap 1 4096 4096 None;
       ev_memory_region_unref 100;
       ev_del_section_window 1 ram_straddling ]).
Proof.
  pose proof (C3_region_del_unmaps_from_rounded_up_start
                (mk_env oracle_ok) plain_container ram_straddling 12 []
                eq_refl ltac:(lia) ram_straddling_ok)
    as (_ & _ & _ & _ & H).
  exact (H (conj eq_refl eq_refl) eq_refl eq_refl eq_refl).
Defined.

Lemma ram_full_span_ok : section_ok ram_full_span.
Proof. unfold section_ok, hwaddr_ok. cbn. lia. Qed.

(** A section of [2^64] bytes is unmapped in two halves. *)
Lemma C6_witness :
  vfio_container_region_del (mk_env oracle_ok) plain_container
    ram_full_span []
  = (Ok plain_container,
     [ ev_dma_unmap 1 0 (2 ^ 63) None;
       ev_dma_unmap 1 (2 ^ 63) (2 ^ 63) None;
       ev_memory_region_unref 100;
       ev_del_section_window 1 ram_full_span ]).
Proof.
  pose proof (C6_region_del_splits_full_span
                (mk_env oracle_ok) plain_container ram_full_span 12 []
                eq_refl ltac:(lia) ram_full_span_ok
                (conj eq_refl eq_refl) eq_refl eq_refl eq_refl)
    as [H _].
  exact (proj1 (H eq_refl)).
Defined.

(** There the page-aligned span is one page, non-empty and below [2^64],
    and region_del issues no unmap at all: a non-empty span below [2^64]
    does not always get one unmap. *)
Lemma C6_counterexample :
  aligned_end (mk_env oracle_ok) small_bar
  - aligned_start (mk_env oracle_ok) small_bar = 4096 /\
  vfio_container_region_del (mk_env oracle_ok) container_64k small_bar []
  = (Ok container_64k,
     [ ev_memory_region_unref 103;
       ev_del_section_window 1 small_bar ]).
Proof. vm_compute. repeat split. Qed.

Lemma three_granules_ok : populate_ok three_granules_listener three_granules.
Proof. unfold populate_ok, hwaddr_ok. cbn. lia. Qed.

(** Three granules, with a backend that refuses the second map. *)
Lemma C5_witness :
  exists mapped rest,
    spec_slices three_granules_listener three_granules = mapped ++ rest /\
    all_accepted (mk_env oracle_second_map_fails) []
      (map (slice_map plain_container three_granules) mapped) /\
    ((rest = [] /\
      vfio_ram_discard_notify_populate (mk_env oracle_second_map_fails)
        (Z.to_nat 24577) plain_container three_granules_listener
        three_granules []
      = (Ok 0, [] ++ map (slice_map plain_container three_granules) mapped))
     \/
     (exists failed rest' r,
        rest = failed :: rest' /\ r <> 0 /\
        r = oracle (mk_env oracle_second_map_fails)
              ([] ++ map (slice_map plain_container three_granules) mapped)
              (slice_map plain_container three_granules failed) /\
        vfio_ram_discard_notify_populate (mk_env oracle_second_map_fails)
          (Z.to_nat 24577) plain_container three_granules_listener
          three_granules []
        = (Ok r,
           [] ++ map (slice_map plain_container three_granules) mapped
              ++ [ slice_map plain_container three_granules failed;
                   ev_dma_unmap (cid plain_container)
                     (offset_within_address_space three_granules)
                     (size three_granules) None ]))).
Proof.
  refine (proj2 (C5_populate_maps_slices_and_rolls_back
                   (mk_env oracle_second_map_fails) plain_container
                   three_granules_listener three_granules 13
                   (Z.to_nat 24577) [] eq_refl _ three_granules_ok _)).
  - lia.
  - vm_compute. reflexivity.
Defined.

(** There the first granule is mapped, the map of the second fails, and the
    whole section is unmapped before [-ENOMEM] is returned. *)
Example populate_rolls_back_on_second_slice :
  spec_slices three_granules_listener three_granules
  = [ (0, 8192); (8192, 16384); (16384, 24576) ] /\
  vfio_ram_discard_notify_populate (mk_env oracle_second_map_fails) 4
    plain_container three_granules_listener three_granules []
  = (Ok (-12),
     [ ev_dma_map 1 (2 ^ 32) 8192 (2 ^ 40) false;
       ev_dma_map 1 (2 ^ 32 + 8192) 8192 (2 ^ 40 + 8192) false;
       ev_dma_unmap 1 (2 ^ 32) 24576 None ]).
Proof. vm_compute. split; reflexivity. Qed.

(** Scenario 6 of the specification: two granules of 2 MiB, two maps. *)
Example populate_two_granules :
  vfio_ram_discard_notify_populate (mk_env oracle_ok) 3 plain_container
    {| vrdl_container := 1; vrdl_mr := discard_ram_region;
       vrdl_offset_within_address_space := 0; vrdl_size := 4194304;
       granularity := 2097152 |}
    (mk_section discard_ram_region 0 0 4194304) []
  = (Ok 0,
     [ ev_dma_map 1 0 2097152 (2 ^ 40) false;
       ev_dma_map 1 2097152 2097152 (2 ^ 40 + 2097152) false ]).
Proof. vm_compute. reflexivity. Qed.


(** Both sections fail to map; the attach reports the error of the first. *)
Example attach_reports_first_region_error :
  fst (iommufd_attach_device_add_container (mk_env oracle_map_fails)
         empty_space fresh_container [] [ram_1g; ram_straddling] [])
  = Ok (-1,
        Some (err_prepend "memory listener initialization failed: "
                (err_prepend "Region pc.ram: " first_map_error)),
        {| as_id := 1;
           containers :=
             [ set_error fresh_container
                 (Some (err_prepend "Region pc.ram: " first_map_error)) ];
           listener_initialized := true |}).
Proof. vm_compute. reflexivity. Qed.

(** ** More on the host window table: instances *)

(** A container with two windows, as a dynamic-window backend keeps them. *)
Lemma X1_witness :
  hostwin_from_range
    (set_hostwin_list one_window_container
       [ {| min_iova := 65536; max_iova := 131071; iova_pgsizes := 4096 |};
         {| min_iova := 0; max_iova := 65535; iova_pgsizes := 4096 |} ])
    70000 80000
  = Some {| min_iova := 65536; max_iova := 131071; iova_pgsizes := 4096 |} /\
  hostwin_from_range one_window_container 65000 66000 = None /\
  forall w, In w (hostwin_list one_window_container) ->
            ~ window_contains w 65000 66000.
Proof.
  split; [ reflexivity | ]. split; [ reflexivity | ].
  exact (X1_hostwin_lookup_finds_the_containing_window
           one_window_container 65000 66000).
Defined.

Lemma X2_witness :
  vfio_host_win_del
    (set_hostwin_list one_window_container
       ({| min_iova := 65536; max_iova := 131071; iova_pgsizes := 4096 |}
        :: hostwin_list one_window_container))
    65536 131071
  = (0, one_window_container) /\
  vfio_host_win_del one_window_container 65536 131071
  = (-1, one_window_container).
Proof.
  destruct (X2_host_win_add_then_del_restores
              one_window_container 65536 131071 4096 [])
    as [Hadd Hdel].
  split.
  - apply (Hadd _ []). reflexivity.
  - apply Hdel. intros w [<- | []]. left. cbn. lia.
Defined.

Lemma X3_witness :
  hostwin_from_range
    (set_hostwin_list one_window_container
       ({| min_iova := 65536; max_iova := 131071; iova_pgsizes := 4096 |}
        :: hostwin_list one_window_container))
    70000 80000
  = Some {| min_iova := 65536; max_iova := 131071; iova_pgsizes := 4096 |}.
Proof.
  apply (X3_host_win_add_then_lookup one_window_container _
           65536 131071 4096 [] []); [ reflexivity | lia | lia ].
Defined.

(** ** What region_add maps, and what it leaves alone: instances *)

Lemma X4_witness :
  section_ok ram_straddling /\
  emits (map_within (mk_env oracle_ok) plain_container ram_straddling)
    (fun _ => True)
    (vfio_container_region_add (mk_env oracle_ok) plain_container (Some None)
       ram_straddling).
Proof.
  split; [ exact ram_straddling_ok | ].
  apply (X4_region_add_maps_the_target_page_aligned_range
           (mk_env oracle_ok) plain_container (Some None) ram_straddling 12);
    [ reflexivity | lia | exact ram_straddling_ok ].
Defined.

(** The one map of that region_add: the second page of the section, which
    is the only whole page in it. *)
Example region_add_maps_the_whole_page_inside :
  snd (vfio_container_region_add (mk_env oracle_ok) plain_container
         (Some None) ram_straddling [])
  = [ ev_add_section_window 1 ram_straddling;
      ev_memory_region_ref 100;
      ev_dma_map 1 4096 4096 (2 ^ 40 + 4096) false ].
Proof. vm_compute. reflexivity. Qed.

Lemma ram_sub_page_ok : section_ok ram_sub_page.
Proof. unfold section_ok, hwaddr_ok. cbn. lia. Qed.

Lemma X5_witness :
  vfio_container_region_add (mk_env oracle_ok) plain_container (Some None)
    ram_sub_page []
  = (Ok (plain_container, Some None), []) /\
  vfio_container_region_del (mk_env oracle_ok) plain_container ram_sub_page []
  = (Ok plain_container,
     [ ev_memory_region_unref 100;
       ev_del_section_window 1 ram_sub_page ]).
Proof.
  apply (X5_sub_page_section_unref_without_ref
           (mk_env oracle_ok) plain_container (Some None) ram_sub_page 12 []);
    [ reflexivity | lia | exact ram_sub_page_ok
    | reflexivity | reflexivity | reflexivity
    | vm_compute; discriminate ].
Defined.

Lemma X8_witness :
  avoids hw_error
    (fun '(container', _) =>
       mr_is_ram_device (mr small_bar) = true ->
       error container' = error plain_container)
    (vfio_container_region_add (mk_env oracle_map_fails) plain_container
       (Some None) small_bar).
Proof.
  apply (X8_region_add_hw_error_only_at_runtime
           (mk_env oracle_map_fails) plain_container (Some None) small_bar).
  left. reflexivity.
Defined.

(** The same failing map stops the process when the region is ordinary RAM
    and the container is initialized. *)
Example runtime_map_failure_is_fatal :
  fst (vfio_container_region_add (mk_env oracle_map_fails) plain_container
         (Some None) ram_1g [])
  = Stop hw_error.
Proof. vm_compute. reflexivity. Qed.

(** ** Copy, notifiers, discard listeners and log_sync: instances *)

Lemma ram_1g_ok : section_ok ram_1g.
Proof. unfold section_ok, hwaddr_ok. cbn. lia. Qed.

Lemma X9_witness :
  vfio_dma_map_ram_section (mk_env oracle_copy_fails) second_container
    (Some (Some plain_container)) ram_1g []
  = (Ok (0, None, Some (Some second_container), second_container),
     [ ev_dma_copy 1 2 0 (2 ^ 30) false;
       ev_dma_map 2 0 (2 ^ 30) (2 ^ 40) false ]).
Proof.
  etransitivity.
  - apply (X9_refused_copy_falls_back_to_map (mk_env oracle_copy_fails)
             second_container plain_container ram_1g 12
             {| min_iova := 0; max_iova := 2 ^ 64 - 1; iova_pgsizes := 4096 |}
             []);
      [ reflexivity | lia | exact ram_1g_ok | reflexivity
      | split; reflexivity | reflexivity | reflexivity | reflexivity
      | vm_compute; reflexivity | vm_compute; reflexivity | reflexivity ].
  - vm_compute. reflexivity.
Defined.

(** An accepted copy ends the map path with the copy alone. *)
Example accepted_copy_issues_no_map :
  vfio_dma_map_ram_section (mk_env oracle_ok) second_container
    (Some (Some plain_container)) ram_1g []
  = (Ok (0, None, Some (Some plain_container), second_container),
     [ ev_dma_copy 1 2 0 (2 ^ 30) false ]).
Proof. vm_compute. reflexivity. Qed.

Lemma iommu_high_installed :
  vfio_container_region_add (mk_env oracle_ok) plain_container (Some None)
    iommu_high []
  = (Ok (set_giommu_list plain_container [iommu_high_giommu], Some None),
     [ ev_add_section_window 1 iommu_high;
       ev_memory_region_ref 102;
       ev_iommu_set_page_size_mask 102 4096;
       ev_register_iommu_notifier 102 (n iommu_high_giommu);
       ev_iommu_replay 102 (n iommu_high_giommu) ]).
Proof. vm_compute. reflexivity. Qed.

Lemma X10_witness :
  notifier_deliver (mk_env oracle_ok)
    (set_giommu_list plain_container [iommu_high_giommu])
    iommu_high_giommu invalidate_page []
  = (Ok tt, [ ev_dma_unmap 1 (2 ^ 32 + 8192) 4096 None ]).
Proof.
  destruct (X10_installed_notifier_acts_at_section_offset
              (mk_env oracle_ok) plain_container (Some None) iommu_high []
              _ _ _ iommu_high_giommu
              iommu_high_installed eq_refl eq_refl)
    as (_ & _ & Hplain).
  destruct (Hplain eq_refl invalidate_page [] eq_refl) as [Hunmap _].
  exact (Hunmap eq_refl).
Defined.

Lemma iommu_high_ok : section_ok iommu_high.
Proof. unfold section_ok, hwaddr_ok. cbn. lia. Qed.

Lemma X11_witness :
  vfio_container_region_del (mk_env oracle_ok)
    (set_giommu_list plain_container [iommu_high_giommu]) iommu_high []
  = (Ok plain_container,
     [ ev_unregister_iommu_notifier 102 (n iommu_high_giommu);
       ev_dma_unmap 1 (2 ^ 32) (2 ^ 32) None;
       ev_memory_region_unref 102;
       ev_del_section_window 1 iommu_high ]).
Proof.
  assert (Hk : 0 <= 12 < 64) by lia.
  destruct (X11_region_del_undoes_notifier_installation
              (mk_env oracle_ok) plain_container (Some None) iommu_high 12 []
              _ _ _ iommu_high_giommu []
              eq_refl Hk
              iommu_high_ok (conj eq_refl eq_refl) eq_refl
              iommu_high_installed eq_refl)
    as [_ Hdel].
  exact Hdel.
Defined.

Lemma three_granules_installed :
  vfio_container_region_add (mk_env oracle_ok) plain_container (Some None)
    three_granules []
  = (Ok (set_vrdl_list plain_container [three_granules_listener], Some None),
     [ ev_add_section_window 1 three_granules;
       ev_memory_region_ref 106;
       ev_rdm_register_listener 106 three_granules_listener
         three_granules ]).
Proof. vm_compute. reflexivity. Qed.

Lemma X12_witness :
  vfio_container_region_del (mk_env oracle_ok)
    (set_vrdl_list plain_container [three_granules_listener])
    three_granules []
  = (Ok plain_container,
     [ ev_rdm_unregister_listener 106 three_granules_listener;
       ev_memory_region_unref 106;
       ev_del_section_window 1 three_granules ]).
Proof.
  destruct (X12_region_del_undoes_discard_listener_installation
              (mk_env oracle_ok) plain_container (Some None) three_granules []
              _ _ _ three_granules_listener []
              three_granules_installed eq_refl eq_refl)
    as [_ Hdel].
  exact Hdel.
Defined.

Lemma X14_witness :
  vfio_container_log_sync (mk_env oracle_all_tracking) plain_container
    ram_straddling []
  = (Ok tt,
     [ ev_devices_all_dirty_tracking 1;
       ev_get_dirty_bitmap 1 4096 8192 2048 ]).
Proof.
  etransitivity.
  - apply (X14_log_sync_reads_one_bitmap_for_plain_ram
             (mk_env oracle_all_tracking) plain_container ram_straddling 12
             []);
      [ reflexivity | lia | unfold hwaddr_ok; cbn; lia
      | unfold hwaddr_ok; cbn; lia
      | reflexivity | reflexivity | reflexivity | reflexivity ].
  - vm_compute. reflexivity.
Defined.

(** ** Populate, container removal and the registry: instances *)

Lemma X16_witness :
  (exists r evs,
     vfio_ram_discard_notify_populate (mk_env oracle_ok) (Z.to_nat 24577)
       plain_container three_granules_listener three_granules []
     = (Ok r, [] ++ evs) /\
     (r = 0 -> tiles 1 evs (2 ^ 32) (2 ^ 32 + 24576))) /\
  vfio_ram_discard_notify_discard (mk_env oracle_ok) plain_container
    three_granules_listener three_granules []
  = (Ok tt, [ ev_dma_unmap 1 (2 ^ 32) 24576 None ]).
Proof.
  apply (X16_successful_populate_tiles_what_discard_unmaps
           (mk_env oracle_ok) plain_container three_granules_listener
           three_granules 13 (Z.to_nat 24577) [] []);
    [ reflexivity | lia | exact three_granules_ok
    | rewrite Z2Nat.id by lia; cbn; lia ].
Defined.

(** The three maps of that populate, one per granule. *)
Example populate_three_granules :
  vfio_ram_discard_notify_populate (mk_env oracle_ok) (Z.to_nat 24577)
    plain_container three_granules_listener three_granules []
  = (Ok 0,
     [ ev_dma_map 1 (2 ^ 32) 8192 (2 ^ 40) false;
       ev_dma_map 1 (2 ^ 32 + 8192) 8192 (2 ^ 40 + 8192) false;
       ev_dma_map 1 (2 ^ 32 + 16384) 8192 (2 ^ 40 + 16384) false ]).
Proof. vm_compute. reflexivity. Qed.

(** A container that was given 1 GiB of RAM leaves its address space
    without a single call. *)
Example del_container_after_map_issues_nothing :
  vfio_as_del_container (mk_env oracle_ok)
    {| as_id := 1; containers := [plain_container];
       listener_initialized := true |}
    plain_container [ram_1g] []
  = (Ok {| as_id := 1; containers := []; listener_initialized := true |},
     []).
Proof. vm_compute. reflexivity. Qed.

Lemma X20_witness :
  vfio_put_address_space
    (snd (vfio_get_address_space no_globals 7))
    (fst (vfio_get_address_space no_globals 7))
  = {| vfio_address_spaces := [];
       reset_calls := [qemu_register_reset; qemu_unregister_reset] |}.
Proof.
  destruct (X20_put_undoes_get_of_a_new_binding no_globals 7 eq_refl)
    as [Hput _].
  exact Hput.
Defined.

(** Two address spaces come and go: one registration, one unregistration. *)
Example registry_two_spaces :
  registry_run
    [ registry_get 1; registry_get 2; registry_get 1;
      registry_put 1; registry_put 2 ]
    no_globals
  = {| vfio_address_spaces := [];
       reset_calls := [qemu_register_reset; qemu_unregister_reset] |}.
Proof. vm_compute. reflexivity. Qed.

(** ** The device side: instances *)

Lemma dev_answers_ok_valid_fds : creates_valid_fds (mk_denv true dev_answers_ok).
Proof. intros calls _. cbn. lia. Qed.

Lemma X21_witness :
  let s := kvm_run (mk_denv true dev_answers_ok)
             [kvm_del_op 20; kvm_add_op 20; kvm_add_op 21; kvm_del_op 20]
             no_device_state in
  vfio_kvm_device_fd s = 9 /\
  Forall (attr_set_on 9) (dev_calls s).
Proof.
  cbv zeta.
  destruct (X21_kvm_vfio_device_created_once (mk_denv true dev_answers_ok)
              [kvm_del_op 20; kvm_add_op 20; kvm_add_op 21; kvm_del_op 20]
              dev_answers_ok_valid_fds)
    as (_ & _ & Hone).
  destruct (Hone 9 eq_refl) as (Hfd & _ & Hattr).
  split; assumption.
Defined.

(** The calls of that run: the first delete finds no KVM VFIO device and
    does nothing; the device is created once. *)
Example kvm_run_calls :
  dev_calls
    (kvm_run (mk_denv true dev_answers_ok)
       [kvm_del_op 20; kvm_add_op 20; kvm_add_op 21; kvm_del_op 20]
       no_device_state)
  = [ kvm_create_device;
      kvm_set_device_attr 9 KVM_DEV_VFIO_GROUP_ADD 20;
      kvm_set_device_attr 9 KVM_DEV_VFIO_GROUP_ADD 21;
      kvm_set_device_attr 9 KVM_DEV_VFIO_GROUP_DEL 20 ].
Proof. vm_compute. reflexivity. Qed.

Lemma attach_on_ready_kernel :
  vfio_device_attach_container (mk_denv true dev_answers_ok)
    (mk_device 1 20 true) fd_container kvm_ready
  = (0, None, attached_device, attached_container,
     {| vfio_kvm_device_fd := 9;
        dev_calls :=
          [ kvm_set_device_attr 9 KVM_DEV_VFIO_GROUP_ADD 20;
            vfio_device_bind_iommufd 20 3 1;
            iommufd_backend_alloc_hwpt 3 5 1 (0, 0, 0);
            vfio_device_attach_iommufd_pt 20 40 ] |}).
Proof. vm_compute. reflexivity. Qed.

Lemma X23_witness :
  exists hwpt,
    vfio_find_hwpt_for_dev attached_container attached_device = Some hwpt /\
    In hwpt (hwpt_list attached_container).
Proof.
  destruct (X23_attach_container_returns_zero_iff_linked
              (mk_denv true dev_answers_ok) _ _ _ _ _ _ _ _
              attach_on_ready_kernel)
    as (_ & Hlinked & _).
  exact (Hlinked eq_refl).
Defined.

(** A failed attach ioctl: the device is taken out of KVM and an error is
    set, and yet the function returns 0 with the device linked into the
    hwpt. *)
Example attach_ioctl_failure_returns_zero :
  vfio_device_attach_container (mk_denv true dev_answers_attach_fails)
    (mk_device 1 20 true) fd_container kvm_ready
  = (0, Some attach_error, attached_device, attached_container,
     {| vfio_kvm_device_fd := 9;
        dev_calls :=
          [ kvm_set_device_attr 9 KVM_DEV_VFIO_GROUP_ADD 20;
            vfio_device_bind_iommufd 20 3 1;
            iommufd_backend_alloc_hwpt 3 5 1 (0, 0, 0);
            vfio_device_attach_iommufd_pt 20 40;
            kvm_set_device_attr 9 KVM_DEV_VFIO_GROUP_DEL 20 ] |}).
Proof. vm_compute. reflexivity. Qed.

Lemma X24_witness :
  let '(ret, errp, _, _, s') :=
    vfio_device_attach_container (mk_denv true dev_answers_attach_fails)
      (mk_device 1 20 true) fd_container kvm_ready in
  vfio_kvm_device_fd s' = 9 /\
  (ret, errp, dev_calls s')
  = (0, Some attach_error,
     [ kvm_set_device_attr 9 KVM_DEV_VFIO_GROUP_ADD 20;
       vfio_device_bind_iommufd 20 3 1;
       iommufd_backend_alloc_hwpt 3 5 1 (0, 0, 0);
       vfio_device_attach_iommufd_pt 20 40;
       kvm_set_device_attr 9 KVM_DEV_VFIO_GROUP_DEL 20 ]).
Proof.
  assert (Hfd : 0 <= vfio_kvm_device_fd kvm_ready) by (cbn; lia).
  exact (X24_attach_container_calls (mk_denv true dev_answers_attach_fails)
           (mk_device 1 20 true) fd_container kvm_ready eq_refl Hfd).
Defined.

Lemma fd_container_ok : hwpt_list_ok fd_container.
Proof. split; constructor. Qed.

Lemma fd_container_linked_once : linked_once fd_container.
Proof. constructor. Qed.

Lemma X25_witness :
  (hwpt_list_ok attached_container /\ linked_once attached_container) /\
  exists errp container' s',
    vfio_device_detach_container (mk_denv true dev_answers_ok)
      (mk_device 1 20 true) fd_container kvm_ready
    = (Ok (errp, container'), s') /\
    hwpt_list_ok container' /\ linked_once container'.
Proof.
  destruct (X25_attach_and_detach_keep_hwpt_list_well_formed
              (mk_denv true dev_answers_ok) (mk_device 1 20 true)
              fd_container kvm_ready fd_container_ok
              fd_container_linked_once)
    as [Hattach Hdetach].
  split; [ | exact Hdetach ].
  specialize (Hattach eq_refl).
  rewrite attach_on_ready_kernel in Hattach. exact Hattach.
Defined.

Lemma X26_witness :
  exists errp2 s3,
    vfio_device_detach_container (mk_denv true dev_answers_ok)
      attached_device attached_container kvm_ready
    = (Ok (errp2, fd_container), s3).
Proof.
  destruct (X26_detach_container_undoes_attach
              (mk_denv true dev_answers_ok) (mk_device 1 20 true)
              fd_container kvm_ready None attached_device
              attached_container _ kvm_ready
              fd_container_ok eq_refl attach_on_ready_kernel)
    as [_ Hdetach].
  exact Hdetach.
Defined.

(** The reset of three devices in two hwpts: device 2 is not realized and
    is passed over, the hot reset of device 1 fails with -5 and device 3 is
    reset all the same; -5 is returned. *)
Example reset_continues_after_failure :
  let '(ret, _, s') :=
    vfio_iommufd_container_reset (mk_denv true dev_answers_reset_fails)
      three_device_container kvm_ready in
  ret = -5 /\
  dev_calls s'
  = [ vfio_compute_needs_reset 1; vfio_hot_reset_multi 1;
      vfio_compute_needs_reset 3; vfio_hot_reset_multi 3 ].
Proof. vm_compute. split; reflexivity. Qed.

(** ** log_sync after region_add, and the fan-out: instances *)

Lemma X22_witness :
  let s := kvm_run (mk_denv false dev_answers_ok)
             [kvm_add_op 20; kvm_del_op 20] no_device_state in
  s = no_device_state /\
  vfio_kvm_device_add_fd (mk_denv false dev_answers_ok) 20 s = (0, s) /\
  vfio_kvm_device_del_fd (mk_denv false dev_answers_ok) 20 s = (- EINVAL, s).
Proof.
  exact (X22_without_kvm_every_delete_fails (mk_denv false dev_answers_ok)
           [kvm_add_op 20; kvm_del_op 20] 20 eq_refl).
Defined.

Lemma iommu_high_installed_xlat :
  vfio_container_region_add xlat_env plain_container (Some None)
    iommu_high []
  = (Ok (set_giommu_list plain_container [iommu_high_giommu], Some None),
     [ ev_add_section_window 1 iommu_high;
       ev_memory_region_ref 102;
       ev_iommu_set_page_size_mask 102 4096;
       ev_register_iommu_notifier 102 (n iommu_high_giommu);
       ev_iommu_replay 102 (n iommu_high_giommu) ]).
Proof. vm_compute. reflexivity. Qed.

Lemma X28_witness :
  vfio_sync_dirty_bitmap xlat_env
    (set_giommu_list plain_container [iommu_high_giommu]) iommu_high []
  = (Ok 0,
     [ ev_iommu_replay 102
         {| notify := vfio_iommu_map_dirty_notify_fn;
            notifier_flags := IOMMU_NOTIFIER_MAP;
            n_start := 0; n_end := 2 ^ 32 - 1; iommu_idx := 0 |} ]) /\
  vfio_iommu_map_dirty_notify xlat_env
    (set_giommu_list plain_container [iommu_high_giommu])
    iommu_high_giommu map_page []
  = (Ok tt, [ ev_get_dirty_bitmap 1 (2 ^ 32 + 8192) 4096 12288 ]).
Proof.
  destruct (X28_log_sync_replays_installed_notifier
              xlat_env plain_container (Some None) iommu_high []
              _ _ _ iommu_high_giommu []
              iommu_high_installed_xlat eq_refl eq_refl)
    as [Hsync Hread].
  split; [ exact Hsync | ].
  exact (Hread map_page _ _ _ _ [] eq_refl eq_refl).
Defined.

Lemma X29_witness :
  vfio_sync_dirty_bitmap (mk_env oracle_ok)
    (set_vrdl_list plain_container [three_granules_listener])
    three_granules []
  = (Ok 0,
     [ ev_rdm_replay_populated 106 three_granules
         (opaque_listener_pointer three_granules_listener) ])
  /\
  vfio_sync_dirty_bitmap (mk_env oracle_ok) plain_container three_granules []
  = (Stop hw_error, []).
Proof.
  destruct (X29_log_sync_replays_installed_discard_listener
              (mk_env oracle_ok) plain_container (Some None) three_granules []
              _ _ _ three_granules_listener []
              three_granules_installed eq_refl)
    as (Hsync & Hmissing).
  split; [ exact Hsync | exact (Hmissing eq_refl) ].
Defined.

Lemma X30_witness :
  Forall2 same_identity (containers one_container_space)
    [set_giommu_list plain_container [iommu_high_giommu]].
Proof.
  destruct (X30_fan_out_keeps_the_containers (mk_env oracle_ok)
              one_container_space iommu_high [])
    as [Hadd _].
  refine (proj2 (proj2 (Hadd
            {| as_id := 1;
               containers :=
                 [set_giommu_list plain_container [iommu_high_giommu]];
               listener_initialized := true |} _ _))).
  vm_compute. reflexivity.
Defined.

Lemma X13_witness :
  vfio_listener_log_sync (mk_env oracle_all_tracking)
    {| as_id := 1; containers := [one_window_container];
       listener_initialized := true |}
    ram_straddling []
  = (Ok tt, []).
Proof.
  destruct (X13_log_sync_only_queries (mk_env oracle_all_tracking)
              {| as_id := 1; containers := [one_window_container];
                 listener_initialized := true |}
              ram_straddling)
    as [_ Hnone].
  exact (Hnone eq_refl []).
Defined.

Lemma X18_witness :
  vfio_get_address_space (snd (vfio_get_address_space no_globals 7)) 7
  = vfio_get_address_space no_globals 7.
Proof.
  destruct (X18_get_address_space_is_idempotent no_globals 7)
    as (_ & _ & Hagain & _).
  exact Hagain.
Defined.
